(** * as3.py: the AS3 package lifecycle manager, embedded and verified

    The module [src/as3.py] drives a BIG-IP device through the iCR REST
    client and the GitHub releases API through [requests].  This file gives
    a shallow embedding of the class [as3] (Python 3 semantics) and proves
    the properties the specification states about it, and further
    properties of the code: what each method calls and leaves alone, what
    it returns, and where an exception leaves it.

    - Python values are the inductive [val]; the dynamic checks the source
      relies on (truthiness, [in], subscripting, [+] on strings, [str()])
      are functions that return a value or raise an exception.
    - A method is a computation in the monad [M]: it threads the instance
      attributes, the files of the working directory and the trace of
      calls made to the outside, and ends with a value, an exception, or
      with the recursion budget exhausted.
    - The device, the HTTP layer and the json library are not code of the
      module: they are the fields of [world] and [pylib].  An answer of the
      outside may depend on everything that happened before, so each oracle
      reads the trace.
    - The working directory is a finite map from names to contents;
      opening a file for writing always succeeds.

    The definitions come first: values, the outside, the methods, a
    scripted catalog and device to run them on, and the notions the
    statements use.  The proofs follow, method by method, and the file ends
    with the theorems applied to the scenarios. *)

From Stdlib Require Import ZArith String Ascii List Bool DecimalString Lia.
From stdpp Require Import base option list strings gmap.

Open Scope Z_scope.
Set Warnings "-register-all".

(** ** Python values *)

Inductive exn : Type :=
| TypeError (msg : string)
| KeyError (key : string)
| AttributeError (msg : string)
| ValueError (msg : string)
| RequestException (msg : string).

(** Strings are sequences of 8-bit characters, so [str] and [bytes] share
    [VStr]; [encode('utf-8')] is the identity on it.  [VIter] is the
    generator that [iter_content] returns, [VExc] an exception object
    (the value [github] stores in [self.error]). *)
Inductive val : Type :=
| VNone
| VBool (b : bool)
| VInt (n : Z)
| VStr (s : string)
| VList (l : list val)
| VDict (d : list (string * val))
| VIter (chunks : list string)
| VExc (e : exn).

Definition VFalse : val := VBool false.
Definition VTrue : val := VBool true.

Inductive result (A : Type) : Type :=
| Ok (a : A)
| Raise (e : exn)
| OutOfFuel.
Arguments Ok {A} a.
Arguments Raise {A} e.
Arguments OutOfFuel {A}.

(** An expression evaluates to a value or raises. *)
Inductive outcome (A : Type) : Type :=
| Val (a : A)
| Exn (e : exn).
Arguments Val {A} a.
Arguments Exn {A} e.

(** [bool(v)], the test behind [if v] and [not v]. *)
Definition truthy (v : val) : bool :=
  match v with
  | VNone => false
  | VBool b => b
  | VInt n => negb (n =? 0)
  | VStr s => negb (String.eqb s "")
  | VList l => match l with [] => false | _ => true end
  | VDict d => match d with [] => false | _ => true end
  | VIter _ => true
  | VExc _ => true
  end.

Fixpoint assoc (k : string) (d : list (string * val)) : option val :=
  match d with
  | [] => None
  | (k', v) :: d' => if String.eqb k k' then Some v else assoc k d'
  end.

(** [a == b].  Booleans are the integers 0 and 1; lists compare element by
    element; mappings compare as sets of items.  Generators and exception
    objects compare by identity, which the model does not track: they are
    never equal here. *)
Fixpoint py_eq (a b : val) {struct a} : bool :=
  match a with
  | VNone => match b with VNone => true | _ => false end
  | VBool x =>
      match b with
      | VBool y => Bool.eqb x y
      | VInt n => n =? (if x then 1 else 0)
      | _ => false
      end
  | VInt n =>
      match b with
      | VInt m => n =? m
      | VBool y => n =? (if y then 1 else 0)
      | _ => false
      end
  | VStr s => match b with VStr t => String.eqb s t | _ => false end
  | VList l =>
      match b with
      | VList m =>
          (fix each (l : list val) (m : list val) {struct l} : bool :=
             match l, m with
             | [], [] => true
             | x :: l', y :: m' => py_eq x y && each l' m'
             | _, _ => false
             end) l m
      | _ => false
      end
  | VDict d =>
      match b with
      | VDict e =>
          (length d =? length e)%nat &&
          (fix items (d : list (string * val)) {struct d} : bool :=
             match d with
             | [] => true
             | (k, v) :: d' =>
                 match assoc k e with
                 | Some w => py_eq v w
                 | None => false
                 end && items d'
             end) d
      | _ => false
      end
  | VIter _ => false
  | VExc _ => false
  end.

(** The text of an exception, [str(e)]; a KeyError shows its key quoted. *)
Definition exn_text (e : exn) : string :=
  match e with
  | KeyError k => "'" +:+ k +:+ "'"
  | TypeError m | AttributeError m | ValueError m | RequestException m => m
  end.

Definition str_of_Z (n : Z) : string := NilZero.string_of_int (Z.to_int n).

(** [s.endswith(suffix)] on strings. *)
Definition ends_with (suffix s : string) : bool :=
  let n := String.length s in
  let k := String.length suffix in
  (k <=? n)%nat && String.eqb (substring (n - k) k s) suffix.

(** [needle in s] on strings. *)
Definition contains (needle s : string) : bool :=
  match index 0 needle s with Some _ => true | None => false end.

Fixpoint chars (s : string) : list val :=
  match s with
  | EmptyString => []
  | String c s' => VStr (String c EmptyString) :: chars s'
  end.

(** [key in v] for a string key: membership of a key in a mapping, of an
    element in a list, of a substring in a string; a type error on values
    that are not containers. *)
Definition py_in (key : string) (v : val) : outcome bool :=
  match v with
  | VDict d => Val (match assoc key d with Some _ => true | None => false end)
  | VList l => Val (existsb (py_eq (VStr key)) l)
  | VStr s => Val (contains key s)
  | VIter _ => Val false
  | VNone | VBool _ | VInt _ | VExc _ =>
      Exn (TypeError "argument is not iterable")
  end.

(** [v[key]] for a string key. *)
Definition py_getitem (v : val) (key : string) : outcome val :=
  match v with
  | VDict d =>
      match assoc key d with
      | Some x => Val x
      | None => Exn (KeyError key)
      end
  | VStr _ => Exn (TypeError "string indices must be integers")
  | VList _ => Exn (TypeError "list indices must be integers or slices, not str")
  | VNone | VBool _ | VInt _ | VIter _ | VExc _ =>
      Exn (TypeError "object is not subscriptable")
  end.

(** [s + v] with a string on the left. *)
Definition str_add (s : string) (v : val) : outcome string :=
  match v with
  | VStr t => Val (s +:+ t)
  | _ => Exn (TypeError "can only concatenate str to str")
  end.

(** [for x in v]: the elements the loop visits. *)
Definition py_iter (v : val) : outcome (list val) :=
  match v with
  | VList l => Val l
  | VDict d => Val (map (fun kv => VStr (fst kv)) d)
  | VStr s => Val (chars s)
  | VIter c => Val (map VStr c)
  | VNone | VBool _ | VInt _ | VExc _ =>
      Exn (TypeError "object is not iterable")
  end.

(** [v.endswith(suffix)]: only strings have the method. *)
Definition py_endswith (v : val) (suffix : string) : outcome bool :=
  match v with
  | VStr s => Val (ends_with suffix s)
  | _ => Exn (AttributeError "object has no attribute endswith")
  end.

(** [v.encode('utf-8','replace')]. *)
Definition py_encode (v : val) : outcome string :=
  match v with
  | VStr s => Val s
  | _ => Exn (AttributeError "object has no attribute encode")
  end.

(** ** The libraries outside the module *)

(** [json.loads] raises on malformed text and [json.dumps] on a value it
    cannot serialise ([None] stands for the exception); [repr] prints
    lists, mappings and generators. *)
Record pylib : Type := {
  json_loads : string -> option val;
  json_dumps : val -> option string;
  repr : val -> string
}.

(** [str(v)]. *)
Definition py_str (L : pylib) (v : val) : string :=
  match v with
  | VNone => "None"
  | VBool true => "True"
  | VBool false => "False"
  | VInt n => str_of_Z n
  | VStr s => s
  | VExc e => exn_text e
  | VList _ | VDict _ | VIter _ => repr L v
  end.

(** [response.iter_content(chunk_size)] on a body that was read in full:
    consecutive slices of [size] bytes. *)
Fixpoint slices (fuel : nat) (size : nat) (s : string) : list string :=
  match fuel with
  | O => []
  | S fuel' =>
      match s with
      | EmptyString => []
      | _ =>
          substring 0 size s
          :: slices fuel' size (substring size (String.length s - size) s)
      end
  end.

Definition iter_content (chunk_size : nat) (content : string) : list string :=
  slices (String.length content) chunk_size content.

(** ** What the module does to the outside *)

(** An HTTP request as [github] builds it. *)
Record request : Type := {
  rq_method : string;
  rq_uri : string;
  rq_headers : list (string * string);
  rq_data : option string
}.

(** [requests.get] and [requests.post] raise, or return a response whose
    body has been read: status code, [text] and the raw [content]. *)
Inductive http_reply : Type :=
| HttpRaise (e : exn)
| HttpResponse (status_code : Z) (text : string) (content : string).

Inductive event : Type :=
| EPrint (msg : string)
| ENewSession (host username password : string) (port : val) (debug : bool)
| EGetToken
| ECommand (cmd : string)
| EUpload (filename : string)
| ECreate (path : string) (data : val)
| EGet (path : string)
| ERequest (rq : request)
| EWrite (filename : string) (content : string)
| ESleep (seconds : Z).

(** The attributes of an iCR object that the module reads. *)
Record icr : Type := {
  icr_truthy : bool;
  icr_token : val;
  icr_code : val;
  icr_error : string
}.

(** What a call on the session leaves behind: its return value and the
    [code] and [error] attributes of the session after it. *)
Record dev_reply : Type := {
  reply : val;
  code_after : val;
  error_after : string
}.

(** The device and the network.  Each oracle receives the trace of the
    events before the call (newest first) and the arguments of the call. *)
Record world : Type := {
  iCR_new : list event -> string -> string -> string -> val -> bool -> icr;
  iCR_get_token : list event -> dev_reply;
  iCR_command : list event -> string -> dev_reply;
  iCR_upload : list event -> string -> dev_reply;
  iCR_create : list event -> string -> val -> dev_reply;
  iCR_get : list event -> string -> dev_reply;
  requests_send : list event -> request -> http_reply
}.

(** ** The instance and the monad of its methods *)

(** The attributes set by [__init__], the files of the working directory
    and the trace.  [self_bigip = None] is the initial [False]. *)
Record state : Type := {
  self_debug : bool;
  self_host : string;
  self_username : string;
  self_password : string;
  self_port : val;
  self_usetoken : bool;
  self_bigip : option icr;
  self_error : val;
  files : gmap string string;
  trace : list event
}.

(** A fresh instance with the defaults of [__init__]. *)
Definition init (fs : gmap string string) : state :=
  {| self_debug := false; self_host := "127.0.0.1"; self_username := "admin";
     self_password := "admin"; self_port := VStr "443"; self_usetoken := false;
     self_bigip := None; self_error := VStr ""; files := fs; trace := [] |}.

Definition with_error (e : val) (st : state) : state :=
  {| self_debug := self_debug st; self_host := self_host st;
     self_username := self_username st; self_password := self_password st;
     self_port := self_port st; self_usetoken := self_usetoken st;
     self_bigip := self_bigip st; self_error := e;
     files := files st; trace := trace st |}.

Definition with_bigip (b : option icr) (st : state) : state :=
  {| self_debug := self_debug st; self_host := self_host st;
     self_username := self_username st; self_password := self_password st;
     self_port := self_port st; self_usetoken := self_usetoken st;
     self_bigip := b; self_error := self_error st;
     files := files st; trace := trace st |}.

Definition with_files (fs : gmap string string) (st : state) : state :=
  {| self_debug := self_debug st; self_host := self_host st;
     self_username := self_username st; self_password := self_password st;
     self_port := self_port st; self_usetoken := self_usetoken st;
     self_bigip := self_bigip st; self_error := self_error st;
     files := fs; trace := trace st |}.

Definition with_trace (t : list event) (st : state) : state :=
  {| self_debug := self_debug st; self_host := self_host st;
     self_username := self_username st; self_password := self_password st;
     self_port := self_port st; self_usetoken := self_usetoken st;
     self_bigip := self_bigip st; self_error := self_error st;
     files := files st; trace := t |}.

Definition M (A : Type) : Type := state -> result A * state.

Definition ret {A} (a : A) : M A := fun st => (Ok a, st).

Definition bind {A B} (m : M A) (k : A -> M B) : M B :=
  fun st =>
    match m st with
    | (Ok a, st') => k a st'
    | (Raise e, st') => (Raise e, st')
    | (OutOfFuel, st') => (OutOfFuel, st')
    end.

Notation "'let*' x ':=' m 'in' k" := (bind m (fun x => k))
  (at level 10, x name, m at level 100, k at level 200).
Notation "m ';;;' k" := (bind m (fun _ => k))
  (at level 100, k at level 200, right associativity).

Definition raise {A} (e : exn) : M A := fun st => (Raise e, st).

(** An expression that may raise, evaluated inside a method. *)
Definition eval {A} (o : outcome A) : M A :=
  fun st =>
    match o with
    | Val a => (Ok a, st)
    | Exn e => (Raise e, st)
    end.

Definition gets {A} (f : state -> A) : M A := fun st => (Ok (f st), st).

Definition modify (f : state -> state) : M unit := fun st => (Ok tt, f st).

Definition emit (ev : event) : M unit :=
  modify (fun st => with_trace (ev :: trace st) st).

(** [self.error = v]. *)
Definition set_error (v : val) : M unit := modify (with_error v).

(** Expressions compose like computations. *)
Definition rbind {A B} (o : outcome A) (k : A -> outcome B) : outcome B :=
  match o with
  | Val a => k a
  | Exn e => Exn e
  end.

Definition expect_str (e : exn) (v : val) : outcome string :=
  match v with
  | VStr s => Val s
  | _ => Exn e
  end.

(** A [return] inside a block leaves the method; the blocks of a long
    method end with [Return v] or hand a value to the next block. *)
Inductive flow (A : Type) : Type :=
| Return (v : val)
| Continue (a : A).
Arguments Return {A} v.
Arguments Continue {A} a.

Definition continue_with {A} (m : M (flow A)) (k : A -> M val) : M val :=
  let* r := m in
  match r with
  | Return v => ret v
  | Continue a => k a
  end.

(** The connection keywords of a call, and their values once the defaults
    of the instance are filled in (lines 171-175, 247-251, 286-290). *)
Record conn_kw : Type := {
  kw_host : option string;
  kw_username : option string;
  kw_password : option string;
  kw_usetoken : option bool;
  kw_port : option val
}.

Record conn : Type := {
  host : string;
  username : string;
  password : string;
  usetoken : bool;
  port : val
}.

Definition no_kw : conn_kw :=
  {| kw_host := None; kw_username := None; kw_password := None;
     kw_usetoken := None; kw_port := None |}.

Definition resolve (kw : conn_kw) (st : state) : conn :=
  {| host := default (self_host st) (kw_host kw);
     username := default (self_username st) (kw_username kw);
     password := default (self_password st) (kw_password kw);
     usetoken := default false (kw_usetoken kw);
     port := default (self_port st) (kw_port kw) |}.

Definition explicit (c : conn) : conn_kw :=
  {| kw_host := Some (host c); kw_username := Some (username c);
     kw_password := Some (password c); kw_usetoken := Some (usetoken c);
     kw_port := Some (port c) |}.

(** The keywords of [github]. *)
Record github_kw : Type := {
  gh_method : string;
  gh_data : val;
  gh_useragent : string;
  gh_stream : bool
}.

Definition github_defaults : github_kw :=
  {| gh_method := "get"; gh_data := VDict []; gh_useragent := "as3";
     gh_stream := false |}.

Definition github_stream : github_kw :=
  {| gh_method := "get"; gh_data := VDict []; gh_useragent := "as3";
     gh_stream := true |}.

Definition tasks_uri : string := "/mgmt/shared/iapp/package-management-tasks".
Definition info_uri : string := "/mgmt/shared/appsvcs/info".

(** ** The methods of class [as3] *)

Section Methods.

Variable L : pylib.
Variable W : world.

(** [json.loads(v)]. *)
Definition loads (v : val) : outcome val :=
  match v with
  | VStr s =>
      match json_loads L s with
      | Some x => Val x
      | None => Exn (ValueError "Expecting value")
      end
  | _ => Exn (TypeError "the JSON object must be str, bytes or bytearray")
  end.

(** [_debug], lines 47-63. *)
Definition _debug (msg : string) : M unit :=
  let* d := gets self_debug in
  if d then emit (EPrint ("DEBUG: " +:+ msg)) else ret tt.

(** The session after a call that answered [r]. *)
Definition answered (r : dev_reply) (b : icr) : icr :=
  {| icr_truthy := icr_truthy b; icr_token := icr_token b;
     icr_code := code_after r; icr_error := error_after r |}.

(** A method call on [self.bigip]: the session answers and its [code] and
    [error] attributes change.  Before any connection [self.bigip] is
    [False], which has no methods. *)
Definition session_call (ev : event) (answer : list event -> dev_reply)
  : M val :=
  fun st =>
    match self_bigip st with
    | None => (Raise (AttributeError "bool object has no such attribute"), st)
    | Some b =>
        let r := answer (trace st) in
        (Ok (reply r),
         with_bigip (Some (answered r b)) (with_trace (ev :: trace st) st))
    end.

(** [self.bigip.code] and [self.bigip.error]. *)
Definition session_attr {A} (f : icr -> A) : M A :=
  fun st =>
    match self_bigip st with
    | None => (Raise (AttributeError "bool object has no such attribute"), st)
    | Some b => (Ok (f b), st)
    end.

(** [not self.bigip]. *)
Definition connected (st : state) : bool :=
  match self_bigip st with
  | Some b => icr_truthy b
  | None => false
  end.

(** [bigipConnect], lines 65-111.  The [debug] keyword its callers pass is
    never read. *)
Definition bigipConnect (kw : conn_kw) : M val :=
  let* c := gets (resolve kw) in
  let* dbg := gets self_debug in
  let* t := gets trace in
  let bigip := iCR_new W t (host c) (username c) (password c) (port c) dbg in
  emit (ENewSession (host c) (username c) (password c) (port c) dbg) ;;;
  if usetoken c then
    _debug "Retrieving token" ;;;
    let* t := gets trace in
    let r := iCR_get_token W t in
    emit EGetToken ;;;
    let bigip :=
      {| icr_truthy := icr_truthy bigip; icr_token := reply r;
         icr_code := code_after r; icr_error := error_after r |} in
    _debug ("Retrieved token: " +:+ py_str L (icr_token bigip)) ;;;
    if py_eq (icr_token bigip) VFalse then
      set_error (VStr ("Cannot retrieve token from host " +:+ host c
                       +:+ " with username " +:+ username c)) ;;;
      ret VFalse
    else
      modify (with_bigip (Some bigip)) ;;;
      ret VTrue
  else if negb (icr_truthy bigip) then
    set_error (VStr (icr_error bigip)) ;;;
    _debug ("BIG-IP connection error:" +:+ icr_error bigip) ;;;
    ret VFalse
  else
    _debug "BIG-IP connection success" ;;;
    modify (with_bigip (Some bigip)) ;;;
    ret VTrue.

(** Lines 178-180, 254-256 and 293-295: connect unless a session is there;
    [false] when the connection fails. *)
Definition ensure_session (c : conn) : M bool :=
  let* up := gets connected in
  if up then ret true
  else
    let* r := bigipConnect (explicit c) in
    ret (truthy r).

(** [requests.get] or [requests.post]. *)
Definition send (rq : request) : M http_reply :=
  fun st =>
    (Ok (requests_send W (trace st) rq),
     with_trace (ERequest rq :: trace st) st).

(** [github], lines 113-164.  [attempt] is the [try] block: everything it
    raises, the failure of [json.dumps] included, reaches the [except]
    clause. *)
Definition github (url : string) (kw : github_kw) : M val :=
  let headers :=
    [("User-Agent", gh_useragent kw); ("Content-Type", "application/json")] in
  let headers :=
    if gh_stream kw
    then headers ++ [("Accept", "application/octet-stream")]
    else headers in
  let uri :=
    "https://api.github.com/repos/F5Networks/f5-appsvcs-extension/" +:+ url in
  _debug ("github: URI = " +:+ uri) ;;;
  let* attempt :=
    if String.eqb (gh_method kw) "post" then
      match json_dumps L (gh_data kw) with
      | None => ret (HttpRaise (TypeError "Object is not JSON serializable"))
      | Some dataJson =>
          send {| rq_method := "post"; rq_uri := uri; rq_headers := headers;
                  rq_data := Some dataJson |}
      end
    else
      send {| rq_method := "get"; rq_uri := uri; rq_headers := headers;
              rq_data := None |} in
  match attempt with
  | HttpRaise e =>
      set_error (VExc e) ;;;
      ret VFalse
  | HttpResponse status_code text content =>
      _debug ("github: Response code " +:+ str_of_Z status_code) ;;;
      if negb (status_code =? 200) then
        set_error (VStr ("Response code is " +:+ str_of_Z status_code)) ;;;
        ret VFalse
      else if gh_stream kw then ret (VIter (iter_content 1024 content))
      else ret (VStr text)
  end.

(** [open(name,'wb')] creates or truncates the file; [fd.write(chunk)]
    appends to it. *)
Definition open_wb (name : string) : M unit :=
  modify (fun st => with_files (<[name := ""]> (files st)) st).

Definition fd_write (name : string) (chunk : string) : M unit :=
  modify (fun st =>
    with_trace (EWrite name chunk :: trace st)
      (with_files (<[name := default "" (files st !! name) +:+ chunk]> (files st))
         st)).

(** Lines 369-370: [for chunk in response: fd.write(chunk)]. *)
Fixpoint write_chunks (name : string) (chunks : list val) : M unit :=
  match chunks with
  | [] => ret tt
  | chunk :: rest =>
      let* b := eval (expect_str (TypeError "a bytes-like object is required") chunk) in
      fd_write name b ;;;
      write_chunks name rest
  end.

(** The loop over the assets, lines 360-371.  When no asset matches the
    loop ends and so does the method, without a [return]: the caller gets
    [None]. *)
Fixpoint assets_loop (assets : list val) : M val :=
  match assets with
  | [] => ret VNone
  | file :: rest =>
      let* name :=
        eval (rbind (py_getitem file "name")
                (expect_str (AttributeError "object has no attribute endswith"))) in
      if ends_with "rpm" name then
        let* id := eval (py_getitem file "id") in
        _debug ("Downloading file name:"
                +:+ (name +:+ ", Asset ID:" +:+ py_str L id)) ;;;
        let* response := github ("releases/assets/" +:+ py_str L id) github_stream in
        if negb (truthy response) then
          _debug "Download failed:" ;;;
          ret VFalse
        else
          open_wb name ;;;
          let* chunks := eval (py_iter response) in
          write_chunks name chunks ;;;
          ret (VStr name)
      else assets_loop rest
  end.

(** [retrieveVersion], lines 325-371; [release] is the keyword, [False]
    when it is not given.  [fuel] bounds the depth of the recursive call of
    line 344. *)
Fixpoint retrieveVersion (fuel : nat) (release : val) : M val :=
  match fuel with
  | O => fun st => (OutOfFuel, st)
  | S fuel' =>
      if negb (truthy release) then
        let* r := github "releases/latest" github_defaults in
        if negb (truthy r) then ret VFalse
        else
          let* latest := eval (rbind (loads r) (fun d => py_getitem d "id")) in
          retrieveVersion fuel' latest
      else
        let uri := "releases/" +:+ py_str L release in
        let* response := github uri github_defaults in
        if negb (truthy response) then ret VFalse
        else
          let* release := eval (loads response) in
          let* shown :=
            eval (rbind (py_getitem release "name") (str_add "Release version:")) in
          let* id := eval (py_getitem release "id") in
          _debug (shown +:+ ", ID:" +:+ py_str L id) ;;;
          let* body := eval (rbind (py_getitem release "body") py_encode) in
          let* notes :=
            eval (rbind (py_getitem release "name") (str_add "release-notes-")) in
          open_wb (notes +:+ ".txt") ;;;
          fd_write (notes +:+ ".txt") body ;;;
          let* assets := eval (rbind (py_getitem release "assets") py_iter) in
          assets_loop assets
  end.

(** The loop of [versionToId], lines 318-323. *)
Fixpoint releases_loop (version : val) (releases : list val) : M val :=
  match releases with
  | [] => ret VFalse
  | release :: rest =>
      let* shown :=
        eval (rbind (py_getitem release "name") (str_add "Release version:")) in
      let* id := eval (py_getitem release "id") in
      _debug (shown +:+ ", ID:" +:+ py_str L id) ;;;
      let* name := eval (py_getitem release "name") in
      if String.eqb (py_str L name) (py_str L version) then
        let* id := eval (py_getitem release "id") in
        ret (VStr (py_str L id))
      else releases_loop version rest
  end.

(** [versionToId], lines 310-323. *)
Definition versionToId (version : val) : M val :=
  let* releases := github "releases" github_defaults in
  if negb (truthy releases) then ret VFalse
  else
    let* rs := eval (rbind (loads releases) py_iter) in
    releases_loop version rs.

(** [isInstalled], lines 282-308. *)
Definition isInstalled (version : val) (kw : conn_kw) : M val :=
  let* c := gets (resolve kw) in
  let* ok := ensure_session c in
  if negb ok then
    _debug ("Cannot connect to " +:+ host c) ;;;
    ret VFalse
  else
    let* response := session_call (EGet info_uri) (fun t => iCR_get W t info_uri) in
    if negb (truthy response) then
      _debug "Response from /mgmt/shared/appsvcs/info False" ;;;
      ret VFalse
    else
      _debug ("Response dict => " +:+ py_str L response) ;;;
      let* mismatch :=
        eval (if negb (truthy version) then Val false
              else
                rbind (py_in "version" response) (fun present =>
                if negb present then Val false
                else
                  rbind (py_getitem response "version") (fun v =>
                  Val (negb (py_eq v version))))) in
      if mismatch then ret VFalse
      else
        let* present := eval (py_in "version" response) in
        if present then ret response else ret VTrue.

(** [uninstallAS3], lines 243-280.  Line 279 calls [self.error] instead of
    assigning to it; a string or an exception object is not callable. *)
Definition uninstallAS3 (kw : conn_kw) : M val :=
  let* c := gets (resolve kw) in
  let* ok := ensure_session c in
  if negb ok then ret VFalse
  else
    let* currentVersion := isInstalled VFalse (explicit c) in
    if negb (truthy currentVersion) then
      set_error (VStr ("Error retrieving the current version from " +:+ host c)) ;;;
      ret VFalse
    else
      let* missing :=
        eval (rbind (py_in "version" currentVersion) (fun has_version =>
              if negb has_version then Val true
              else
                rbind (py_in "release" currentVersion) (fun has_release =>
                Val (negb has_release)))) in
      if missing then
        set_error (VStr "Cannot find version or release in current version") ;;;
        ret VFalse
      else
        let* packageName :=
          eval (rbind (py_getitem currentVersion "version") (fun v =>
                rbind (str_add "f5-appsvcs-" v) (fun s1 =>
                rbind (py_getitem currentVersion "release") (fun r =>
                rbind (str_add (s1 +:+ "-") r) (fun s2 =>
                Val (s2 +:+ ".noarch")))))) in
        let data :=
          VDict [("operation", VStr "UNINSTALL");
                 ("packageName", VStr packageName)] in
        let* response :=
          session_call (ECreate tasks_uri data)
            (fun t => iCR_create W t tasks_uri data) in
        if negb (truthy response) then
          set_error (VStr ("Error uninstalling package " +:+ packageName)) ;;;
          ret VFalse
        else
          emit (ESleep 5) ;;;
          let* still := isInstalled VFalse (explicit c) in
          if negb (truthy still) then ret VTrue
          else raise (TypeError "object is not callable").

(** [os.path.exists(name)]. *)
Definition os_path_exists (name : string) : M bool :=
  gets (fun st => bool_decide (is_Some (files st !! name))).

(** [installAS3], lines 166-242, in the four blocks of its sequence. *)

(** Lines 177-207: connect, enable iApps LX, resolve the file to upload. *)
Definition install_prepare (fuel : nat) (version filename : val) (c : conn)
  : M (flow val) :=
  let* ok := ensure_session c in
  if negb ok then ret (Return VFalse)
  else
    let* touched :=
      session_call (ECommand "touch /var/config/rest/iapps/enable")
        (fun t => iCR_command W t "touch /var/config/rest/iapps/enable") in
    if negb (truthy touched) then
      set_error (VStr "Cannot perform touch on /var/config/rest/iapps/enable") ;;;
      ret (Return VFalse)
    else if truthy filename then
      let* shown := eval (str_add "Filename " filename) in
      _debug (shown +:+ " specified, uploading to host " +:+ host c) ;;;
      ret (Continue filename)
    else if truthy version then
      let* vid := versionToId version in
      if negb (truthy vid) then
        let* shown := eval (str_add "Cannot retrieve ID for version " version) in
        let* err := gets self_error in
        set_error (VStr (shown +:+ " error: " +:+ py_str L err)) ;;;
        ret (Return VFalse)
      else
        let* filename := retrieveVersion fuel vid in
        if negb (truthy filename) then
          let* shown := eval (str_add "Cannot retrieve version " version) in
          let* err := gets self_error in
          set_error (VStr (shown +:+ " error: " +:+ py_str L err)) ;;;
          ret (Return VFalse)
        else ret (Continue filename)
    else
      let* filename := retrieveVersion fuel VFalse in
      if negb (truthy filename) then
        let* err := gets self_error in
        set_error (VStr ("Cannot retrieve latest version, error: " +:+ py_str L err)) ;;;
        ret (Return VFalse)
      else ret (Continue filename).

(** Lines 208-218: the file must exist; upload it.  A failed upload sets
    [self.error] and goes on.  At this point [filename] is a string on
    every path; [os.path.exists] rejects other values. *)
Definition install_upload (filename : val) (c : conn) : M (flow string) :=
  let* name :=
    eval (expect_str (TypeError "stat: path should be string") filename) in
  let* present := os_path_exists name in
  if negb present then
    _debug ("ERROR: cannot find file " +:+ name) ;;;
    ret (Return VFalse)
  else
    _debug ("Uploading file " +:+ name) ;;;
    let* uploaded :=
      session_call (EUpload name) (fun t => iCR_upload W t name) in
    (if negb (truthy uploaded) then
       let* err := session_attr icr_error in
       set_error (VStr ("Upload of file " +:+ name +:+ " to host " +:+ host c
                        +:+ " failed. " +:+ err))
     else
       let* dbg := gets self_debug in
       if dbg then
         emit (EPrint ("File " +:+ name +:+ " successfully uploaded to host "
                       +:+ host c))
       else ret tt) ;;;
    ret (Continue name).

(** The body of the INSTALL task, lines 222-224. *)
Definition install_task (name : string) : val :=
  VDict [("operation", VStr "INSTALL");
         ("packageFilePath", VStr ("/var/config/rest/downloads/" +:+ name))].

(** Lines 219-229: submit the task and check the status code. *)
Definition install_submit (name : string) : M (flow unit) :=
  _debug ("Installing package " +:+ name +:+ " from /var/config/rest/downloads") ;;;
  let* data :=
    eval (match json_dumps L (install_task name) with
          | Some s => Val (VStr s)
          | None => Exn (TypeError "Object is not JSON serializable")
          end) in
  session_call (ECreate tasks_uri data) (fun t => iCR_create W t tasks_uri data) ;;;
  let* code := session_attr icr_code in
  if negb (py_eq code (VInt 202)) then
    let* err := session_attr icr_error in
    set_error (VStr ("request to perform install task for " +:+ name
                     +:+ " failed: " +:+ err)) ;;;
    ret (Return VFalse)
  else
    _debug ("Created task to install package " +:+ name) ;;;
    ret (Continue tt).

(** Lines 231-242: wait, then ask the device whether the package is there. *)
Definition install_verify (name : string) (c : conn) : M val :=
  _debug "Waiting for 5 secs" ;;;
  emit (ESleep 5) ;;;
  _debug "Checking whether the package is installed" ;;;
  let* installed := isInstalled VFalse (explicit c) in
  if negb (truthy installed) then
    set_error (VStr ("Package " +:+ name +:+ " not installed successfully")) ;;;
    ret VFalse
  else
    _debug ("Package " +:+ name +:+ " installed successfully") ;;;
    ret VTrue.

Definition installAS3 (fuel : nat) (version filename : val) (kw : conn_kw)
  : M val :=
  let* c := gets (resolve kw) in
  continue_with (install_prepare fuel version filename c) (fun file =>
  continue_with (install_upload file c) (fun name =>
  continue_with (install_submit name) (fun _ =>
  install_verify name c))).

End Methods.

(** ** A scripted catalog and device, for running the methods *)

(** The two printers of a value: JSON text as [json.dumps] writes it and
    the text [repr] gives.  Generators and exception objects have no JSON
    form. *)
Record style : Type := {
  s_none : string;
  s_true : string;
  s_false : string;
  s_quote : string;
  s_opaque : option string
}.

Definition json_style : style :=
  {| s_none := "null"; s_true := "true"; s_false := "false";
     s_quote := String (ascii_of_nat 34) EmptyString; s_opaque := None |}.

Definition python_style : style :=
  {| s_none := "None"; s_true := "True"; s_false := "False";
     s_quote := "'"; s_opaque := Some "<object>" |}.

Fixpoint show (sty : style) (v : val) {struct v} : option string :=
  match v with
  | VNone => Some (s_none sty)
  | VBool b => Some (if b then s_true sty else s_false sty)
  | VInt n => Some (str_of_Z n)
  | VStr s => Some (s_quote sty +:+ s +:+ s_quote sty)
  | VList l =>
      match
        (fix elems (l : list val) (sep : string) {struct l} : option string :=
           match l with
           | [] => Some ""
           | x :: l' =>
               match show sty x, elems l' ", " with
               | Some a, Some b => Some (sep +:+ a +:+ b)
               | _, _ => None
               end
           end) l ""
      with
      | Some body => Some ("[" +:+ body +:+ "]")
      | None => None
      end
  | VDict d =>
      match
        (fix items (d : list (string * val)) (sep : string) {struct d}
           : option string :=
           match d with
           | [] => Some ""
           | (k, x) :: d' =>
               match show sty x, items d' ", " with
               | Some a, Some b =>
                   Some (sep +:+ s_quote sty +:+ k +:+ s_quote sty +:+ ": "
                         +:+ a +:+ b)
               | _, _ => None
               end
           end) d ""
      with
      | Some body => Some ("{" +:+ body +:+ "}")
      | None => None
      end
  | VIter _ | VExc _ => s_opaque sty
  end.

(** A json library that knows the documents [docs]: it parses exactly the
    texts that print them. *)
Definition mock_lib (docs : list val) : pylib :=
  {| json_loads := fun s =>
       find (fun v => match show json_style v with
                      | Some t => String.eqb t s
                      | None => false
                      end) docs;
     json_dumps := show json_style;
     repr := fun v => default "" (show python_style v) |}.

Definition json_text (v : val) : string := default "" (show json_style v).

(** A device described by the answers of its session. *)
Record mock_device : Type := {
  md_session : icr;
  md_token : dev_reply;
  md_command : dev_reply;
  md_upload : dev_reply;
  md_create : dev_reply;
  md_info : list event -> dev_reply
}.

Definition answer (v : val) (code : Z) (err : string) : dev_reply :=
  {| reply := v; code_after := VInt code; error_after := err |}.

Fixpoint route (uri : string) (routes : list (string * http_reply))
  : http_reply :=
  match routes with
  | [] => HttpResponse 404 "Not Found" "Not Found"
  | (u, r) :: rest => if String.eqb u uri then r else route uri rest
  end.

Definition api : string :=
  "https://api.github.com/repos/F5Networks/f5-appsvcs-extension/".

Definition mock_world (routes : list (string * http_reply)) (d : mock_device)
  : world :=
  {| iCR_new := fun _ _ _ _ _ _ => md_session d;
     iCR_get_token := fun _ => md_token d;
     iCR_command := fun _ _ => md_command d;
     iCR_upload := fun _ _ => md_upload d;
     iCR_create := fun _ _ _ => md_create d;
     iCR_get := fun t _ => md_info d t;
     requests_send := fun _ rq => route (rq_uri rq) routes |}.

Definition is_create (ev : event) : bool :=
  match ev with
  | ECreate _ _ => true
  | _ => false
  end.

Definition fresh_session : icr :=
  {| icr_truthy := true; icr_token := VFalse; icr_code := VInt 200;
     icr_error := "" |}.

(** A healthy device: every call succeeds, the task is accepted with 202,
    and the info endpoint reports [info] (before and after any task). *)
Definition healthy (info : val) : mock_device :=
  {| md_session := fresh_session;
     md_token := answer (VStr "token") 200 "";
     md_command := answer VTrue 200 "";
     md_upload := answer VTrue 200 "";
     md_create := answer (VDict [("id", VStr "task")]) 202 "";
     md_info := fun _ => answer info 200 "" |}.

(** ** Scenarios *)

(** The catalog of the specification's end-to-end scenario: the latest
    release is 111, named v3.16.0, with one package among its assets. *)
Definition release111 : val :=
  VDict [("id", VInt 111); ("name", VStr "v3.16.0"); ("body", VStr "notes");
         ("assets",
          VList [VDict [("id", VInt 9);
                        ("name", VStr "f5-appsvcs-3.16.0.rpm")]])].

Definition latest111 : val := VDict [("id", VInt 111)].

(** A release that carries no package: its only asset is a text file. *)
Definition release222 : val :=
  VDict [("id", VInt 222); ("name", VStr "v3.17.0"); ("body", VStr "draft");
         ("assets",
          VList [VDict [("id", VInt 7); ("name", VStr "notes.txt")]])].

(** A latest pointer whose id is 0. *)
Definition latest0 : val := VDict [("id", VInt 0)].

Definition ex_lib : pylib :=
  mock_lib [release111; latest111; VList [release111; release222];
            release222; latest0].

Definition ok_json (v : val) : http_reply := HttpResponse 200 (json_text v) "".

Definition ex_routes : list (string * http_reply) :=
  [ (api +:+ "releases/latest", ok_json latest111);
    (api +:+ "releases/111", ok_json release111);
    (api +:+ "releases/222", ok_json release222);
    (api +:+ "releases", ok_json (VList [release111; release222]));
    (api +:+ "releases/assets/9", HttpResponse 200 "" "RPMDATA") ].

Definition ex_info : val :=
  VDict [("version", VStr "3.16.0"); ("release", VStr "6")].

(** The healthy device with that catalog. *)
Definition ex_world : world := mock_world ex_routes (healthy ex_info).

(** The info endpoint answers without a version. *)
Definition bare_info : val := VDict [("schemaCurrent", VStr "3.16.0")].
Definition bare_world : world := mock_world ex_routes (healthy bare_info).

(** The info endpoint reports a version but no release. *)
Definition no_release_info : val := VDict [("version", VStr "3.16.0")].
Definition no_release_world : world :=
  mock_world ex_routes (healthy no_release_info).

(** The device refuses the task with 403. *)
Definition refusing : mock_device :=
  {| md_session := fresh_session;
     md_token := answer (VStr "token") 200 "";
     md_command := answer VTrue 200 "";
     md_upload := answer VTrue 200 "";
     md_create := answer VFalse 403 "Forbidden";
     md_info := fun _ => answer ex_info 200 "" |}.
Definition refusing_world : world := mock_world ex_routes refusing.

(** The upload reports an error; everything else succeeds. *)
Definition upload_fails : mock_device :=
  {| md_session := fresh_session;
     md_token := answer (VStr "token") 200 "";
     md_command := answer VTrue 200 "";
     md_upload := answer VFalse 500 "upload error";
     md_create := answer (VDict [("id", VStr "task")]) 202 "";
     md_info := fun _ => answer ex_info 200 "" |}.
Definition upload_fails_world : world := mock_world ex_routes upload_fails.

(** The catalog whose latest pointer has id 0. *)
Definition zero_routes : list (string * http_reply) :=
  [ (api +:+ "releases/latest", ok_json latest0) ].
Definition zero_world : world := mock_world zero_routes (healthy ex_info).

(** The catalog is unreachable: every request raises. *)
Definition offline_world : world :=
  {| iCR_new := fun _ _ _ _ _ _ => fresh_session;
     iCR_get_token := fun _ => answer (VStr "token") 200 "";
     iCR_command := fun _ _ => answer VTrue 200 "";
     iCR_upload := fun _ _ => answer VTrue 200 "";
     iCR_create := fun _ _ _ => answer VFalse 500 "";
     iCR_get := fun _ _ => answer VFalse 500 "";
     requests_send := fun _ _ => HttpRaise (RequestException "Connection refused") |}.

(** The device answers the connection with a falsy session object. *)
Definition locked : mock_device :=
  {| md_session :=
       {| icr_truthy := false; icr_token := VFalse; icr_code := VInt 401;
          icr_error := "Authentication failed" |};
     md_token := answer VFalse 401 "Authentication failed";
     md_command := answer VFalse 401 "";
     md_upload := answer VFalse 401 "";
     md_create := answer VFalse 401 "";
     md_info := fun _ => answer VFalse 401 "" |}.
Definition locked_world : world := mock_world ex_routes locked.

(** The device refuses the command that enables iApps LX. *)
Definition readonly : mock_device :=
  {| md_session := fresh_session;
     md_token := answer (VStr "token") 200 "";
     md_command := answer VFalse 400 "read-only file system";
     md_upload := answer VTrue 200 "";
     md_create := answer (VDict [("id", VStr "task")]) 202 "";
     md_info := fun _ => answer ex_info 200 "" |}.
Definition readonly_world : world := mock_world ex_routes readonly.

(** A working directory that holds the package [pkg.rpm]. *)
Definition with_pkg : state := init {[ "pkg.rpm" := "RPMDATA" ]}.

(** The call asks for a token. *)
Definition with_token : conn_kw :=
  {| kw_host := None; kw_username := None; kw_password := None;
     kw_usetoken := Some true; kw_port := None |}.

(** The device answers the connection with a falsy session object and the
    token request with [None]. *)
Definition half_open : mock_device :=
  {| md_session :=
       {| icr_truthy := false; icr_token := VFalse; icr_code := VInt 401;
          icr_error := "Authentication failed" |};
     md_token := answer VNone 200 "";
     md_command := answer VFalse 401 "";
     md_upload := answer VFalse 401 "";
     md_create := answer VFalse 401 "";
     md_info := fun _ => answer VFalse 401 "" |}.
Definition half_open_world : world := mock_world ex_routes half_open.

(** A post whose data has no JSON form. *)
Definition bad_post : github_kw :=
  {| gh_method := "post"; gh_data := VIter []; gh_useragent := "as3";
     gh_stream := false |}.

(** A list of releases whose second entry is not a release. *)
Definition odd_list : val := VList [release111; VStr "garbage"].

(** A release without notes: its body is null. *)
Definition release333 : val :=
  VDict [("id", VInt 333); ("name", VStr "v3.18.0"); ("body", VNone);
         ("assets", VList [])].

Definition odd_lib : pylib := mock_lib [odd_list; release333].

Definition odd_routes : list (string * http_reply) :=
  [ (api +:+ "releases", ok_json odd_list);
    (api +:+ "releases/333", ok_json release333) ].
Definition odd_world : world := mock_world odd_routes (healthy ex_info).

(** A proxy answers every request with a page that is not JSON. *)
Definition proxy_world : world :=
  {| iCR_new := fun _ _ _ _ _ _ => fresh_session;
     iCR_get_token := fun _ => answer (VStr "token") 200 "";
     iCR_command := fun _ _ => answer VTrue 200 "";
     iCR_upload := fun _ _ => answer VTrue 200 "";
     iCR_create := fun _ _ _ => answer (VDict [("id", VStr "task")]) 202 "";
     iCR_get := fun _ _ => answer ex_info 200 "";
     requests_send := fun _ _ => HttpResponse 200 "<html>busy</html>" "" |}.

(** The info endpoint answers the empty mapping. *)
Definition empty_world : world := mock_world ex_routes (healthy (VDict [])).

(** The device reports the package until a task is submitted, and nothing
    after it. *)
Definition removing : mock_device :=
  {| md_session := fresh_session;
     md_token := answer (VStr "token") 200 "";
     md_command := answer VTrue 200 "";
     md_upload := answer VTrue 200 "";
     md_create := answer (VDict [("id", VStr "task")]) 202 "";
     md_info := fun t =>
       if existsb is_create t then answer VFalse 404 ""
       else answer ex_info 200 "" |}.
Definition removing_world : world := mock_world ex_routes removing.

(** ** Notions used by the statements *)

(** The state after [_debug msg]. *)
Definition logged (msg : string) (st : state) : state :=
  if self_debug st then with_trace (EPrint ("DEBUG: " +:+ msg) :: trace st) st
  else st.


(** Releases as the catalog lists them: mappings with a string [name] and
    an [id]. *)
Definition release_name (r : val) : option string :=
  match r with
  | VDict d => match assoc "name" d with Some (VStr n) => Some n | _ => None end
  | _ => None
  end.

Definition release_id (r : val) : option val :=
  match r with
  | VDict d => assoc "id" d
  | _ => None
  end.

Definition is_release (r : val) : bool :=
  match release_name r, release_id r with
  | Some _, Some _ => true
  | _, _ => false
  end.

Definition named (version : string) (r : val) : bool :=
  match release_name r with
  | Some n => String.eqb n version
  | None => false
  end.

(** What the specification asks of [versionToId]: the id (as a string) of
    the first release whose name equals the version, else [False]. *)
Definition id_of_first_named (L : pylib) (version : string) (rs : list val)
  : val :=
  match find (named version) rs with
  | Some r =>
      match release_id r with
      | Some i => VStr (py_str L i)
      | None => VFalse
      end
  | None => VFalse
  end.



(** Events other than an upload and a task submission. *)
Definition quiet (ev : event) : bool :=
  match ev with
  | EUpload _ | ECreate _ _ => false
  | _ => true
  end.

(** [st'] comes after [st] and no upload or task submission lies between. *)
Definition extends_quietly (st st' : state) : Prop :=
  exists new, trace st' = new ++ trace st /\ forallb quiet new = true.

(** [respects R m]: every run of [m] relates its initial and final state
    by [R]. *)
Definition respects (R : state -> state -> Prop) {A} (m : M A) : Prop :=
  forall st r st', m st = (r, st') -> R st st'.

Definition session_stays (st st' : state) : Prop :=
  is_Some (self_bigip st) -> is_Some (self_bigip st').

Definition same_error (st st' : state) : Prop := self_error st' = self_error st.

(** [yields Q m]: a value that [m] returns satisfies [Q]. *)
Definition yields {A} (Q : A -> Prop) (m : M A) : Prop :=
  forall st a st', m st = (Ok a, st') -> Q a.

(** What [retrieveVersion] can return: nothing, [False], or a name that
    ends in rpm. *)
Definition retrieved (v : val) : Prop :=
  v = VNone \/ v = VFalse \/ exists n, v = VStr n /\ ends_with "rpm" n = true.

(** What the first block of install hands on: a string. *)
Definition resolved (r : flow val) : Prop :=
  match r with
  | Return _ => True
  | Continue v => exists name, v = VStr name
  end.

(** [m] ends without exhausting the recursion budget. *)
Definition finishes {A} (m : M A) : Prop :=
  forall st, fst (m st) <> OutOfFuel.

(** The request [github] sends for [url] when the method is not post. *)
Definition get_request (url : string) (kw : github_kw) : request :=
  {| rq_method := "get";
     rq_uri := api +:+ url;
     rq_headers :=
       (let headers :=
          [("User-Agent", gh_useragent kw);
           ("Content-Type", "application/json")] in
        if gh_stream kw
        then headers ++ [("Accept", "application/octet-stream")]
        else headers);
     rq_data := None |}.

(** What the [try] block of [github] met. *)
Definition caught (W : world) (e : exn) : Prop :=
  (exists t rq, requests_send W t rq = HttpRaise e)
  \/ e = TypeError "Object is not JSON serializable".

(** Section 7 of the specification, read literally: a call that does not
    succeed returns [False] and leaves a message in [self.error]. *)
Definition has_message (st : state) : Prop :=
  match self_error st with
  | VStr msg => msg <> ""
  | VExc _ => True
  | _ => False
  end.

Definition failed (run : result val * state) : Prop :=
  match fst run with
  | Ok v => truthy v = false
  | _ => True
  end.

Definition error_contract (run : result val * state) : Prop :=
  failed run -> fst run = Ok VFalse /\ has_message (snd run).

(** Section 4.5 of the specification, read literally: whenever the latest
    pointer is fetched, [retrieveVersion()] recurses once and no deeper, so
    a budget of one recursive call is needed and is enough. *)
Definition latest_fetch_succeeds (L : pylib) (W : world) (st : state) : Prop :=
  exists r,
    fst (github L W "releases/latest" github_defaults st) = Ok r
    /\ truthy r = true.

Definition recurses_once (L : pylib) (W : world) (st : state) : Prop :=
  fst (retrieveVersion L W 1 VFalse st) = OutOfFuel
  /\ fst (retrieveVersion L W 2 VFalse st) <> OutOfFuel.

Definition recursion_claim (L : pylib) (W : world) (st : state) : Prop :=
  latest_fetch_succeeds L W st -> recurses_once L W st.

(** *** Kinds of events, and what a method may do *)

Definition is_print (ev : event) : bool :=
  match ev with
  | EPrint _ => true
  | _ => false
  end.

(** The events of [bigipConnect]: a new session, a token request. *)
Definition is_connect (ev : event) : bool :=
  match ev with
  | ENewSession _ _ _ _ _ | EGetToken => true
  | _ => false
  end.

(** A call on the device, through iCR. *)
Definition on_device (ev : event) : bool :=
  match ev with
  | ENewSession _ _ _ _ _ | EGetToken | ECommand _ | EUpload _ | ECreate _ _
  | EGet _ => true
  | _ => false
  end.

(** A request to the catalog or a write to the working directory. *)
Definition on_catalog (ev : event) : bool :=
  match ev with
  | ERequest _ | EWrite _ _ => true
  | _ => false
  end.

Definition no_print (ev : event) : bool := negb (is_print ev).
Definition no_connect (ev : event) : bool := negb (is_connect ev).
Definition off_device (ev : event) : bool := negb (on_device ev).
Definition off_catalog (ev : event) : bool := negb (on_catalog ev).

Definition print_or_request (ev : event) : bool :=
  match ev with
  | EPrint _ | ERequest _ => true
  | _ => false
  end.

Definition print_or_connect (ev : event) : bool := is_print ev || is_connect ev.

Definition any_event (ev : event) : bool := true.

(** [st'] comes after [st] and every event between them satisfies
    [allowed]. *)
Definition only (allowed : event -> bool) (st st' : state) : Prop :=
  exists new, trace st' = new ++ trace st /\ forallb allowed new = true.

(** [keeps I allowed m]: run from a state where [I] holds, [m] ends in a
    state where [I] holds, and the events of the run satisfy [allowed]. *)
Definition keeps (I : state -> Prop) (allowed : event -> bool) {A} (m : M A)
  : Prop :=
  forall st r st', I st -> m st = (r, st') -> I st' /\ only allowed st st'.

(** Between [st] and [st'] the events [evs] happened, in this order
    (newest first), possibly with others in between. *)
Definition passed (st : state) (evs : list event) (st' : state) : Prop :=
  exists new, trace st' = new ++ trace st /\ sublist evs new.

(** [ensures Q m]: a value that [m] returns and the state it leaves
    satisfy [Q]. *)
Definition ensures {A} (Q : A -> state -> Prop) (m : M A) : Prop :=
  forall st a st', m st = (Ok a, st') -> Q a st'.

(** A returned file name is the name of a file of the working directory. *)
Definition on_disk (v : val) (st : state) : Prop :=
  forall n, v = VStr n -> is_Some (files st !! n).

(** *** The attribute [self.usetoken] *)

Definition with_usetoken (u : bool) (st : state) : state :=
  {| self_debug := self_debug st; self_host := self_host st;
     self_username := self_username st; self_password := self_password st;
     self_port := self_port st; self_usetoken := u;
     self_bigip := self_bigip st; self_error := self_error st;
     files := files st; trace := trace st |}.

(** [m] does not read [self.usetoken]: run with another value of the
    attribute it returns the same result and leaves the same state, that
    value apart. *)
Definition ignores_usetoken {A} (m : M A) : Prop :=
  forall u st,
    m (with_usetoken u st) = (fst (m st), with_usetoken u (snd (m st))).

(** *** The connection *)

(** The session object that [bigipConnect] obtains for the keywords [kw]
    (line 91). *)
Definition new_session (W : world) (kw : conn_kw) (st : state) : icr :=
  let c := resolve kw st in
  iCR_new W (trace st) (host c) (username c) (password c) (port c)
    (self_debug st).

(** The answer to [get_token()] in [bigipConnect] (line 95). *)
Definition token_reply (W : world) (kw : conn_kw) (st : state) : dev_reply :=
  let c := resolve kw st in
  let s0 :=
    with_trace
      (ENewSession (host c) (username c) (password c) (port c) (self_debug st)
       :: trace st) st in
  iCR_get_token W (trace (logged "Retrieving token" s0)).

(** *** The requests to the catalog *)

(** The HTTP requests of a trace, newest first. *)
Fixpoint requests_in (t : list event) : list request :=
  match t with
  | [] => []
  | ERequest rq :: t' => rq :: requests_in t'
  | _ :: t' => requests_in t'
  end.

(** The request [github] sends for [url] with the method post and the
    body [body]. *)
Definition post_request (url : string) (kw : github_kw) (body : string)
  : request :=
  {| rq_method := "post";
     rq_uri := api +:+ url;
     rq_headers := rq_headers (get_request url kw);
     rq_data := Some body |}.

(** The requests of one call of [github]: one, or none when the data of a
    post cannot be serialised. *)
Definition github_requests (L : pylib) (url : string) (kw : github_kw)
  : list request :=
  if String.eqb (gh_method kw) "post" then
    match json_dumps L (gh_data kw) with
    | Some body => [post_request url kw body]
    | None => []
    end
  else [get_request url kw].


(** *** Installed state, install and uninstall *)

(** What [isInstalled] can return: [False], [True], or the truthy answer
    of the info endpoint, which then has a [version] in it. *)
Definition installed_state (W : world) (v : val) : Prop :=
  v = VFalse \/ v = VTrue
  \/ (truthy v = true /\ py_in "version" v = Val true
      /\ exists t, v = reply (iCR_get W t info_uri)).

Definition boolean (v : val) : Prop := v = VTrue \/ v = VFalse.

(** A block of install returns [False] or goes on. *)
Definition false_or_continue {A} (r : flow A) : Prop :=
  match r with
  | Return v => v = VFalse
  | Continue _ => True
  end.

(** The name of the package that uninstall removes (line 268). *)
Definition package_name (version release : string) : string :=
  "f5-appsvcs-" +:+ version +:+ "-" +:+ release +:+ ".noarch".

(** The body of the UNINSTALL task (line 269). *)
Definition uninstall_task (version release : string) : val :=
  VDict [("operation", VStr "UNINSTALL");
         ("packageName", VStr (package_name version release))].

(** The state of install once iApps LX is enabled (after line 183). *)
Definition touched_state (W : world) (b : icr) (st0 : state) : state :=
  let cmd := "touch /var/config/rest/iapps/enable" in
  with_bigip (Some (answered (iCR_command W (trace st0) cmd) b))
    (with_trace (ECommand cmd :: trace st0) st0).

(** * Proofs *)

#[local] Arguments _debug : simpl never.
#[local] Arguments bigipConnect : simpl never.
#[local] Arguments github : simpl never.
#[local] Arguments isInstalled : simpl never.
#[local] Arguments versionToId : simpl never.
#[local] Arguments ensure_session : simpl never.
#[local] Arguments session_call : simpl never.
#[local] Arguments logged : simpl never.
#[local] Arguments install_prepare : simpl never.
#[local] Arguments install_upload : simpl never.
#[local] Arguments install_submit : simpl never.
#[local] Arguments install_verify : simpl never.
#[local] Arguments uninstallAS3 : simpl never.
#[local] Arguments installAS3 : simpl never.

(** ** Strings and chunks *)


Lemma append_assoc (a b c : string) : (a +:+ b) +:+ c = a +:+ b +:+ c.
Proof.
  induction a as [|x a IH]; [reflexivity|].
  change (String x ((a +:+ b) +:+ c) = String x (a +:+ b +:+ c)).
  rewrite IH. reflexivity.
Qed.







(** ** The elementary steps *)

Lemma debug_run msg st : _debug msg st = (Ok tt, logged msg st).
Proof.
  unfold _debug, logged, bind, gets, emit, modify, ret.
  destruct (self_debug st); reflexivity.
Qed.

Lemma logged_bigip msg st : self_bigip (logged msg st) = self_bigip st.
Proof. unfold logged. destruct (self_debug st); reflexivity. Qed.

Lemma logged_error msg st : self_error (logged msg st) = self_error st.
Proof. unfold logged. destruct (self_debug st); reflexivity. Qed.

Lemma logged_files msg st : files (logged msg st) = files st.
Proof. unfold logged. destruct (self_debug st); reflexivity. Qed.

Lemma logged_debug msg st : self_debug (logged msg st) = self_debug st.
Proof. unfold logged. destruct (self_debug st) eqn:E; cbn; congruence. Qed.

Lemma session_call_run ev answer st b :
  self_bigip st = Some b ->
  session_call ev answer st =
    (Ok (reply (answer (trace st))),
     with_bigip (Some (answered (answer (trace st)) b))
       (with_trace (ev :: trace st) st)).
Proof. intros H. unfold session_call. rewrite H. reflexivity. Qed.

Lemma assoc_truthy k d v : assoc k d = Some v -> truthy (VDict d) = true.
Proof. destruct d; [discriminate | reflexivity]. Qed.


(** *** Relations between the state before and after a method

    [respects R m]: every run of [m] relates its initial and final state by
    [R].  For a preorder [R] that holds across the elementary steps of the
    catalog methods (a print, a request, a write, an assignment to
    [self.error], a session call other than upload and create) it holds
    across the methods built from them. *)

Section Respects.

Variable L : pylib.
Variable W : world.
Variable R : state -> state -> Prop.
Hypothesis R_refl : forall st, R st st.
Hypothesis R_trans : forall a b c, R a b -> R b c -> R a c.
Hypothesis R_trace :
  forall ev st, quiet ev = true -> R st (with_trace (ev :: trace st) st).
Hypothesis R_error : forall v st, R st (with_error v st).
Hypothesis R_files : forall fs st, R st (with_files fs st).
Hypothesis R_bigip : forall b st, R st (with_bigip (Some b) st).

Lemma respects_ret {A} (a : A) : respects R (ret a).
Proof. intros st r st' [= <- <-]. apply R_refl. Qed.

Lemma respects_eval {A} (e : outcome A) : respects R (eval e).
Proof. intros st r st'. destruct e; intros [= <- <-]; apply R_refl. Qed.

Lemma respects_raise {A} e : respects R (@raise A e).
Proof. intros st r st' [= <- <-]. apply R_refl. Qed.

Lemma respects_gets {A} (f : state -> A) : respects R (gets f).
Proof. intros st r st' [= <- <-]. apply R_refl. Qed.

Lemma respects_bind {A B} (m : M A) (k : A -> M B) :
  respects R m -> (forall a, respects R (k a)) -> respects R (bind m k).
Proof.
  intros Hm Hk st r st'. unfold bind.
  destruct (m st) as [[a|e|] st1] eqn:E; intros H.
  - eapply R_trans; [eapply Hm, E | eapply Hk, H].
  - injection H as <- <-. eapply Hm, E.
  - injection H as <- <-. eapply Hm, E.
Qed.

Lemma respects_if {A} (c : bool) (a b : M A) :
  respects R a -> respects R b -> respects R (if c then a else b).
Proof. destruct c; auto. Qed.

Lemma respects_emit ev : quiet ev = true -> respects R (emit ev).
Proof. intros H st r st' [= <- <-]. apply R_trace, H. Qed.

Lemma respects_set_error v : respects R (set_error v).
Proof. intros st r st' [= <- <-]. apply R_error. Qed.

Lemma respects_set_bigip b : respects R (modify (with_bigip (Some b))).
Proof. intros st r st' [= <- <-]. apply R_bigip. Qed.

Lemma respects_debug msg : respects R (_debug msg).
Proof.
  unfold _debug. apply respects_bind; [apply respects_gets|]. intros d.
  apply respects_if; [apply respects_emit; reflexivity | apply respects_ret].
Qed.

Lemma respects_session_call ev answer :
  quiet ev = true -> respects R (session_call ev answer).
Proof.
  intros H st r st'. unfold session_call.
  destruct (self_bigip st); intros [= <- <-]; [|apply R_refl].
  eapply R_trans; [apply R_trace, H | apply R_bigip].
Qed.

Lemma respects_send rq : respects R (send W rq).
Proof. intros st r st' [= <- <-]. apply R_trace. reflexivity. Qed.

Lemma respects_open_wb name : respects R (open_wb name).
Proof. intros st r st' [= <- <-]. apply R_files. Qed.

Lemma respects_fd_write name chunk : respects R (fd_write name chunk).
Proof.
  intros st r st' [= <- <-].
  eapply R_trans; [apply R_files|].
  apply (R_trace (EWrite name chunk) (with_files _ st)). reflexivity.
Qed.

Create HintDb respects.
#[local] Hint Resolve respects_ret respects_eval respects_raise respects_gets
  respects_set_error respects_set_bigip respects_debug respects_send
  respects_open_wb respects_fd_write respects_emit respects_session_call
  : respects.

Ltac respects_step :=
  lazymatch goal with
  | |- respects _ (bind _ _) => apply respects_bind; [|intros ?]
  | |- respects _ (if _ then _ else _) => apply respects_if
  | |- respects _ (match ?x with _ => _ end) => destruct x
  | |- respects _ _ => solve [auto with respects]
  end.

Lemma respects_github url kw : respects R (github L W url kw).
Proof. unfold github. repeat respects_step. Qed.

Lemma respects_bigipConnect kw : respects R (bigipConnect L W kw).
Proof. unfold bigipConnect. repeat respects_step. Qed.

Lemma respects_ensure_session c : respects R (ensure_session L W c).
Proof.
  unfold ensure_session. repeat respects_step. apply respects_bigipConnect.
Qed.

Lemma respects_write_chunks name chunks : respects R (write_chunks name chunks).
Proof. induction chunks; cbn [write_chunks]; repeat respects_step. Qed.

Lemma respects_assets_loop assets : respects R (assets_loop L W assets).
Proof.
  induction assets; cbn [assets_loop]; repeat respects_step;
    auto using respects_github, respects_write_chunks.
Qed.

Lemma respects_retrieveVersion fuel release :
  respects R (retrieveVersion L W fuel release).
Proof.
  revert release. induction fuel; intros release; cbn [retrieveVersion].
  - intros st r st' [= <- <-]. apply R_refl.
  - repeat respects_step; auto using respects_github, respects_assets_loop.
Qed.

Lemma respects_releases_loop version rs : respects R (releases_loop L version rs).
Proof. induction rs; cbn [releases_loop]; repeat respects_step. Qed.

Lemma respects_versionToId version : respects R (versionToId L W version).
Proof.
  unfold versionToId. repeat respects_step;
    auto using respects_github, respects_releases_loop.
Qed.

Lemma respects_install_prepare fuel version filename c :
  respects R (install_prepare L W fuel version filename c).
Proof.
  unfold install_prepare. repeat respects_step;
    auto using respects_ensure_session, respects_versionToId,
      respects_retrieveVersion.
Qed.

Lemma respects_isInstalled version kw : respects R (isInstalled L W version kw).
Proof.
  unfold isInstalled. repeat respects_step;
    auto using respects_ensure_session.
Qed.

Lemma respects_install_verify name c : respects R (install_verify L W name c).
Proof.
  unfold install_verify. repeat respects_step;
    auto using respects_isInstalled.
Qed.

End Respects.

(** Two instances: the trace grows by quiet events only, and a session
    that is there stays. *)

Lemma extends_quietly_refl st : extends_quietly st st.
Proof. exists []. split; reflexivity. Qed.

Lemma extends_quietly_trans a b c :
  extends_quietly a b -> extends_quietly b c -> extends_quietly a c.
Proof.
  intros [n1 [H1 Q1]] [n2 [H2 Q2]]. exists (n2 ++ n1). split.
  - rewrite H2, H1. apply app_assoc.
  - rewrite forallb_app, Q1, Q2. reflexivity.
Qed.

Lemma extends_quietly_event ev st :
  quiet ev = true -> extends_quietly st (with_trace (ev :: trace st) st).
Proof. intros H. exists [ev]. cbn. rewrite H. split; reflexivity. Qed.

Lemma extends_quietly_same st st' :
  trace st' = trace st -> extends_quietly st st'.
Proof. intros H. exists []. split; [exact H | reflexivity]. Qed.

Ltac quiet_preorder :=
  first
    [ apply extends_quietly_refl
    | apply extends_quietly_trans
    | apply extends_quietly_event
    | intros; apply extends_quietly_same; reflexivity ].

Section Catalog.
Variable L : pylib.
Variable W : world.

(** ** The session step *)

(** A connection that succeeds leaves a session in [self.bigip]. *)
Lemma bigipConnect_true kw st v st1 :
  bigipConnect L W kw st = (Ok v, st1) -> truthy v = true ->
  exists b, self_bigip st1 = Some b.
Proof.
  unfold bigipConnect, bind, gets, emit, modify, ret, set_error. cbn.
  destruct (default false (kw_usetoken kw)).
  - rewrite debug_run. rewrite debug_run.
    destruct (py_eq _ _); intros [= <- <-]; cbn; try discriminate. eauto.
  - destruct (icr_truthy _); cbn; rewrite ?debug_run; cbn;
      intros [= <- <-]; cbn; try discriminate. eauto.
Qed.

Lemma ensure_session_bigip c st st1 :
  ensure_session L W c st = (Ok true, st1) -> exists b, self_bigip st1 = Some b.
Proof.
  unfold ensure_session, bind, gets, ret, connected.
  destruct (self_bigip st) as [b|] eqn:Hb.
  - destruct (icr_truthy b).
    + intros [= <-]. eauto.
    + destruct (bigipConnect L W (explicit c) st) as [[v| |] st'] eqn:E;
        try discriminate.
      intros [= Hv <-]. eapply bigipConnect_true; eauto.
  - destruct (bigipConnect L W (explicit c) st) as [[v| |] st'] eqn:E;
      try discriminate.
    intros [= Hv <-]. eapply bigipConnect_true; eauto.
Qed.

(** ** Methods that end *)

Lemma finishes_ret {A} (a : A) : finishes (ret a).
Proof. intros st. discriminate. Qed.

Lemma finishes_eval {A} (o : outcome A) : finishes (eval o).
Proof. intros st. destruct o; discriminate. Qed.

Lemma finishes_gets {A} (f : state -> A) : finishes (gets f).
Proof. intros st. discriminate. Qed.

Lemma finishes_modify f : finishes (modify f).
Proof. intros st. discriminate. Qed.

Lemma finishes_bind {A B} (m : M A) (k : A -> M B) :
  finishes m -> (forall a, finishes (k a)) -> finishes (bind m k).
Proof.
  intros Hm Hk st. unfold bind. specialize (Hm st).
  destruct (m st) as [[a|e|] st1]; cbn in *; [apply Hk | discriminate | congruence].
Qed.

Lemma finishes_if {A} (c : bool) (a b : M A) :
  finishes a -> finishes b -> finishes (if c then a else b).
Proof. destruct c; auto. Qed.

Lemma finishes_debug msg : finishes (_debug msg).
Proof. intros st. rewrite debug_run. discriminate. Qed.

Lemma finishes_send rq : finishes (send W rq).
Proof. intros st. discriminate. Qed.

Lemma finishes_set_error v : finishes (set_error v).
Proof. intros st. discriminate. Qed.

Lemma finishes_open_wb name : finishes (open_wb name).
Proof. intros st. discriminate. Qed.

Lemma finishes_fd_write name chunk : finishes (fd_write name chunk).
Proof. intros st. discriminate. Qed.

Create HintDb finishes.
#[local] Hint Resolve finishes_ret finishes_eval finishes_gets finishes_modify
  finishes_debug finishes_send finishes_set_error finishes_open_wb
  finishes_fd_write : finishes.

Ltac finishes_step :=
  lazymatch goal with
  | |- finishes (bind _ _) => apply finishes_bind; [|intros ?]
  | |- finishes (if _ then _ else _) => apply finishes_if
  | |- finishes (match ?x with _ => _ end) => destruct x
  | |- finishes _ => solve [auto with finishes]
  end.

Lemma finishes_github url kw : finishes (github L W url kw).
Proof. unfold github. repeat finishes_step. Qed.

Lemma finishes_write_chunks name chunks : finishes (write_chunks name chunks).
Proof. induction chunks; cbn [write_chunks]; repeat finishes_step. Qed.

Lemma finishes_assets_loop assets : finishes (assets_loop L W assets).
Proof.
  induction assets; cbn [assets_loop]; repeat finishes_step;
    auto using finishes_github, finishes_write_chunks.
Qed.

(** ** The catalog accessor

    Whatever the HTTP layer does, [github] returns: [False] with the
    exception object or the status message stored in [self.error], or the
    text, or the generator of chunks, with [self.error] untouched. *)

Lemma github_contract url kw st r st' :
  github L W url kw st = (r, st') ->
  files st' = files st /\ self_bigip st' = self_bigip st /\
  ((r = Ok VFalse /\
    ((exists e, self_error st' = VExc e /\ caught W e)
     \/ (exists code, code <> 200
         /\ self_error st' = VStr ("Response code is " +:+ str_of_Z code))))
   \/ (exists text, r = Ok (VStr text) /\ gh_stream kw = false
       /\ self_error st' = self_error st)
   \/ (exists content, r = Ok (VIter (iter_content 1024 content))
       /\ gh_stream kw = true /\ self_error st' = self_error st)).
Proof.
  unfold github, bind, ret, set_error, modify, send. rewrite debug_run.
  set (s := logged _ st).
  assert (Hf : files s = files st) by apply logged_files.
  assert (Hb : self_bigip s = self_bigip st) by apply logged_bigip.
  assert (He : self_error s = self_error st) by apply logged_error.
  clearbody s.
  match goal with
  | |- context [if ?c then _ else _] => destruct c
  end.
  - destruct (json_dumps L (gh_data kw)) as [dataJson|].
    + set (reply := requests_send W _ _).
      assert (Hc : forall e, reply = HttpRaise e -> caught W e)
        by (intros e E; left; eauto).
      clearbody reply. destruct reply as [e|code text content]; cbn.
      * intros [= <- <-]. cbn. repeat split; auto. left. eauto 8.
      * rewrite debug_run.
        destruct (code =? 200) eqn:Ec; cbn.
        -- destruct (gh_stream kw) eqn:Es; intros [= <- <-];
             rewrite logged_files, logged_bigip, logged_error; cbn;
             repeat split; auto; right; [right|left]; eauto.
        -- intros [= <- <-]. cbn. rewrite logged_files, logged_bigip.
           repeat split; auto. left. split; [reflexivity|]. right.
           exists code. split; [|reflexivity]. apply Z.eqb_neq, Ec.
    + cbn. intros [= <- <-]. cbn. repeat split; auto. left.
      split; [reflexivity|]. left. eexists. split; [reflexivity|]. right.
      reflexivity.
  - set (reply := requests_send W _ _).
    assert (Hc : forall e, reply = HttpRaise e -> caught W e)
      by (intros e E; left; eauto).
    clearbody reply. destruct reply as [e|code text content]; cbn.
    * intros [= <- <-]. cbn. repeat split; auto. left. eauto 8.
    * rewrite debug_run.
      destruct (code =? 200) eqn:Ec; cbn.
      -- destruct (gh_stream kw) eqn:Es; intros [= <- <-];
           rewrite logged_files, logged_bigip, logged_error; cbn;
           repeat split; auto; right; [right|left]; eauto.
      -- intros [= <- <-]. cbn. rewrite logged_files, logged_bigip.
         repeat split; auto. left. split; [reflexivity|]. right.
         exists code. split; [|reflexivity]. apply Z.eqb_neq, Ec.
Qed.

(** The GET request, outcome by outcome: an exception of the HTTP layer
    becomes [False] with the exception in [self.error]. *)
Lemma github_get_run url kw st :
  String.eqb (gh_method kw) "post" = false ->
  let s := logged ("github: URI = " +:+ api +:+ url) st in
  let rq := get_request url kw in
  let sent := with_trace (ERequest rq :: trace s) s in
  github L W url kw st =
    match requests_send W (trace s) rq with
    | HttpRaise e => (Ok VFalse, with_error (VExc e) sent)
    | HttpResponse code text content =>
        let s' := logged ("github: Response code " +:+ str_of_Z code) sent in
        if code =? 200 then
          (Ok (if gh_stream kw then VIter (iter_content 1024 content)
               else VStr text), s')
        else
          (Ok VFalse,
           with_error (VStr ("Response code is " +:+ str_of_Z code)) s')
    end.
Proof.
  intros Hm. cbn zeta.
  unfold github, get_request, api, bind, ret, set_error, modify, send.
  rewrite debug_run, Hm.
  match goal with
  | |- context [requests_send W ?t ?r] =>
      destruct (requests_send W t r) as [e|code text content]
  end; cbn.
  - reflexivity.
  - rewrite debug_run. destruct (code =? 200); cbn; [|reflexivity].
    destruct (gh_stream kw); reflexivity.
Qed.

(** ** isInstalled *)

(** C9.  Once the session is there and the info endpoint answers a mapping
    with a [version] field: a requested (truthy) version that differs from
    the reported one gives [False]; a requested version that equals it
    gives the mapping; with no requested version the mapping is returned. *)
Theorem isInstalled_version_check version kw st st1 d reported :
  ensure_session L W (resolve kw st) st = (Ok true, st1) ->
  reply (iCR_get W (trace st1) info_uri) = VDict d ->
  assoc "version" d = Some reported ->
  fst (isInstalled L W version kw st) =
    Ok (if truthy version && negb (py_eq reported version) then VFalse
        else VDict d).
Proof.
  intros Hs Hr Hv.
  destruct (ensure_session_bigip _ _ _ Hs) as [b Hb].
  unfold isInstalled, bind, gets, eval, ret. rewrite Hs. cbn.
  rewrite (session_call_run _ _ _ b Hb), Hr.
  rewrite (assoc_truthy _ _ _ Hv). cbn. rewrite debug_run. cbn.
  rewrite Hv.
  destruct (truthy version); cbn.
  - destruct (py_eq reported version); reflexivity.
  - reflexivity.
Qed.

(** C10.  Once the session is there and the info endpoint answers a truthy
    value in which ['version' in response] is false, [isInstalled] returns
    the bare [True], whatever version the caller asked for: no version is
    compared. *)
Theorem isInstalled_without_version_field version kw st st1 :
  ensure_session L W (resolve kw st) st = (Ok true, st1) ->
  truthy (reply (iCR_get W (trace st1) info_uri)) = true ->
  py_in "version" (reply (iCR_get W (trace st1) info_uri)) = Val false ->
  fst (isInstalled L W version kw st) = Ok VTrue.
Proof.
  intros Hs Ht Hin.
  destruct (ensure_session_bigip _ _ _ Hs) as [b Hb].
  unfold isInstalled, bind, gets, eval, ret. rewrite Hs. cbn.
  rewrite (session_call_run _ _ _ b Hb), Ht. cbn. rewrite debug_run.
  rewrite Hin. destruct (truthy version); reflexivity.
Qed.

(** [isInstalled] never assigns [self.error] itself. *)
Lemma isInstalled_keeps_error version kw st st1 :
  ensure_session L W (resolve kw st) st = (Ok true, st1) ->
  self_error (snd (isInstalled L W version kw st)) = self_error st1.
Proof.
  intros Hs. destruct (ensure_session_bigip _ _ _ Hs) as [b Hb].
  unfold isInstalled, bind, gets, eval, ret. rewrite Hs. cbn.
  rewrite (session_call_run _ _ _ b Hb).
  destruct (truthy (reply _)); cbn; rewrite debug_run.
  - match goal with
    | |- context [match ?o with Val _ => _ | Exn _ => _ end] =>
        destruct o as [m|e]
    end; cbn; [|rewrite logged_error; reflexivity].
    destruct m; cbn; [rewrite logged_error; reflexivity|].
    destruct (py_in _ _) as [[]|]; cbn; rewrite logged_error; reflexivity.
  - cbn. rewrite logged_error. reflexivity.
Qed.

(** ** versionToId *)

(** The match is on the whole name. *)
Lemma named_exact version r :
  named version r = true <-> release_name r = Some version.
Proof.
  unfold named. destruct (release_name r) as [n|]; [|split; discriminate].
  destruct (String.eqb_spec n version) as [->|Hne]; split; try reflexivity;
    try discriminate.
  intros [= E]. contradiction.
Qed.

Lemma releases_loop_result version rs st :
  forallb is_release rs = true ->
  fst (releases_loop L (VStr version) rs st) =
    Ok (id_of_first_named L version rs).
Proof.
  revert st. induction rs as [|r rs IH]; intros st Hwf; [reflexivity|].
  cbn in Hwf. apply andb_prop in Hwf as [Hr Hrs].
  unfold is_release in Hr.
  destruct (release_name r) as [n|] eqn:Hn; [|discriminate].
  destruct (release_id r) as [i|] eqn:Hi; [|discriminate].
  unfold id_of_first_named, named. cbn [find]. rewrite Hn.
  destruct r as [| | | |?|d| |]; try discriminate. cbn in Hn, Hi.
  destruct (assoc "name" d) as [[| | |n'| | | |]|] eqn:Hname; try discriminate.
  injection Hn as ->.
  cbn [releases_loop]. unfold bind, eval, ret. cbn. rewrite Hname, Hi. cbn.
  rewrite debug_run.
  destruct (String.eqb n version) eqn:E.
  - cbn. rewrite Hi. reflexivity.
  - apply IH, Hrs.
Qed.

(** C8.  When the fetch of the release list fails [versionToId] returns
    [False]; when it yields a list of releases it returns the id, as a
    string, of the first release whose name is string-equal to the
    version, and [False] when no name is. *)
Theorem versionToId_first_exact_match version st v st1 rs :
  github L W "releases" github_defaults st = (Ok v, st1) ->
  (truthy v = true -> rbind (loads L v) py_iter = Val rs) ->
  forallb is_release rs = true ->
  fst (versionToId L W (VStr version) st) =
    Ok (if truthy v then id_of_first_named L version rs else VFalse).
Proof.
  intros Hg Hl Hwf. unfold versionToId, bind, eval, ret. rewrite Hg.
  destruct (truthy v) eqn:Ht; cbn; [|reflexivity].
  rewrite (Hl eq_refl). apply releases_loop_result, Hwf.
Qed.

(** A failed fetch of the list ends the call with [False]. *)
Lemma versionToId_fetch_fails version st v st1 :
  github L W "releases" github_defaults st = (Ok v, st1) ->
  truthy v = false ->
  versionToId L W version st = (Ok VFalse, st1).
Proof.
  intros Hg Hv. unfold versionToId, bind, ret. rewrite Hg, Hv. reflexivity.
Qed.

Lemma releases_loop_keeps_error version rs :
  respects same_error (releases_loop L version rs).
Proof.
  apply respects_releases_loop; unfold same_error.
  - reflexivity.
  - intros a b c H1 H2. congruence.
  - reflexivity.
Qed.

(** [versionToId] never assigns [self.error] itself. *)
Lemma versionToId_keeps_error version st r st1 :
  github L W "releases" github_defaults st = (r, st1) ->
  self_error (snd (versionToId L W version st)) = self_error st1.
Proof.
  intros Hg. unfold versionToId, bind, ret, eval. rewrite Hg.
  destruct r as [v| |]; try reflexivity.
  destruct (truthy v); cbn; [|reflexivity].
  destruct (rbind (loads L v) py_iter) as [rs|e]; [|reflexivity].
  destruct (releases_loop L version rs st1) as [r' st'] eqn:E.
  apply (releases_loop_keeps_error _ _ _ _ _ E).
Qed.

(** ** retrieveVersion *)




(** A call with a release id makes no recursive call. *)
Lemma retrieveVersion_by_id_fuel fuel fuel' release st :
  truthy release = true ->
  retrieveVersion L W (S fuel) release st
  = retrieveVersion L W (S fuel') release st.
Proof. intros H. cbn [retrieveVersion]. rewrite H. reflexivity. Qed.

Lemma retrieveVersion_by_id_finishes fuel release :
  truthy release = true ->
  finishes (retrieveVersion L W (S fuel) release).
Proof.
  intros H. cbn [retrieveVersion]. rewrite H. cbn [negb].
  repeat finishes_step; auto using finishes_github, finishes_assets_loop.
Qed.

(** A failed fetch of the release ends the call with [False]. *)
Lemma retrieveVersion_fetch_fails fuel release st v st1 :
  truthy release = true ->
  github L W ("releases/" +:+ py_str L release) github_defaults st
    = (Ok v, st1) ->
  truthy v = false ->
  retrieveVersion L W (S fuel) release st = (Ok VFalse, st1).
Proof.
  intros Hr Hg Hv. cbn [retrieveVersion]. rewrite Hr. cbn [negb].
  unfold bind, ret. rewrite Hg, Hv. reflexivity.
Qed.

(** C7, amended.  When the latest pointer is fetched and the id it carries
    is truthy, [retrieveVersion()] is [retrieveVersion(release=id)] run
    from the state the fetch left: same result, same files, same trace.
    The call of line 344 is made (no budget, no result) and the call by id
    makes none: it ends with whatever budget it is given. *)
Theorem retrieveVersion_latest_once fuel fuel' st r st1 d latest :
  github L W "releases/latest" github_defaults st = (Ok r, st1) ->
  truthy r = true ->
  loads L r = Val d ->
  py_getitem d "id" = Val latest ->
  truthy latest = true ->
  retrieveVersion L W (S (S fuel)) VFalse st
    = retrieveVersion L W (S fuel') latest st1
  /\ fst (retrieveVersion L W (S fuel') latest st1) <> OutOfFuel
  /\ fst (retrieveVersion L W 1 VFalse st) = OutOfFuel.
Proof.
  intros Hg Hr Hd Hi Ht. split; [|split].
  - cbn [retrieveVersion truthy VFalse negb]. unfold bind at 1. rewrite Hg.
    rewrite Hr. cbn [negb]. unfold bind at 1, eval. rewrite Hd. cbn [rbind].
    rewrite Hi. rewrite Ht. reflexivity.
  - apply retrieveVersion_by_id_finishes, Ht.
  - cbn [retrieveVersion truthy VFalse negb]. unfold bind at 1. rewrite Hg.
    rewrite Hr. cbn [negb]. unfold bind at 1, eval. rewrite Hd. cbn [rbind].
    rewrite Hi. reflexivity.
Qed.

(** ** uninstallAS3 *)

(** The outcomes of uninstall after the installed-state query: a falsy
    answer and a mapping without version or release end the call with
    [False] and a message; the bare [True] raises at the membership test of
    line 264; a falsy answer to the task submission ends the call with
    [False] and a message. *)
Lemma uninstall_not_installed kw st st0 v st1 :
  let c := resolve kw st in
  ensure_session L W c st = (Ok true, st0) ->
  isInstalled L W VFalse (explicit c) st0 = (Ok v, st1) ->
  truthy v = false ->
  uninstallAS3 L W kw st =
    (Ok VFalse,
     with_error
       (VStr ("Error retrieving the current version from " +:+ host c)) st1).
Proof.
  intros c Hs Hq Hv.
  unfold uninstallAS3, bind, gets, eval, ret, set_error, modify. cbn. fold c.
  rewrite Hs. cbn. rewrite Hq, Hv. reflexivity.
Qed.

Lemma uninstall_missing_field kw st st0 d st1 :
  let c := resolve kw st in
  ensure_session L W c st = (Ok true, st0) ->
  isInstalled L W VFalse (explicit c) st0 = (Ok (VDict d), st1) ->
  d <> [] ->
  assoc "version" d = None \/ assoc "release" d = None ->
  uninstallAS3 L W kw st =
    (Ok VFalse,
     with_error (VStr "Cannot find version or release in current version") st1).
Proof.
  intros c Hs Hq Hd Hm.
  unfold uninstallAS3, bind, gets, eval, ret, set_error, modify. cbn. fold c.
  rewrite Hs. cbn. rewrite Hq.
  assert (Ht : truthy (VDict d) = true) by (destruct d; [congruence|reflexivity]).
  rewrite Ht. cbn.
  destruct (assoc "version" d); cbn.
  - destruct Hm as [Hm|Hm]; [discriminate|]. rewrite Hm. reflexivity.
  - reflexivity.
Qed.

Lemma uninstall_sentinel kw st st0 st1 :
  let c := resolve kw st in
  ensure_session L W c st = (Ok true, st0) ->
  isInstalled L W VFalse (explicit c) st0 = (Ok VTrue, st1) ->
  uninstallAS3 L W kw st =
    (Raise (TypeError "argument is not iterable"), st1).
Proof.
  intros c Hs Hq.
  unfold uninstallAS3, bind, gets, eval, ret, set_error, modify. cbn. fold c.
  rewrite Hs. cbn. rewrite Hq. reflexivity.
Qed.

Lemma uninstall_submission_fails kw st st0 d st1 v r b :
  let c := resolve kw st in
  ensure_session L W c st = (Ok true, st0) ->
  isInstalled L W VFalse (explicit c) st0 = (Ok (VDict d), st1) ->
  assoc "version" d = Some (VStr v) ->
  assoc "release" d = Some (VStr r) ->
  self_bigip st1 = Some b ->
  let packageName := "f5-appsvcs-" +:+ v +:+ "-" +:+ r +:+ ".noarch" in
  let data :=
    VDict [("operation", VStr "UNINSTALL"); ("packageName", VStr packageName)] in
  let created := iCR_create W (trace st1) tasks_uri data in
  truthy (reply created) = false ->
  uninstallAS3 L W kw st =
    (Ok VFalse,
     with_error (VStr ("Error uninstalling package " +:+ packageName))
       (with_bigip (Some (answered created b))
          (with_trace (ECreate tasks_uri data :: trace st1) st1))).
Proof.
  intros c Hs Hq Hv Hr Hb packageName data created Hc.
  unfold uninstallAS3, bind, gets, eval, ret, set_error, modify. cbn. fold c.
  rewrite Hs. cbn. rewrite Hq.
  rewrite (assoc_truthy _ _ _ Hv). cbn. rewrite Hv, Hr. cbn.
  assert (E : ((("f5-appsvcs-" +:+ v) +:+ "-") +:+ r) +:+ ".noarch"
              = packageName).
  { unfold packageName. rewrite !append_assoc. reflexivity. }
  rewrite E. fold data.
  rewrite (session_call_run _ _ _ b Hb). fold created. rewrite Hc.
  reflexivity.
Qed.

(** Up to the field check nothing is uploaded and no task is submitted. *)
Lemma uninstall_query_quiet kw st st0 r st1 msg :
  ensure_session L W (resolve kw st) st = (Ok true, st0) ->
  isInstalled L W VFalse (explicit (resolve kw st)) st0 = (r, st1) ->
  extends_quietly st (with_error msg st1).
Proof.
  intros Hs Hq.
  eapply extends_quietly_trans;
    [eapply (respects_ensure_session L W extends_quietly), Hs; quiet_preorder|].
  eapply extends_quietly_trans;
    [eapply (respects_isInstalled L W extends_quietly), Hq; quiet_preorder|].
  apply extends_quietly_same. reflexivity.
Qed.

End Catalog.

(** ** What the methods return *)

Section Yields.
Variable L : pylib.
Variable W : world.

Lemma yields_ret {A} (Q : A -> Prop) a : Q a -> yields Q (ret a).
Proof. intros H st x st' [= <- <-]. exact H. Qed.

Lemma yields_bind {A B} (Q : B -> Prop) (m : M A) (k : A -> M B) :
  (forall a, yields Q (k a)) -> yields Q (bind m k).
Proof.
  intros Hk st b st'. unfold bind.
  destruct (m st) as [[a|e|] st1]; try discriminate. apply Hk.
Qed.

Lemma yields_if {A} (Q : A -> Prop) (c : bool) (a b : M A) :
  yields Q a -> yields Q b -> yields Q (if c then a else b).
Proof. destruct c; auto. Qed.

Lemma yields_weaken {A} (P Q : A -> Prop) (m : M A) :
  (forall a, P a -> Q a) -> yields P m -> yields Q m.
Proof. intros H Hm st a st' E. eapply H, Hm, E. Qed.

Lemma assets_loop_yields assets : yields retrieved (assets_loop L W assets).
Proof.
  induction assets as [|file rest IH]; cbn [assets_loop].
  - apply yields_ret. left. reflexivity.
  - apply yields_bind. intros name.
    destruct (ends_with "rpm" name) eqn:E; [|exact IH].
    repeat (apply yields_bind; intros ?).
    apply yields_if.
    + apply yields_bind. intros _. apply yields_ret. right. left. reflexivity.
    + repeat (apply yields_bind; intros ?). apply yields_ret.
      right. right. eauto.
Qed.

Lemma retrieveVersion_yields fuel release :
  yields retrieved (retrieveVersion L W fuel release).
Proof.
  revert release. induction fuel as [|fuel IH]; intros release;
    cbn [retrieveVersion].
  - intros st a st'. discriminate.
  - apply yields_if.
    + apply yields_bind. intros r. apply yields_if.
      * apply yields_ret. right. left. reflexivity.
      * apply yields_bind. intros latest. apply IH.
    + apply yields_bind. intros r. apply yields_if.
      * apply yields_ret. right. left. reflexivity.
      * repeat (apply yields_bind; intros ?). apply assets_loop_yields.
Qed.

Lemma retrieved_truthy v : retrieved v -> truthy v = true -> exists n, v = VStr n.
Proof.
  intros [->|[->|[n [-> _]]]] H; try discriminate. eauto.
Qed.

Lemma install_prepare_yields fuel version filename c :
  yields resolved (install_prepare L W fuel version filename c).
Proof.
  unfold install_prepare.
  apply yields_bind. intros ok. apply yields_if; [apply yields_ret; exact I|].
  apply yields_bind. intros touched.
  apply yields_if; [apply yields_bind; intros _; apply yields_ret; exact I|].
  apply yields_if; [|apply yields_if].
  - intros st a st'. unfold bind, eval.
    destruct filename; cbn; try discriminate.
    rewrite debug_run. intros [= <- _]. cbn. eauto.
  - apply yields_bind. intros vid. apply yields_if.
    + repeat (apply yields_bind; intros ?). apply yields_ret. exact I.
    + intros st a st'. unfold bind at 1.
      destruct (retrieveVersion L W fuel vid st) as [[f| |] s] eqn:E;
        try discriminate.
      pose proof (retrieveVersion_yields _ _ _ _ _ E) as Hf.
      destruct (truthy f) eqn:Ht; cbn.
      * intros [= <- _]. apply (retrieved_truthy _ Hf Ht).
      * unfold bind, eval, gets, set_error, modify, ret.
        destruct (str_add _ version); cbn; intros [= <- _]; exact I.
  - intros st a st'. unfold bind at 1.
    destruct (retrieveVersion L W fuel VFalse st) as [[f| |] s] eqn:E;
      try discriminate.
    pose proof (retrieveVersion_yields _ _ _ _ _ E) as Hf.
    destruct (truthy f) eqn:Ht; cbn.
    + intros [= <- _]. apply (retrieved_truthy _ Hf Ht).
    + unfold bind, eval, gets, set_error, modify, ret. cbn.
      intros [= <- _]. exact I.
Qed.

(** The file install resolves is always a string. *)
Lemma install_prepare_resolves_string fuel version filename c st file st1 :
  install_prepare L W fuel version filename c st = (Ok (Continue file), st1) ->
  exists name, file = VStr name.
Proof. intros H. exact (install_prepare_yields _ _ _ _ _ _ _ H). Qed.

End Yields.

(** ** installAS3 *)

Section Install.
Variable L : pylib.
Variable W : world.

Lemma install_prepare_quiet fuel version filename c :
  respects extends_quietly (install_prepare L W fuel version filename c).
Proof.
  apply respects_install_prepare; quiet_preorder.
Qed.

Lemma versionToId_session version :
  respects session_stays (versionToId L W version).
Proof.
  apply respects_versionToId; unfold session_stays; cbn; eauto.
Qed.

Lemma retrieveVersion_session fuel release :
  respects session_stays (retrieveVersion L W fuel release).
Proof.
  apply respects_retrieveVersion; unfold session_stays; cbn; eauto.
Qed.

Lemma install_prepare_session fuel version filename c st v st1 :
  install_prepare L W fuel version filename c st = (Ok (Continue v), st1) ->
  is_Some (self_bigip st1).
Proof.
  unfold install_prepare, bind, gets, eval, ret, set_error, modify.
  destruct (ensure_session L W c st) as [[[]| |] s0] eqn:Hs; cbn;
    try discriminate.
  destruct (ensure_session_bigip L W _ _ _ Hs) as [b Hb].
  rewrite (session_call_run _ _ _ b Hb).
  set (s1 := with_bigip _ _).
  assert (H1 : is_Some (self_bigip s1)) by (cbn; eauto).
  clearbody s1.
  destruct (truthy (reply _)); cbn; [|discriminate].
  destruct (truthy filename); cbn.
  { destruct (str_add _ filename); cbn; try discriminate.
    rewrite debug_run. intros [= _ <-]. rewrite logged_bigip. exact H1. }
  destruct (truthy version); cbn.
  - destruct (versionToId L W version s1) as [[vid| |] s2] eqn:Hv;
      try discriminate.
    pose proof (versionToId_session _ _ _ _ Hv H1) as H2.
    destruct (truthy vid); cbn.
    + destruct (retrieveVersion L W fuel vid s2) as [[f| |] s3] eqn:Hf;
        try discriminate.
      pose proof (retrieveVersion_session _ _ _ _ _ Hf H2) as H3.
      destruct (truthy f); cbn.
      * intros [= _ <-]. exact H3.
      * destruct (str_add _ version); cbn; discriminate.
    + destruct (str_add _ version); cbn; discriminate.
  - destruct (retrieveVersion L W fuel VFalse s1) as [[f| |] s3] eqn:Hf;
      try discriminate.
    pose proof (retrieveVersion_session _ _ _ _ _ Hf H1) as H3.
    destruct (truthy f); cbn; [|discriminate].
    intros [= _ <-]. exact H3.
Qed.

(** C3.  When the file that install resolved is not in the working
    directory, install returns [False], and between the start of the call
    and its end there is no upload and no task submission. *)
Theorem install_missing_file_no_upload fuel version filename kw st name st1 :
  install_prepare L W fuel version filename (resolve kw st) st
    = (Ok (Continue (VStr name)), st1) ->
  files st1 !! name = None ->
  exists st2,
    installAS3 L W fuel version filename kw st = (Ok VFalse, st2)
    /\ extends_quietly st st2.
Proof.
  intros Hp Hf.
  exists (logged ("ERROR: cannot find file " +:+ name) st1). split.
  - unfold installAS3, continue_with, bind, gets. cbn. rewrite Hp. cbn.
    unfold install_upload, bind, eval, os_path_exists, gets. cbn.
    rewrite Hf. cbn. rewrite debug_run. reflexivity.
  - eapply extends_quietly_trans; [eapply install_prepare_quiet, Hp|].
    unfold logged. destruct (self_debug st1).
    + apply extends_quietly_event. reflexivity.
    + apply extends_quietly_refl.
Qed.

Lemma install_upload_session file c st1 name st2 :
  install_upload W file c st1 = (Ok (Continue name), st2) ->
  is_Some (self_bigip st2).
Proof.
  unfold install_upload, bind, eval, os_path_exists, gets, ret.
  destruct (expect_str _ file) as [n|]; cbn; try discriminate.
  destruct (bool_decide _); cbn.
  2:{ rewrite debug_run. discriminate. }
  rewrite debug_run. unfold session_call, session_attr, set_error, modify, emit.
  rewrite logged_bigip.
  destruct (self_bigip st1) as [b|]; [|discriminate]. cbn.
  destruct (truthy (reply _)); cbn.
  - rewrite logged_debug. destruct (self_debug st1); cbn; intros [= _ <-]; cbn; eauto.
  - intros [= _ <-]. cbn. eauto.
Qed.

(** The status test of line 226 on an integer code. *)
Lemma status_is_202 (n : Z) : py_eq (VInt n) (VInt 202) = true <-> n = 202.
Proof. cbn. apply Z.eqb_eq. Qed.

(** C2.  Once the file is uploaded, install submits the INSTALL task and
    reads the status code the session recorded: when it equals 202 the
    call goes on with the wait-and-verify block, for every other code it
    returns [False] with the task-submission message in [self.error]. *)
Theorem install_requires_202 fuel version filename kw st file st1 name st2 data :
  let c := resolve kw st in
  install_prepare L W fuel version filename c st = (Ok (Continue file), st1) ->
  install_upload W file c st1 = (Ok (Continue name), st2) ->
  json_dumps L (install_task name) = Some data ->
  let s :=
    logged ("Installing package " +:+ name
            +:+ " from /var/config/rest/downloads") st2 in
  let r := iCR_create W (trace s) tasks_uri (VStr data) in
  exists b,
    self_bigip s = Some b /\
    let s' :=
      with_bigip (Some (answered r b))
        (with_trace (ECreate tasks_uri (VStr data) :: trace s) s) in
    installAS3 L W fuel version filename kw st =
      if py_eq (code_after r) (VInt 202)
      then install_verify L W name c
             (logged ("Created task to install package " +:+ name) s')
      else (Ok VFalse,
            with_error
              (VStr ("request to perform install task for " +:+ name
                     +:+ " failed: " +:+ error_after r)) s').
Proof.
  intros c Hp Hu Hd s r.
  destruct (install_upload_session _ _ _ _ _ Hu) as [b Hb].
  exists b. split; [unfold s; rewrite logged_bigip; exact Hb|].
  intros s'.
  unfold installAS3, continue_with, bind, gets. cbn. fold c.
  rewrite Hp. cbn. rewrite Hu. cbn.
  unfold install_submit, bind, eval, session_attr, set_error, modify, ret.
  rewrite debug_run. fold s. rewrite Hd. cbn.
  assert (Hs : self_bigip s = Some b) by (unfold s; rewrite logged_bigip; exact Hb).
  rewrite (session_call_run _ _ _ b Hs). fold r. fold s'. cbn.
  destruct (py_eq (code_after r) (VInt 202)); cbn.
  - rewrite debug_run. reflexivity.
  - reflexivity.
Qed.

Lemma install_verify_quiet name c :
  respects extends_quietly (install_verify L W name c).
Proof.
  apply respects_install_verify; quiet_preorder.
Qed.

Lemma extends_quietly_In ev st st' :
  extends_quietly st st' -> In ev (trace st) -> In ev (trace st').
Proof. intros [new [-> _]] H. apply in_or_app. right. exact H. Qed.

(** C4.  When the file exists and the upload answers a falsy value, install
    records the upload message in [self.error] and goes on: its outcome is
    the outcome of the submit and verify blocks run from that state, and
    the INSTALL task is in the trace of the call. *)
Theorem install_upload_failure_continues
    fuel version filename kw st name st1 data :
  let c := resolve kw st in
  install_prepare L W fuel version filename c st
    = (Ok (Continue (VStr name)), st1) ->
  is_Some (files st1 !! name) ->
  json_dumps L (install_task name) = Some data ->
  let s := logged ("Uploading file " +:+ name) st1 in
  let up := iCR_upload W (trace s) name in
  truthy (reply up) = false ->
  exists st2,
    self_error st2 =
      VStr ("Upload of file " +:+ name +:+ " to host " +:+ host c
            +:+ " failed. " +:+ error_after up)
    /\ trace st2 = EUpload name :: trace s
    /\ installAS3 L W fuel version filename kw st =
         continue_with (install_submit L W name)
           (fun _ => install_verify L W name c) st2
    /\ In (ECreate tasks_uri (VStr data))
         (trace (snd (installAS3 L W fuel version filename kw st))).
Proof.
  intros c Hp Hf Hd s up Hup.
  destruct (install_prepare_session _ _ _ _ _ _ _ Hp) as [b Hb].
  assert (Hs : self_bigip s = Some b) by (unfold s; rewrite logged_bigip; exact Hb).
  set (st2 :=
         with_error
           (VStr ("Upload of file " +:+ name +:+ " to host " +:+ host c
                  +:+ " failed. " +:+ error_after up))
           (with_bigip (Some (answered up b))
              (with_trace (EUpload name :: trace s) s))).
  assert (Hrun : installAS3 L W fuel version filename kw st =
                 continue_with (install_submit L W name)
                   (fun _ => install_verify L W name c) st2).
  { unfold installAS3, continue_with at 1 2, bind at 1 2 3, gets. cbn. fold c.
    rewrite Hp. cbn.
    unfold install_upload, bind, eval, os_path_exists, gets, ret,
      session_attr, set_error, modify. cbn.
    rewrite (bool_decide_eq_true_2 _ Hf). cbn. rewrite debug_run. fold s.
    rewrite (session_call_run _ _ _ b Hs). fold up. rewrite Hup. cbn.
    reflexivity. }
  exists st2. split; [reflexivity|]. split; [reflexivity|]. split; [exact Hrun|].
  rewrite Hrun.
  unfold continue_with, install_submit, bind, eval, session_attr, set_error,
    modify, ret.
  rewrite debug_run, Hd. cbn.
  set (s3 := logged _ st2).
  assert (H3 : self_bigip s3 = Some (answered up b))
    by (unfold s3; rewrite logged_bigip; reflexivity).
  rewrite (session_call_run _ _ _ _ H3). cbn.
  destruct (py_eq _ (VInt 202)); cbn.
  - rewrite debug_run.
    destruct (install_verify L W name c _) as [r st4] eqn:Hv. cbn.
    eapply extends_quietly_In; [eapply install_verify_quiet, Hv|].
    unfold logged.
    match goal with |- context [if ?d then _ else _] => destruct d end;
      cbn; auto.
  - left. reflexivity.
Qed.

Lemma bigipConnect_false kw st v st' :
  bigipConnect L W kw st = (Ok v, st') ->
  truthy v = false ->
  let c := resolve kw st in
  self_error st' =
    VStr ("Cannot retrieve token from host " +:+ host c
          +:+ " with username " +:+ username c)
  \/ self_error st' =
       VStr (icr_error (iCR_new W (trace st) (host c) (username c)
                          (password c) (port c) (self_debug st))).
Proof.
  unfold bigipConnect, bind, gets, emit, modify, ret, set_error. cbn.
  destruct (default false (kw_usetoken kw)).
  - rewrite debug_run. rewrite debug_run.
    destruct (py_eq _ _); intros [= <- <-]; cbn; [|discriminate].
    intros _. left. reflexivity.
  - destruct (icr_truthy _); cbn; rewrite ?debug_run; cbn;
      intros [= <- <-]; cbn; [discriminate|].
    intros _. right. rewrite logged_error. reflexivity.
Qed.

Lemma install_touch_fails fuel version filename kw st st0 b :
  let c := resolve kw st in
  let cmd := "touch /var/config/rest/iapps/enable" in
  ensure_session L W c st = (Ok true, st0) ->
  self_bigip st0 = Some b ->
  let touched := iCR_command W (trace st0) cmd in
  truthy (reply touched) = false ->
  installAS3 L W fuel version filename kw st =
    (Ok VFalse,
     with_error (VStr "Cannot perform touch on /var/config/rest/iapps/enable")
       (with_bigip (Some (answered touched b))
          (with_trace (ECommand cmd :: trace st0) st0))).
Proof.
  intros c cmd Hs Hb touched Ht.
  unfold installAS3, continue_with, bind, gets. cbn. fold c.
  unfold install_prepare, bind, gets, ret, set_error, modify. rewrite Hs. cbn.
  rewrite (session_call_run _ _ _ b Hb). fold cmd touched. rewrite Ht.
  reflexivity.
Qed.

Lemma install_verify_fails name c st v st1 :
  isInstalled L W VFalse (explicit c)
    (logged "Checking whether the package is installed"
       (with_trace (ESleep 5 :: trace (logged "Waiting for 5 secs" st))
          (logged "Waiting for 5 secs" st))) = (Ok v, st1) ->
  truthy v = false ->
  install_verify L W name c st =
    (Ok VFalse,
     with_error
       (VStr ("Package " +:+ name +:+ " not installed successfully")) st1).
Proof.
  intros Hq Hv.
  unfold install_verify, bind, emit, modify, ret, set_error.
  rewrite debug_run. cbn. rewrite debug_run. rewrite Hq, Hv. reflexivity.
Qed.

End Install.

(** ** Who reports a failure, and how *)

Section Reporting.
Variable L : pylib.
Variable W : world.

(** C1, amended.  The catalog accessor never raises: when the HTTP call or
    [json.dumps] raises it returns [False] with the exception object in
    [self.error] (for a GET: the very exception [requests.get] raised), on
    a status other than 200 it returns [False] with
    "Response code is <status>", otherwise it returns the text or the
    chunks and leaves [self.error] alone.  [versionToId] and
    [retrieveVersion(release=id)] return [False] when that fetch is falsy,
    with [self.error] as the accessor left it.  [versionToId] and
    [isInstalled] assign no message of their own: after [versionToId]
    [self.error] is what the fetch of the list left (also when no name
    matches), after [isInstalled] what the session step left.
    [bigipConnect] has stored the token message or the session's error
    when it returns [False]; install returns [False] with its message when
    the enabling command fails and when the verification finds no
    package; uninstall returns [False] with its message when the query is
    falsy, when the mapping lacks version or release, and when the task
    submission answers a falsy value. *)
Theorem failure_reporting :
  (forall url kw st r st',
     github L W url kw st = (r, st') ->
     (r = Ok VFalse /\
      ((exists e, self_error st' = VExc e /\ caught W e)
       \/ (exists code, code <> 200
           /\ self_error st' = VStr ("Response code is " +:+ str_of_Z code))))
     \/ (((exists text, r = Ok (VStr text))
          \/ (exists content, r = Ok (VIter (iter_content 1024 content))))
         /\ self_error st' = self_error st))
  /\ (forall url kw st e,
        String.eqb (gh_method kw) "post" = false ->
        let s := logged ("github: URI = " +:+ api +:+ url) st in
        requests_send W (trace s) (get_request url kw) = HttpRaise e ->
        github L W url kw st =
          (Ok VFalse,
           with_error (VExc e)
             (with_trace (ERequest (get_request url kw) :: trace s) s)))
  /\ (forall version st v st1,
        github L W "releases" github_defaults st = (Ok v, st1) ->
        truthy v = false ->
        versionToId L W version st = (Ok VFalse, st1))
  /\ (forall fuel release st v st1,
        truthy release = true ->
        github L W ("releases/" +:+ py_str L release) github_defaults st
          = (Ok v, st1) ->
        truthy v = false ->
        retrieveVersion L W (S fuel) release st = (Ok VFalse, st1))
  /\ (forall version st r st1,
        github L W "releases" github_defaults st = (r, st1) ->
        self_error (snd (versionToId L W version st)) = self_error st1)
  /\ (forall version kw st st1,
        ensure_session L W (resolve kw st) st = (Ok true, st1) ->
        self_error (snd (isInstalled L W version kw st)) = self_error st1)
  /\ (forall kw st v st',
        bigipConnect L W kw st = (Ok v, st') ->
        truthy v = false ->
        self_error st' =
          VStr ("Cannot retrieve token from host " +:+ host (resolve kw st)
                +:+ " with username " +:+ username (resolve kw st))
        \/ self_error st' =
             VStr (icr_error
                     (iCR_new W (trace st) (host (resolve kw st))
                        (username (resolve kw st)) (password (resolve kw st))
                        (port (resolve kw st)) (self_debug st))))
  /\ (forall fuel version filename kw st st0 b,
        ensure_session L W (resolve kw st) st = (Ok true, st0) ->
        self_bigip st0 = Some b ->
        truthy (reply (iCR_command W (trace st0)
                         "touch /var/config/rest/iapps/enable")) = false ->
        exists st',
          installAS3 L W fuel version filename kw st = (Ok VFalse, st')
          /\ self_error st' =
               VStr "Cannot perform touch on /var/config/rest/iapps/enable")
  /\ (forall name c st v st1,
        isInstalled L W VFalse (explicit c)
          (logged "Checking whether the package is installed"
             (with_trace (ESleep 5 :: trace (logged "Waiting for 5 secs" st))
                (logged "Waiting for 5 secs" st))) = (Ok v, st1) ->
        truthy v = false ->
        install_verify L W name c st =
          (Ok VFalse,
           with_error
             (VStr ("Package " +:+ name +:+ " not installed successfully"))
             st1))
  /\ (forall kw st st0 v st1,
        ensure_session L W (resolve kw st) st = (Ok true, st0) ->
        isInstalled L W VFalse (explicit (resolve kw st)) st0 = (Ok v, st1) ->
        truthy v = false ->
        uninstallAS3 L W kw st =
          (Ok VFalse,
           with_error
             (VStr ("Error retrieving the current version from "
                    +:+ host (resolve kw st))) st1))
  /\ (forall kw st st0 d st1,
        ensure_session L W (resolve kw st) st = (Ok true, st0) ->
        isInstalled L W VFalse (explicit (resolve kw st)) st0
          = (Ok (VDict d), st1) ->
        d <> [] ->
        assoc "version" d = None \/ assoc "release" d = None ->
        uninstallAS3 L W kw st =
          (Ok VFalse,
           with_error
             (VStr "Cannot find version or release in current version") st1))
  /\ (forall kw st st0 d st1 v r b,
        ensure_session L W (resolve kw st) st = (Ok true, st0) ->
        isInstalled L W VFalse (explicit (resolve kw st)) st0
          = (Ok (VDict d), st1) ->
        assoc "version" d = Some (VStr v) ->
        assoc "release" d = Some (VStr r) ->
        self_bigip st1 = Some b ->
        let packageName := "f5-appsvcs-" +:+ v +:+ "-" +:+ r +:+ ".noarch" in
        let data :=
          VDict [("operation", VStr "UNINSTALL");
                 ("packageName", VStr packageName)] in
        truthy (reply (iCR_create W (trace st1) tasks_uri data)) = false ->
        exists st',
          uninstallAS3 L W kw st = (Ok VFalse, st')
          /\ self_error st' =
               VStr ("Error uninstalling package " +:+ packageName)).
Proof.
  repeat apply conj.
  - intros url kw st r st' Hg.
    destruct (github_contract L W _ _ _ _ _ Hg) as [_ [_ H]].
    destruct H as [H|[[text [Hr [_ He]]]|[content [Hr [_ He]]]]]; eauto 8.
  - intros url kw st e Hm s He.
    pose proof (github_get_run L W url kw st Hm) as Hrun. cbn zeta in Hrun.
    fold s in Hrun. rewrite He in Hrun. exact Hrun.
  - exact (versionToId_fetch_fails L W).
  - exact (retrieveVersion_fetch_fails L W).
  - exact (versionToId_keeps_error L W).
  - exact (isInstalled_keeps_error L W).
  - exact (bigipConnect_false L W).
  - intros fuel version filename kw st st0 b Hs Hb Ht.
    eexists. split;
      [exact (install_touch_fails L W fuel version filename kw st st0 b Hs Hb Ht)|].
    reflexivity.
  - exact (install_verify_fails L W).
  - exact (uninstall_not_installed L W).
  - exact (uninstall_missing_field L W).
  - intros kw st st0 d st1 v r b Hs Hq Hv Hr Hb packageName data Hc.
    eexists. split;
      [exact (uninstall_submission_fails L W kw st st0 d st1 v r b
                Hs Hq Hv Hr Hb Hc)|].
    reflexivity.
Qed.

End Reporting.

(** ** What a call does, and what it leaves alone

    [keeps I allowed m]: from a state where [I] holds, [m] ends in a state
    where [I] holds, and every event of the run satisfies [allowed].  For
    an invariant that the elementary steps keep and a set of events that
    contains the ones a method emits, the method keeps the invariant. *)

Lemma only_refl allowed st : only allowed st st.
Proof. exists []. split; reflexivity. Qed.

Lemma only_trans allowed a b c :
  only allowed a b -> only allowed b c -> only allowed a c.
Proof.
  intros [n1 [H1 Q1]] [n2 [H2 Q2]]. exists (n2 ++ n1). split.
  - rewrite H2, H1. apply app_assoc.
  - rewrite forallb_app, Q1, Q2. reflexivity.
Qed.

Lemma only_event allowed ev st st' :
  allowed ev = true -> trace st' = ev :: trace st -> only allowed st st'.
Proof. intros H E. exists [ev]. cbn. rewrite H. split; [exact E | reflexivity]. Qed.

Lemma only_same allowed st st' : trace st' = trace st -> only allowed st st'.
Proof. intros H. exists []. split; [exact H | reflexivity]. Qed.

Section Keeps.
Variable L : pylib.
Variable W : world.
Variable I : state -> Prop.
Variable allowed : event -> bool.
Hypothesis I_trace :
  forall ev st, I st -> I (with_trace (ev :: trace st) st).
Hypothesis I_error : forall v st, I st -> I (with_error v st).
Hypothesis I_files : forall fs st, I st -> I (with_files fs st).
Hypothesis I_answer :
  forall r b st,
    I st -> self_bigip st = Some b -> I (with_bigip (Some (answered r b)) st).
Hypothesis I_connect : forall b st, I st -> I (with_bigip (Some b) st).
Hypothesis I_print :
  forall msg st, I st -> self_debug st = true -> allowed (EPrint msg) = true.
Hypothesis A_connect : forall ev, is_connect ev = true -> allowed ev = true.
Hypothesis A_request : forall rq, allowed (ERequest rq) = true.
Hypothesis A_write : forall name chunk, allowed (EWrite name chunk) = true.
Hypothesis A_get : forall path, allowed (EGet path) = true.
Hypothesis A_command : forall cmd, allowed (ECommand cmd) = true.
Hypothesis A_upload : forall name, allowed (EUpload name) = true.
Hypothesis A_create : forall path data, allowed (ECreate path data) = true.
Hypothesis A_sleep : forall n, allowed (ESleep n) = true.

Lemma keeps_ret {A} (a : A) : keeps I allowed (ret a).
Proof. intros st r st' H [= <- <-]. split; [exact H | apply only_refl]. Qed.

Lemma keeps_eval {A} (o : outcome A) : keeps I allowed (eval o).
Proof.
  intros st r st' H. destruct o; intros [= <- <-];
    (split; [exact H | apply only_refl]).
Qed.

Lemma keeps_raise {A} e : keeps I allowed (@raise A e).
Proof. intros st r st' H [= <- <-]. split; [exact H | apply only_refl]. Qed.

Lemma keeps_gets {A} (f : state -> A) : keeps I allowed (gets f).
Proof. intros st r st' H [= <- <-]. split; [exact H | apply only_refl]. Qed.

Lemma keeps_bind {A B} (m : M A) (k : A -> M B) :
  keeps I allowed m -> (forall a, keeps I allowed (k a)) ->
  keeps I allowed (bind m k).
Proof.
  intros Hm Hk st r st' H. unfold bind.
  destruct (m st) as [[a|e|] st1] eqn:E; intros Hrun;
    destruct (Hm _ _ _ H E) as [H1 O1].
  - destruct (Hk a _ _ _ H1 Hrun) as [H2 O2].
    split; [exact H2 | eapply only_trans; eauto].
  - injection Hrun as <- <-. auto.
  - injection Hrun as <- <-. auto.
Qed.

Lemma keeps_if {A} (c : bool) (a b : M A) :
  keeps I allowed a -> keeps I allowed b ->
  keeps I allowed (if c then a else b).
Proof. destruct c; auto. Qed.

Lemma keeps_emit ev : allowed ev = true -> keeps I allowed (emit ev).
Proof.
  intros Ha st r st' H [= <- <-]. split; [apply I_trace, H|].
  eapply only_event; [exact Ha | reflexivity].
Qed.

Lemma keeps_set_error v : keeps I allowed (set_error v).
Proof.
  intros st r st' H [= <- <-]. split; [apply I_error, H|].
  apply only_same. reflexivity.
Qed.

(** A print guarded by the debug flag (lines 62-63 and 216-217). *)
Lemma keeps_say msg :
  keeps I allowed
    (let* dbg := gets self_debug in
     if dbg then emit (EPrint msg) else ret tt).
Proof.
  intros st r st' H. unfold bind, gets, emit, modify, ret.
  destruct (self_debug st) eqn:E; intros [= <- <-].
  - split; [apply I_trace, H|].
    eapply only_event; [eapply I_print; eauto | reflexivity].
  - split; [exact H | apply only_refl].
Qed.

Lemma keeps_debug msg : keeps I allowed (_debug msg).
Proof. unfold _debug. apply keeps_say. Qed.

Lemma keeps_session_call ev answer :
  allowed ev = true -> keeps I allowed (session_call ev answer).
Proof.
  intros Ha st r st' H. unfold session_call.
  destruct (self_bigip st) as [b|] eqn:E; intros [= <- <-].
  - split.
    + apply I_answer; [apply I_trace, H | exact E].
    + eapply only_event; [exact Ha | reflexivity].
  - split; [exact H | apply only_refl].
Qed.

Lemma keeps_session_attr {A} (f : icr -> A) : keeps I allowed (session_attr f).
Proof.
  intros st r st' H. unfold session_attr.
  destruct (self_bigip st); intros [= <- <-];
    (split; [exact H | apply only_refl]).
Qed.

Lemma keeps_send rq : keeps I allowed (send W rq).
Proof.
  intros st r st' H [= <- <-]. split; [apply I_trace, H|].
  eapply only_event; [apply A_request | reflexivity].
Qed.

Lemma keeps_open_wb name : keeps I allowed (open_wb name).
Proof.
  intros st r st' H [= <- <-]. split; [apply I_files, H|].
  apply only_same. reflexivity.
Qed.

Lemma keeps_fd_write name chunk : keeps I allowed (fd_write name chunk).
Proof.
  intros st r st' H [= <- <-]. split.
  - apply (I_trace (EWrite name chunk) (with_files _ st)), I_files, H.
  - eapply only_event; [apply A_write | reflexivity].
Qed.

Lemma keeps_set_bigip b : keeps I allowed (modify (with_bigip (Some b))).
Proof.
  intros st r st' H [= <- <-]. split; [apply I_connect, H|].
  apply only_same. reflexivity.
Qed.

Create HintDb keeps.
#[local] Hint Resolve keeps_ret keeps_eval keeps_raise keeps_gets
  keeps_set_error keeps_debug keeps_send keeps_open_wb keeps_fd_write
  keeps_session_attr keeps_set_bigip : keeps.

Ltac keeps_step :=
  lazymatch goal with
  | |- keeps _ _ (bind (gets self_debug) _) =>
      first [apply keeps_say | apply keeps_bind; [|intros ?]]
  | |- keeps _ _ (bind _ _) => apply keeps_bind; [|intros ?]
  | |- keeps _ _ (continue_with _ _) =>
      unfold continue_with; apply keeps_bind; [|intros ?]
  | |- keeps _ _ (if _ then _ else _) => apply keeps_if
  | |- keeps _ _ (match ?x with _ => _ end) => destruct x
  | |- keeps _ _ (emit _) => apply keeps_emit; auto
  | |- keeps _ _ (session_call _ _) => apply keeps_session_call; auto
  | |- keeps _ _ _ => solve [auto with keeps]
  end.

Lemma keeps_github url kw : keeps I allowed (github L W url kw).
Proof. unfold github. repeat keeps_step. Qed.

Lemma keeps_bigipConnect kw : keeps I allowed (bigipConnect L W kw).
Proof. unfold bigipConnect. repeat keeps_step. Qed.

Lemma keeps_ensure_session c : keeps I allowed (ensure_session L W c).
Proof. unfold ensure_session. repeat keeps_step. apply keeps_bigipConnect. Qed.

Lemma keeps_write_chunks name chunks : keeps I allowed (write_chunks name chunks).
Proof. induction chunks; cbn [write_chunks]; repeat keeps_step. Qed.

Lemma keeps_assets_loop assets : keeps I allowed (assets_loop L W assets).
Proof.
  induction assets; cbn [assets_loop]; repeat keeps_step;
    auto using keeps_github, keeps_write_chunks.
Qed.

Lemma keeps_retrieveVersion fuel release :
  keeps I allowed (retrieveVersion L W fuel release).
Proof.
  revert release. induction fuel; intros release; cbn [retrieveVersion].
  - intros st r st' H [= <- <-]. split; [exact H | apply only_refl].
  - repeat keeps_step; auto using keeps_github, keeps_assets_loop.
Qed.

Lemma keeps_releases_loop version rs : keeps I allowed (releases_loop L version rs).
Proof. induction rs; cbn [releases_loop]; repeat keeps_step. Qed.

Lemma keeps_versionToId version : keeps I allowed (versionToId L W version).
Proof.
  unfold versionToId. repeat keeps_step;
    auto using keeps_github, keeps_releases_loop.
Qed.

(** The methods that work on the session, given the way they obtain it. *)
Hypothesis connects : forall c, keeps I allowed (ensure_session L W c).

Lemma keeps_isInstalled version kw : keeps I allowed (isInstalled L W version kw).
Proof. unfold isInstalled. repeat keeps_step; auto. Qed.

Lemma keeps_uninstallAS3 kw : keeps I allowed (uninstallAS3 L W kw).
Proof.
  unfold uninstallAS3. repeat keeps_step; auto using keeps_isInstalled.
Qed.

Lemma keeps_install_prepare fuel version filename c :
  keeps I allowed (install_prepare L W fuel version filename c).
Proof.
  unfold install_prepare. repeat keeps_step;
    auto using keeps_versionToId, keeps_retrieveVersion.
Qed.

Lemma keeps_install_upload file c : keeps I allowed (install_upload W file c).
Proof. unfold install_upload, os_path_exists. repeat keeps_step. Qed.

Lemma keeps_install_submit name : keeps I allowed (install_submit L W name).
Proof. unfold install_submit. repeat keeps_step. Qed.

Lemma keeps_install_verify name c : keeps I allowed (install_verify L W name c).
Proof.
  unfold install_verify. repeat keeps_step; auto using keeps_isInstalled.
Qed.

Lemma keeps_installAS3 fuel version filename kw :
  keeps I allowed (installAS3 L W fuel version filename kw).
Proof.
  unfold installAS3. repeat keeps_step;
    auto using keeps_install_prepare, keeps_install_upload,
      keeps_install_submit, keeps_install_verify.
Qed.

(** Install with a file name the caller gives: the catalog is not used. *)
Lemma keeps_install_prepare_named fuel version filename c :
  truthy filename = true ->
  keeps I allowed (install_prepare L W fuel version filename c).
Proof.
  intros H. unfold install_prepare. rewrite H. cbv beta iota.
  repeat keeps_step.
Qed.

Lemma keeps_installAS3_named fuel version filename kw :
  truthy filename = true ->
  keeps I allowed (installAS3 L W fuel version filename kw).
Proof.
  intros H. unfold installAS3. repeat keeps_step;
    auto using keeps_install_prepare_named, keeps_install_upload,
      keeps_install_submit, keeps_install_verify.
Qed.

End Keeps.

Ltac keeps_side :=
  try solve
    [ auto
    | intros; cbn in *; first [ assumption | reflexivity | congruence | tauto ]
    | intros [] *; intros; cbn in *; congruence ].


Lemma keeps_run (I : state -> Prop) allowed {A} (m : M A) st :
  keeps I allowed m -> I st -> I (snd (m st)) /\ only allowed st (snd (m st)).
Proof. intros H HI. exact (H st _ _ HI (surjective_pairing _)). Qed.

Section Discipline.
Variable L : pylib.
Variable W : world.

(** X1.  With [self.debug] off nothing is printed: whatever the device and
    the catalog answer, the events of a call of [bigipConnect], [github],
    [versionToId], [retrieveVersion], [isInstalled], install or uninstall
    contain no print, the message of line 217 included. *)
Theorem nothing_printed_without_debug
    fuel version filename release url gkw kw st :
  self_debug st = false ->
  only no_print st (snd (bigipConnect L W kw st))
  /\ only no_print st (snd (github L W url gkw st))
  /\ only no_print st (snd (versionToId L W version st))
  /\ only no_print st (snd (retrieveVersion L W fuel release st))
  /\ only no_print st (snd (isInstalled L W version kw st))
  /\ only no_print st (snd (installAS3 L W fuel version filename kw st))
  /\ only no_print st (snd (uninstallAS3 L W kw st)).
Proof.
  intros Hd.
  pose (I := fun s : state => self_debug s = false).
  assert (Hc : forall c, keeps I no_print (ensure_session L W c))
    by (intros c; apply keeps_ensure_session; keeps_side).
  repeat apply conj; apply (keeps_run I); try exact Hd.
  - apply keeps_bigipConnect; keeps_side.
  - apply keeps_github; keeps_side.
  - apply keeps_versionToId; keeps_side.
  - apply keeps_retrieveVersion; keeps_side.
  - apply keeps_isInstalled; keeps_side.
  - apply keeps_installAS3; keeps_side.
  - apply keeps_uninstallAS3; keeps_side.
Qed.

(** X2.  A session that is there is used as it is: when [self.bigip] is
    truthy, [isInstalled], install and uninstall open no new session and
    request no token, and [self.bigip] is still truthy when they end. *)
Theorem session_is_reused fuel version filename kw st :
  connected st = true ->
  let still (st' : state) := connected st' = true /\ only no_connect st st' in
  still (snd (isInstalled L W version kw st))
  /\ still (snd (installAS3 L W fuel version filename kw st))
  /\ still (snd (uninstallAS3 L W kw st)).
Proof.
  intros Hc still.
  pose (I := fun s : state => connected s = true).
  assert (Ha : forall r b s, I s -> self_bigip s = Some b ->
                 I (with_bigip (Some (answered r b)) s)).
  { unfold I, connected. intros r b s H E. rewrite E in H. exact H. }
  assert (He : forall c, keeps I no_connect (ensure_session L W c)).
  { intros c s r s' H. unfold ensure_session, bind, gets, ret.
    unfold I in H. rewrite H. intros [= <- <-].
    split; [exact H | apply only_refl]. }
  unfold still. split; [|split].
  - apply (keeps_run I no_connect (isInstalled L W version kw) st);
      [apply keeps_isInstalled; keeps_side | exact Hc].
  - apply (keeps_run I no_connect (installAS3 L W fuel version filename kw) st);
      [apply keeps_installAS3; keeps_side | exact Hc].
  - apply (keeps_run I no_connect (uninstallAS3 L W kw) st);
      [apply keeps_uninstallAS3; keeps_side | exact Hc].
Qed.

(** X3.  The catalog methods stay off the device: [github] and
    [versionToId] only print and send requests, and leave [self.bigip] and
    the working directory as they are; [retrieveVersion] makes no call on
    the device and leaves [self.bigip] as it is. *)
Theorem catalog_methods_leave_device_alone fuel version release url gkw st :
  let apart (allowed : event -> bool) (st' : state) :=
    self_bigip st' = self_bigip st /\ only allowed st st' in
  (apart print_or_request (snd (github L W url gkw st))
   /\ files (snd (github L W url gkw st)) = files st)
  /\ (apart print_or_request (snd (versionToId L W version st))
      /\ files (snd (versionToId L W version st)) = files st)
  /\ apart off_device (snd (retrieveVersion L W fuel release st)).
Proof.
  intros apart.
  pose (I := fun s : state =>
               self_bigip s = self_bigip st /\ files s = files st).
  pose (J := fun s : state => self_bigip s = self_bigip st).
  assert (HI : I st) by (split; reflexivity).
  assert (HJ : J st) by reflexivity.
  assert (Hg : keeps I print_or_request (github L W url gkw))
    by (apply keeps_github; keeps_side).
  assert (Hv : keeps I print_or_request (versionToId L W version))
    by (apply keeps_versionToId; keeps_side).
  assert (Hr : keeps J off_device (retrieveVersion L W fuel release))
    by (apply keeps_retrieveVersion; keeps_side).
  destruct (keeps_run _ _ _ st Hg HI) as [[G1 G2] G3].
  destruct (keeps_run _ _ _ st Hv HI) as [[V1 V2] V3].
  destruct (keeps_run _ _ _ st Hr HJ) as [R1 R2].
  unfold apart. auto 10.
Qed.

(** X4.  The methods that work on the device stay off the catalog:
    [bigipConnect], [isInstalled] and uninstall send no request to GitHub
    and write no file; the working directory is the same after them. *)
Theorem device_methods_leave_catalog_alone version kw st :
  let apart (st' : state) :=
    files st' = files st /\ only off_catalog st st' in
  apart (snd (bigipConnect L W kw st))
  /\ apart (snd (isInstalled L W version kw st))
  /\ apart (snd (uninstallAS3 L W kw st)).
Proof.
  intros apart.
  pose (I := fun s : state => files s = files st).
  assert (HI : I st) by reflexivity.
  assert (Hc : forall c, keeps I off_catalog (ensure_session L W c))
    by (intros c; apply keeps_ensure_session; keeps_side).
  unfold apart. split; [|split].
  - apply (keeps_run I off_catalog (bigipConnect L W kw) st);
      [apply keeps_bigipConnect; keeps_side | exact HI].
  - apply (keeps_run I off_catalog (isInstalled L W version kw) st);
      [apply keeps_isInstalled; keeps_side | exact HI].
  - apply (keeps_run I off_catalog (uninstallAS3 L W kw) st);
      [apply keeps_uninstallAS3; keeps_side | exact HI].
Qed.

End Discipline.

(** ** The attribute [self.usetoken] *)

Section Usetoken.
Variable L : pylib.
Variable W : world.

Lemma ignores_ret {A} (a : A) : ignores_usetoken (ret a).
Proof. intros u st. reflexivity. Qed.

Lemma ignores_eval {A} (o : outcome A) : ignores_usetoken (eval o).
Proof. intros u st. destruct o; reflexivity. Qed.

Lemma ignores_raise {A} e : ignores_usetoken (@raise A e).
Proof. intros u st. reflexivity. Qed.

Lemma ignores_gets {A} (f : state -> A) :
  (forall u st, f (with_usetoken u st) = f st) -> ignores_usetoken (gets f).
Proof. intros H u st. unfold gets. rewrite H. reflexivity. Qed.

Lemma ignores_modify (f : state -> state) :
  (forall u st, f (with_usetoken u st) = with_usetoken u (f st)) ->
  ignores_usetoken (modify f).
Proof. intros H u st. unfold modify. rewrite H. reflexivity. Qed.

Lemma ignores_bind {A B} (m : M A) (k : A -> M B) :
  ignores_usetoken m -> (forall a, ignores_usetoken (k a)) ->
  ignores_usetoken (bind m k).
Proof.
  intros Hm Hk u st. unfold bind. rewrite Hm.
  destruct (m st) as [[a|e|] st1]; cbn; [apply Hk | reflexivity..].
Qed.

Lemma ignores_if {A} (c : bool) (a b : M A) :
  ignores_usetoken a -> ignores_usetoken b ->
  ignores_usetoken (if c then a else b).
Proof. destruct c; auto. Qed.

Lemma ignores_session_call ev answer : ignores_usetoken (session_call ev answer).
Proof.
  intros u st. unfold session_call. cbn.
  destruct (self_bigip st); reflexivity.
Qed.

Lemma ignores_session_attr {A} (f : icr -> A) : ignores_usetoken (session_attr f).
Proof.
  intros u st. unfold session_attr. cbn. destruct (self_bigip st); reflexivity.
Qed.

Lemma ignores_send rq : ignores_usetoken (send W rq).
Proof. intros u st. reflexivity. Qed.

Ltac ignores_step :=
  lazymatch goal with
  | |- ignores_usetoken (bind _ _) => apply ignores_bind; [|intros ?]
  | |- ignores_usetoken (continue_with _ _) =>
      unfold continue_with; apply ignores_bind; [|intros ?]
  | |- ignores_usetoken (if _ then _ else _) => apply ignores_if
  | |- ignores_usetoken (match ?x with _ => _ end) => destruct x
  | |- ignores_usetoken (ret _) => apply ignores_ret
  | |- ignores_usetoken (eval _) => apply ignores_eval
  | |- ignores_usetoken (raise _) => apply ignores_raise
  | |- ignores_usetoken (gets _) => apply ignores_gets; reflexivity
  | |- ignores_usetoken (os_path_exists _) => apply ignores_gets; reflexivity
  | |- ignores_usetoken (modify _) => apply ignores_modify; reflexivity
  | |- ignores_usetoken (emit _) => apply ignores_modify; reflexivity
  | |- ignores_usetoken (set_error _) => apply ignores_modify; reflexivity
  | |- ignores_usetoken (open_wb _) => apply ignores_modify; reflexivity
  | |- ignores_usetoken (fd_write _ _) => apply ignores_modify; reflexivity
  | |- ignores_usetoken (session_call _ _) => apply ignores_session_call
  | |- ignores_usetoken (session_attr _) => apply ignores_session_attr
  | |- ignores_usetoken (send _ _) => apply ignores_send
  | |- ignores_usetoken _ => solve [auto]
  end.

Lemma ignores_debug msg : ignores_usetoken (_debug msg).
Proof. unfold _debug. repeat ignores_step. Qed.

#[local] Hint Resolve ignores_debug : core.

Lemma ignores_github url kw : ignores_usetoken (github L W url kw).
Proof. unfold github. repeat ignores_step. Qed.

Lemma ignores_bigipConnect kw : ignores_usetoken (bigipConnect L W kw).
Proof. unfold bigipConnect. repeat ignores_step. Qed.

Lemma ignores_ensure_session c : ignores_usetoken (ensure_session L W c).
Proof.
  unfold ensure_session. repeat ignores_step. apply ignores_bigipConnect.
Qed.

Lemma ignores_write_chunks name chunks : ignores_usetoken (write_chunks name chunks).
Proof. induction chunks; cbn [write_chunks]; repeat ignores_step. Qed.

Lemma ignores_assets_loop assets : ignores_usetoken (assets_loop L W assets).
Proof.
  induction assets; cbn [assets_loop]; repeat ignores_step;
    auto using ignores_github, ignores_write_chunks.
Qed.

Lemma ignores_retrieveVersion fuel release :
  ignores_usetoken (retrieveVersion L W fuel release).
Proof.
  revert release. induction fuel; intros release; cbn [retrieveVersion].
  - intros u st. reflexivity.
  - repeat ignores_step; auto using ignores_github, ignores_assets_loop.
Qed.

Lemma ignores_releases_loop version rs :
  ignores_usetoken (releases_loop L version rs).
Proof. induction rs; cbn [releases_loop]; repeat ignores_step. Qed.

Lemma ignores_versionToId version : ignores_usetoken (versionToId L W version).
Proof.
  unfold versionToId. repeat ignores_step;
    auto using ignores_github, ignores_releases_loop.
Qed.

Lemma ignores_isInstalled version kw : ignores_usetoken (isInstalled L W version kw).
Proof.
  unfold isInstalled. repeat ignores_step; auto using ignores_ensure_session.
Qed.

Lemma ignores_uninstallAS3 kw : ignores_usetoken (uninstallAS3 L W kw).
Proof.
  unfold uninstallAS3. repeat ignores_step;
    auto using ignores_ensure_session, ignores_isInstalled.
Qed.

Lemma ignores_installAS3 fuel version filename kw :
  ignores_usetoken (installAS3 L W fuel version filename kw).
Proof.
  unfold installAS3, install_prepare, install_upload, install_submit,
    install_verify.
  repeat ignores_step;
    auto using ignores_ensure_session, ignores_isInstalled,
      ignores_versionToId, ignores_retrieveVersion.
Qed.

(** X5.  The attribute [self.usetoken] that [__init__] sets is never read:
    with any other value of it [bigipConnect], [isInstalled], install and
    uninstall return the same result and leave the same state.  Only the
    keyword [usetoken] of a call asks for a token. *)
Theorem usetoken_attribute_is_never_read fuel version filename kw u st :
  let same {A} (m : M A) :=
    m (with_usetoken u st) = (fst (m st), with_usetoken u (snd (m st))) in
  same (bigipConnect L W kw)
  /\ same (isInstalled L W version kw)
  /\ same (installAS3 L W fuel version filename kw)
  /\ same (uninstallAS3 L W kw).
Proof.
  intros same. unfold same. repeat apply conj.
  - apply ignores_bigipConnect.
  - apply ignores_isInstalled.
  - apply ignores_installAS3.
  - apply ignores_uninstallAS3.
Qed.

End Usetoken.

(** ** bigipConnect *)

Section Connect.
Variable L : pylib.
Variable W : world.

(** X6.  [bigipConnect] always returns, [True] or [False], and touches no
    file.  With [True] a session is in [self.bigip] and [self.error] is as
    before; with [False] [self.bigip] is as before and [self.error] holds a
    message. *)
Theorem bigipConnect_outcome kw st :
  let run := bigipConnect L W kw st in
  files (snd run) = files st
  /\ ((fst run = Ok VTrue
       /\ (exists b, self_bigip (snd run) = Some b)
       /\ self_error (snd run) = self_error st)
      \/ (fst run = Ok VFalse
          /\ self_bigip (snd run) = self_bigip st
          /\ exists msg, self_error (snd run) = VStr msg)).
Proof.
  unfold bigipConnect, bind, gets, emit, modify, ret, set_error. cbn.
  destruct (default false (kw_usetoken kw)).
  - rewrite !debug_run.
    destruct (py_eq _ _); cbn; rewrite !logged_files; cbn;
      rewrite ?logged_files; (split; [reflexivity|]).
    + right. rewrite !logged_bigip. cbn. rewrite logged_bigip. eauto.
    + left. rewrite !logged_error. cbn. rewrite logged_error. eauto.
  - destruct (icr_truthy _); cbn; rewrite !debug_run; cbn;
      rewrite ?logged_files; (split; [reflexivity|]).
    + left. rewrite logged_error. eauto.
    + right. rewrite logged_bigip. rewrite logged_error. cbn. eauto.
Qed.

(** X7.  With [usetoken=True] the token alone decides: the call fails
    exactly when the token equals [False] (as [0] does), with the token
    message; any other token, [None] and the empty string included, makes
    it succeed and stores the session, whether or not the session object
    itself is truthy (line 104 is not reached). *)
Theorem bigipConnect_token_decides kw st :
  kw_usetoken kw = Some true ->
  let run := bigipConnect L W kw st in
  let tok := reply (token_reply W kw st) in
  (py_eq tok VFalse = true ->
   fst run = Ok VFalse
   /\ self_bigip (snd run) = self_bigip st
   /\ self_error (snd run) =
        VStr ("Cannot retrieve token from host " +:+ host (resolve kw st)
              +:+ " with username " +:+ username (resolve kw st)))
  /\ (py_eq tok VFalse = false ->
      fst run = Ok VTrue
      /\ exists b,
           self_bigip (snd run) = Some b
           /\ icr_token b = tok
           /\ icr_truthy b = icr_truthy (new_session W kw st)).
Proof.
  intros Hk run tok. unfold run, tok, token_reply, new_session.
  unfold bigipConnect, bind, gets, emit, modify, ret, set_error. cbn.
  rewrite Hk. cbn. rewrite !debug_run.
  split; intros E; rewrite E; cbn.
  - rewrite !logged_bigip. cbn. rewrite logged_bigip. auto.
  - split; [reflexivity|]. eexists. split; [reflexivity|]. cbn. auto.
Qed.

End Connect.

(** ** The requests to the catalog *)

Lemma requests_in_app a b : requests_in (a ++ b) = requests_in a ++ requests_in b.
Proof.
  induction a as [|ev a IH]; [reflexivity|].
  destruct ev; cbn; rewrite IH; reflexivity.
Qed.

Lemma requests_in_logged msg st :
  requests_in (trace (logged msg st)) = requests_in (trace st).
Proof. unfold logged. destruct (self_debug st); reflexivity. Qed.

Lemma requests_in_prints new :
  forallb is_print new = true -> requests_in new = [].
Proof.
  induction new as [|ev new IH]; [reflexivity|]. cbn.
  intros H. apply andb_prop in H as [H1 H2].
  destruct ev; try discriminate. apply IH, H2.
Qed.

Section Requests.
Variable L : pylib.
Variable W : world.

Lemma github_requests_in url kw st :
  requests_in (trace (snd (github L W url kw st)))
  = github_requests L url kw ++ requests_in (trace st).
Proof.
  unfold github, github_requests, post_request, get_request, api,
    bind, ret, set_error, modify, send.
  rewrite debug_run.
  destruct (String.eqb (gh_method kw) "post").
  - destruct (json_dumps L (gh_data kw)) as [body|]; cbn.
    + match goal with
      | |- context [requests_send W ?t ?r] =>
          destruct (requests_send W t r) as [e|code text content]
      end; cbn.
      * rewrite requests_in_logged. reflexivity.
      * rewrite debug_run.
        destruct (code =? 200); cbn; [destruct (gh_stream kw)|]; cbn;
          rewrite requests_in_logged; cbn; rewrite requests_in_logged;
          reflexivity.
    + rewrite requests_in_logged. reflexivity.
  - match goal with
    | |- context [requests_send W ?t ?r] =>
        destruct (requests_send W t r) as [e|code text content]
    end; cbn.
    + rewrite requests_in_logged. reflexivity.
    + rewrite debug_run.
      destruct (code =? 200); cbn; [destruct (gh_stream kw)|]; cbn;
        rewrite requests_in_logged; cbn; rewrite requests_in_logged;
        reflexivity.
Qed.

Lemma releases_loop_prints version rs :
  keeps (fun _ => True) is_print (releases_loop L version rs).
Proof. apply keeps_releases_loop; auto. Qed.

(** X8.  One call of [github] sends one request, to the URL of the
    repository followed by [url], with the User-Agent and Content-Type
    headers (and Accept for a stream), and never repeats it; a post whose
    data cannot be serialised sends none and returns [False] with the
    exception in [self.error].  [versionToId] fetches the list of releases
    once per call, whatever the list holds. *)
Theorem catalog_requests url kw version st :
  requests_in (trace (snd (github L W url kw st)))
    = github_requests L url kw ++ requests_in (trace st)
  /\ (json_dumps L (gh_data kw) = None ->
      String.eqb (gh_method kw) "post" = true ->
      github L W url kw st =
        (Ok VFalse,
         with_error (VExc (TypeError "Object is not JSON serializable"))
           (logged ("github: URI = " +:+ api +:+ url) st)))
  /\ requests_in (trace (snd (versionToId L W version st)))
     = get_request "releases" github_defaults :: requests_in (trace st).
Proof.
  split; [apply github_requests_in|]. split.
  - intros Hd Hm. unfold github, api, bind, ret, set_error, modify.
    rewrite debug_run, Hm, Hd. reflexivity.
  - pose proof (github_requests_in "releases" github_defaults st) as Hg.
    unfold versionToId, bind, ret, eval.
    destruct (github L W "releases" github_defaults st) as [[v|e|] s1];
      cbn in Hg; cbn; try exact Hg.
    destruct (truthy v); cbn; [|exact Hg].
    destruct (rbind (loads L v) py_iter) as [rs|e]; [|exact Hg].
    destruct (releases_loop L version rs s1) as [r s2] eqn:E. cbn.
    destruct (releases_loop_prints version rs s1 r s2 I E) as [_ [new [Ht Hp]]].
    rewrite Ht, requests_in_app, (requests_in_prints _ Hp). exact Hg.
Qed.

End Requests.

(** ** The scan of versionToId *)

Section Scan.
Variable L : pylib.
Variable W : world.

(** The releases before the first match are passed over; only the debug
    lines remain of them. *)
Lemma releases_loop_pass version pre rest st :
  forallb is_release pre = true ->
  forallb (fun r => negb (named version r)) pre = true ->
  exists st',
    releases_loop L (VStr version) (pre ++ rest) st
    = releases_loop L (VStr version) rest st'.
Proof.
  revert st. induction pre as [|r pre IH]; intros st Hwf Hno; [eauto|].
  cbn in Hwf, Hno. apply andb_prop in Hwf as [Hr Hwf].
  apply andb_prop in Hno as [Hn Hno].
  unfold is_release in Hr. unfold named in Hn.
  destruct (release_name r) as [n|] eqn:En; [|discriminate].
  destruct (release_id r) as [i|] eqn:Ei; [|discriminate].
  destruct r as [| | | |?|d| |]; try discriminate. cbn in En, Ei.
  destruct (assoc "name" d) as [[| | |n'| | | |]|] eqn:Hname; try discriminate.
  injection En as ->.
  cbn [app releases_loop]. unfold bind, eval, ret. cbn. rewrite Hname, Ei. cbn.
  rewrite debug_run. apply negb_true_iff in Hn. rewrite Hn.
  apply IH; assumption.
Qed.

(** X9.  The scan of [versionToId] stops at the first release whose name
    is the version: the entries after it are not examined, whatever they
    are.  An entry before any match that has no string [name] raises. *)
Theorem versionToId_stops_at_first_match version st text st1 pre r post :
  github L W "releases" github_defaults st = (Ok (VStr text), st1) ->
  text <> "" ->
  json_loads L text = Some (VList (pre ++ r :: post)) ->
  forallb is_release pre = true ->
  forallb (fun p => negb (named version p)) pre = true ->
  (forall i,
     release_name r = Some version -> release_id r = Some i ->
     fst (versionToId L W (VStr version) st) = Ok (VStr (py_str L i)))
  /\ (release_name r = None ->
      exists e, fst (versionToId L W (VStr version) st) = Raise e).
Proof.
  intros Hg Ht Hj Hwf Hno.
  assert (Htext : truthy (VStr text) = true).
  { cbn. destruct (String.eqb_spec text ""); [contradiction | reflexivity]. }
  assert (Hrun : exists st',
    versionToId L W (VStr version) st
    = releases_loop L (VStr version) (r :: post) st').
  { destruct (releases_loop_pass version pre (r :: post) st1 Hwf Hno)
      as [st' E].
    exists st'. unfold versionToId, bind, eval. rewrite Hg, Htext. cbn.
    rewrite Hj. cbn. exact E. }
  destruct Hrun as [st' ->]. split.
  - intros i Hn Hi.
    destruct r as [| | | |?|d| |]; try discriminate. cbn in Hn, Hi.
    destruct (assoc "name" d) as [[| | |n'| | | |]|] eqn:Hname; try discriminate.
    injection Hn as ->.
    cbn [releases_loop]. unfold bind, eval, ret. cbn. rewrite Hname, Hi. cbn.
    rewrite debug_run. rewrite String.eqb_refl. reflexivity.
  - intros Hn. cbn [releases_loop]. unfold bind, eval.
    destruct r as [| | | |?|d| |]; cbn; eauto.
    cbn in Hn.
    destruct (assoc "name" d) as [[| | |n'| | | |]|] eqn:Hname; cbn; eauto.
    discriminate.
Qed.

End Scan.

(** ** What retrieveVersion leaves behind *)

Section Download.
Variable L : pylib.
Variable W : world.

Lemma ensures_ret {A} (Q : A -> state -> Prop) a :
  (forall st, Q a st) -> ensures Q (ret a).
Proof. intros H st x st' [= <- <-]. apply H. Qed.

Lemma ensures_bind {A B} (Q : B -> state -> Prop) (m : M A) (k : A -> M B) :
  (forall a, ensures Q (k a)) -> ensures Q (bind m k).
Proof.
  intros Hk st b st'. unfold bind.
  destruct (m st) as [[a|e|] st1]; try discriminate. apply Hk.
Qed.

Lemma ensures_if {A} (Q : A -> state -> Prop) (c : bool) (a b : M A) :
  ensures Q a -> ensures Q b -> ensures Q (if c then a else b).
Proof. destruct c; auto. Qed.

Lemma on_disk_other v st : (forall n, v <> VStr n) -> on_disk v st.
Proof. intros H n E. destruct (H n E). Qed.

(** Writing to a file removes no file. *)
Lemma write_chunks_keeps_file name chunks k st r st' :
  write_chunks name chunks st = (r, st') ->
  is_Some (files st !! k) -> is_Some (files st' !! k).
Proof.
  revert st. induction chunks as [|c cs IH]; intros st.
  - intros [= <- <-]. auto.
  - cbn [write_chunks]. unfold bind at 1, eval.
    destruct (expect_str _ c) as [b|e]; [|intros [= <- <-]; auto].
    unfold bind at 1, fd_write, modify. intros Hrun Hk.
    apply (IH _ Hrun). cbn.
    destruct (decide (name = k)) as [->|Hne].
    + rewrite lookup_insert_eq. eauto.
    + rewrite lookup_insert_ne by exact Hne. exact Hk.
Qed.

Lemma assets_loop_on_disk assets : ensures on_disk (assets_loop L W assets).
Proof.
  induction assets as [|file rest IH]; cbn [assets_loop].
  - apply ensures_ret. intros st. apply on_disk_other. discriminate.
  - apply ensures_bind. intros name.
    destruct (ends_with "rpm" name); [|exact IH].
    repeat (apply ensures_bind; intros ?).
    apply ensures_if.
    + apply ensures_bind. intros _. apply ensures_ret.
      intros st. apply on_disk_other. discriminate.
    + intros st v st'. unfold bind at 1, open_wb, modify.
      unfold bind at 1, eval.
      destruct (py_iter _) as [chunks|e]; [|discriminate].
      unfold bind at 1.
      destruct (write_chunks name chunks _) as [[[]|e|] s2] eqn:Hw;
        try discriminate.
      intros [= <- <-] n [= <-].
      apply (write_chunks_keeps_file _ _ _ _ _ _ Hw). cbn.
      rewrite lookup_insert_eq. eauto.
Qed.

Lemma retrieveVersion_on_disk fuel release :
  ensures on_disk (retrieveVersion L W fuel release).
Proof.
  revert release. induction fuel as [|fuel IH]; intros release;
    cbn [retrieveVersion].
  - intros st a st'. discriminate.
  - apply ensures_if.
    + apply ensures_bind. intros r. apply ensures_if.
      * apply ensures_ret. intros st. apply on_disk_other. discriminate.
      * apply ensures_bind. intros latest. apply IH.
    + apply ensures_bind. intros r. apply ensures_if.
      * apply ensures_ret. intros st. apply on_disk_other. discriminate.
      * repeat (apply ensures_bind; intros ?). apply assets_loop_on_disk.
Qed.

(** X11.  What [retrieveVersion] returns is [None], [False], or a name
    that ends in rpm of a file that it has written.  So when install is
    given no file name, the file it resolves exists: the check of line 210
    can only fail for a name the caller passed. *)
Theorem downloaded_file_exists fuel release version filename c st :
  (forall v st',
     retrieveVersion L W fuel release st = (Ok v, st') ->
     v = VNone \/ v = VFalse
     \/ exists n,
          v = VStr n /\ ends_with "rpm" n = true /\ is_Some (files st' !! n))
  /\ (truthy filename = false ->
      forall name st1,
        install_prepare L W fuel version filename c st
          = (Ok (Continue (VStr name)), st1) ->
        is_Some (files st1 !! name)).
Proof.
  split.
  - intros v st' H.
    destruct (retrieveVersion_yields L W _ _ _ _ _ H) as [E|[E|[n [E Hn]]]];
      auto.
    right. right. exists n. split; [exact E|]. split; [exact Hn|].
    exact (retrieveVersion_on_disk _ _ _ _ _ H n E).
  - intros Hf.
    assert (Hq : ensures (fun r s => match r with
                                     | Continue v => on_disk v s
                                     | Return _ => True
                                     end)
                   (install_prepare L W fuel version filename c)).
    { unfold install_prepare. rewrite Hf.
      apply ensures_bind. intros ok.
      apply ensures_if; [apply ensures_ret; intros; exact I|].
      apply ensures_bind. intros touched.
      apply ensures_if;
        [apply ensures_bind; intros _; apply ensures_ret; intros; exact I|].
      apply ensures_if.
      - apply ensures_bind. intros vid. apply ensures_if.
        + repeat (apply ensures_bind; intros ?). apply ensures_ret.
          intros; exact I.
        + intros s a s'. unfold bind at 1.
          destruct (retrieveVersion L W fuel vid s) as [[f|e|] s2] eqn:E;
            try discriminate.
          destruct (truthy f); cbn.
          * intros [= <- <-]. exact (retrieveVersion_on_disk _ _ _ _ _ E).
          * unfold bind, eval, gets, set_error, modify, ret.
            destruct (str_add _ version); cbn; [|discriminate].
            intros [= <- <-]. exact I.
      - intros s a s'. unfold bind at 1.
        destruct (retrieveVersion L W fuel VFalse s) as [[f|e|] s2] eqn:E;
          try discriminate.
        destruct (truthy f); cbn.
        + intros [= <- <-]. exact (retrieveVersion_on_disk _ _ _ _ _ E).
        + unfold bind, eval, gets, set_error, modify, ret. cbn.
          intros [= <- <-]. exact I. }
    intros name st1 H. exact (Hq _ _ _ H name eq_refl).
Qed.

(** X12.  A release whose [body] is not text (GitHub sends null for a
    release without notes): [encode] raises at line 356, after the debug
    line and before any file is written. *)
Theorem retrieveVersion_body_not_text
    fuel release st text st1 d name id body e :
  truthy release = true ->
  github L W ("releases/" +:+ py_str L release) github_defaults st
    = (Ok (VStr text), st1) ->
  text <> "" ->
  json_loads L text = Some (VDict d) ->
  assoc "name" d = Some (VStr name) ->
  assoc "id" d = Some id ->
  assoc "body" d = Some body ->
  py_encode body = Exn e ->
  retrieveVersion L W (S fuel) release st
    = (Raise e,
       logged (("Release version:" +:+ name) +:+ ", ID:" +:+ py_str L id) st1)
  /\ files (snd (retrieveVersion L W (S fuel) release st)) = files st.
Proof.
  intros Hr Hg Ht Hj Hn Hi Hb He.
  assert (Hrun : retrieveVersion L W (S fuel) release st
    = (Raise e,
       logged (("Release version:" +:+ name) +:+ ", ID:" +:+ py_str L id) st1)).
  { cbn [retrieveVersion]. rewrite Hr. cbn [negb].
    unfold bind at 1. rewrite Hg.
    assert (Htext : truthy (VStr text) = true).
    { cbn. destruct (String.eqb_spec text ""); [contradiction | reflexivity]. }
    rewrite Htext. cbn [negb].
    unfold bind, eval, loads. rewrite Hj. cbn.
    rewrite Hn, Hi. cbn. rewrite debug_run. rewrite Hb. cbn. rewrite He.
    reflexivity. }
  split; [exact Hrun|]. rewrite Hrun. cbn. rewrite logged_files.
  destruct (github_contract L W _ _ _ _ _ Hg) as [Hf _]. exact Hf.
Qed.

(** X13.  An answer of the catalog with status 200 whose text is not JSON:
    [json.loads] raises ValueError, and the exception leaves [versionToId],
    [retrieveVersion(release=id)] and install by version name; it is not
    turned into [False]. *)
Theorem catalog_answer_not_json text :
  text <> "" ->
  json_loads L text = None ->
  let e := ValueError "Expecting value" in
  (forall version st st1,
     github L W "releases" github_defaults st = (Ok (VStr text), st1) ->
     versionToId L W version st = (Raise e, st1))
  /\ (forall fuel release st st1,
        truthy release = true ->
        github L W ("releases/" +:+ py_str L release) github_defaults st
          = (Ok (VStr text), st1) ->
        retrieveVersion L W (S fuel) release st = (Raise e, st1))
  /\ (forall fuel version kw st st0 b st2,
        let c := resolve kw st in
        let cmd := "touch /var/config/rest/iapps/enable" in
        ensure_session L W c st = (Ok true, st0) ->
        self_bigip st0 = Some b ->
        truthy (reply (iCR_command W (trace st0) cmd)) = true ->
        truthy version = true ->
        github L W "releases" github_defaults (touched_state W b st0)
          = (Ok (VStr text), st2) ->
        installAS3 L W fuel version VFalse kw st = (Raise e, st2)).
Proof.
  intros Ht Hj e.
  assert (Htext : truthy (VStr text) = true).
  { cbn. destruct (String.eqb_spec text ""); [contradiction | reflexivity]. }
  assert (Hv : forall version st st1,
     github L W "releases" github_defaults st = (Ok (VStr text), st1) ->
     versionToId L W version st = (Raise e, st1)).
  { intros version st st1 Hg. unfold versionToId, bind, eval, loads.
    rewrite Hg, Htext. cbn. rewrite Hj. reflexivity. }
  split; [exact Hv|]. split.
  - intros fuel release st st1 Hr Hg. cbn [retrieveVersion]. rewrite Hr.
    cbn [negb].
    unfold bind, eval, loads. rewrite Hg, Htext. cbn. rewrite Hj. reflexivity.
  - intros fuel version kw st st0 b st2 c cmd Hs Hb Hc Hver Hg.
    unfold installAS3, continue_with, bind, gets. cbn. fold c.
    unfold install_prepare, bind, gets, ret, set_error, modify. rewrite Hs. cbn.
    rewrite (session_call_run _ _ _ b Hb). fold cmd. rewrite Hc. cbn.
    rewrite Hver. unfold touched_state in Hg. rewrite (Hv _ _ _ Hg).
    reflexivity.
Qed.

End Download.

(** ** The installed state, uninstall, and a failed connection *)

Section States.
Variable L : pylib.
Variable W : world.

(** X15.  [isInstalled] returns [False], [True], or the truthy answer of
    the info endpoint, which then contains [version]; a falsy answer (the
    empty mapping included) gives [False]. *)
Theorem isInstalled_result version kw st :
  (forall v st',
     isInstalled L W version kw st = (Ok v, st') -> installed_state W v)
  /\ (forall st1,
        ensure_session L W (resolve kw st) st = (Ok true, st1) ->
        truthy (reply (iCR_get W (trace st1) info_uri)) = false ->
        fst (isInstalled L W version kw st) = Ok VFalse).
Proof.
  split.
  - intros v st'. unfold isInstalled, bind, gets, eval, ret. cbn.
    destruct (ensure_session L W _ st) as [[[]| |] s1]; cbn; try discriminate.
    2:{ rewrite debug_run. intros [= <- _]. left. reflexivity. }
    unfold session_call.
    destruct (self_bigip s1) as [b|]; [|discriminate].
    set (response := reply _).
    assert (Hresp : exists t, response = reply (iCR_get W t info_uri))
      by (eexists; reflexivity).
    clearbody response.
    destruct (truthy response) eqn:Ht; cbn; rewrite debug_run.
    2:{ intros [= <- _]. left. reflexivity. }
    destruct (truthy version); cbn.
    + destruct (py_in "version" response) as [[]|e] eqn:Hin; cbn;
        try discriminate.
      * destruct (py_getitem response "version") as [x|e]; cbn;
          try discriminate.
        destruct (py_eq x version); cbn; intros [= <- _].
        -- right. right. auto.
        -- left. reflexivity.
      * intros [= <- _]. right. left. reflexivity.
    + destruct (py_in "version" response) as [[]|e] eqn:Hin; cbn;
        try discriminate; intros [= <- _].
      * right. right. auto.
      * right. left. reflexivity.
  - intros st1 Hs Hr.
    destruct (ensure_session_bigip L W _ _ _ Hs) as [b Hb].
    unfold isInstalled, bind, gets, eval, ret. rewrite Hs. cbn.
    rewrite (session_call_run _ _ _ b Hb), Hr. cbn. rewrite debug_run.
    reflexivity.
Qed.

(** X16.  Once the UNINSTALL task for
    f5-appsvcs-<version>-<release>.noarch is accepted, uninstall waits 5
    seconds and queries the installed state again: it returns [True] when
    the query finds nothing, and raises at the call of line 279 when the
    package is still reported; it never returns [False] from there. *)
Theorem uninstall_after_task kw st st0 d st1 v r b result st3 :
  let c := resolve kw st in
  ensure_session L W c st = (Ok true, st0) ->
  isInstalled L W VFalse (explicit c) st0 = (Ok (VDict d), st1) ->
  assoc "version" d = Some (VStr v) ->
  assoc "release" d = Some (VStr r) ->
  self_bigip st1 = Some b ->
  let created := iCR_create W (trace st1) tasks_uri (uninstall_task v r) in
  truthy (reply created) = true ->
  let waited :=
    with_bigip (Some (answered created b))
      (with_trace
         (ESleep 5 :: ECreate tasks_uri (uninstall_task v r) :: trace st1)
         st1) in
  isInstalled L W VFalse (explicit c) waited = (result, st3) ->
  uninstallAS3 L W kw st =
    match result with
    | Ok still =>
        if truthy still then (Raise (TypeError "object is not callable"), st3)
        else (Ok VTrue, st3)
    | _ => (result, st3)
    end.
Proof.
  intros c Hs Hq Hv Hr Hb created Hc waited Hw.
  unfold uninstallAS3, bind, gets, eval, ret, set_error, modify, emit, raise.
  cbn. fold c. rewrite Hs. cbn. rewrite Hq.
  rewrite (assoc_truthy _ _ _ Hv). cbn. rewrite Hv, Hr. cbn.
  assert (E : ((("f5-appsvcs-" +:+ v) +:+ "-") +:+ r) +:+ ".noarch"
              = package_name v r).
  { unfold package_name. rewrite !append_assoc. reflexivity. }
  rewrite E. fold (uninstall_task v r).
  rewrite (session_call_run _ _ _ b Hb). fold created. rewrite Hc. cbn.
  match goal with
  | |- context [isInstalled L W VFalse (explicit c) ?s] =>
      change s with waited
  end.
  rewrite Hw.
  destruct result as [still| |]; try reflexivity.
  destruct (truthy still); reflexivity.
Qed.

(** X17.  When the connection fails the call ends there: install and
    uninstall return [False] in the state the connection attempt left,
    [isInstalled] returns [False] after its debug line; [self.error] holds
    the message of [bigipConnect], and nothing but the connection attempt
    has happened. *)
Theorem connection_failure_ends_the_call fuel version filename kw st st0 :
  ensure_session L W (resolve kw st) st = (Ok false, st0) ->
  installAS3 L W fuel version filename kw st = (Ok VFalse, st0)
  /\ uninstallAS3 L W kw st = (Ok VFalse, st0)
  /\ isInstalled L W version kw st
     = (Ok VFalse,
        logged ("Cannot connect to " +:+ host (resolve kw st)) st0)
  /\ (exists msg, self_error st0 = VStr msg)
  /\ only print_or_connect st st0.
Proof.
  intros Hs. repeat apply conj.
  - unfold installAS3, continue_with, bind, gets. cbn.
    unfold install_prepare, bind, ret. rewrite Hs. reflexivity.
  - unfold uninstallAS3, bind, gets, ret. cbn. rewrite Hs. reflexivity.
  - unfold isInstalled, bind, gets, ret. cbn. rewrite Hs. cbn.
    rewrite debug_run. reflexivity.
  - revert Hs. unfold ensure_session, bind, gets, ret.
    destruct (connected st); [discriminate|].
    destruct (bigipConnect L W _ st) as [[v| |] s] eqn:E; try discriminate.
    intros [= Hv <-].
    destruct (bigipConnect_false L W _ _ _ _ E Hv) as [H|H]; eauto.
  - apply (keeps_ensure_session L W (fun _ => True) print_or_connect)
      with (c := resolve kw st) (r := Ok false); auto.
    intros ev H. unfold print_or_connect. rewrite H. apply orb_true_r.
Qed.

End States.

(** ** The course of install *)

Lemma passed_start st : passed st [] st.
Proof. exists []. split; [reflexivity | constructor]. Qed.

Lemma passed_event st evs ev s :
  passed st evs s -> passed st evs (with_trace (ev :: trace s) s).
Proof.
  intros [new [Ht Hs]]. exists (ev :: new). cbn. rewrite Ht.
  split; [reflexivity | apply sublist_cons, Hs].
Qed.

Lemma passed_same st evs s s' :
  trace s' = trace s -> passed st evs s -> passed st evs s'.
Proof. intros E [new [Ht Hs]]. exists new. rewrite E. auto. Qed.

Lemma passed_next st evs ev s s' :
  trace s' = ev :: trace s -> passed st evs s -> passed st (ev :: evs) s'.
Proof.
  intros E [new [Ht Hs]]. exists (ev :: new). rewrite E, Ht.
  split; [reflexivity | apply sublist_skip, Hs].
Qed.

Lemma passed_logged st evs msg s :
  passed st evs s -> passed st evs (logged msg s).
Proof.
  intros H. unfold logged. destruct (self_debug s); [|exact H].
  apply passed_event, H.
Qed.

Ltac passed_side :=
  try solve
    [ auto
    | intros; apply passed_event; assumption
    | intros; eapply passed_same; [|eassumption]; reflexivity
    | intros; reflexivity ].

Section Sequence.
Variable L : pylib.
Variable W : world.

Lemma yields_bind_post {A B} (P : A -> Prop) (Q : B -> Prop)
    (m : M A) (k : A -> M B) :
  yields P m -> (forall a, P a -> yields Q (k a)) -> yields Q (bind m k).
Proof.
  intros Hm Hk st b st'. unfold bind.
  destruct (m st) as [[a|e|] st1] eqn:E; try discriminate.
  apply Hk. exact (Hm _ _ _ E).
Qed.

Lemma yields_raise {A} (Q : A -> Prop) e : yields Q (raise e).
Proof. intros st a st'. discriminate. Qed.

Ltac yields_step :=
  lazymatch goal with
  | |- yields _ (bind _ _) => apply yields_bind; intros ?
  | |- yields _ (if _ then _ else _) => apply yields_if
  | |- yields _ (ret _) => apply yields_ret; cbn; auto
  | |- yields _ (raise _) => apply yields_raise
  end.

Lemma install_prepare_flow fuel version filename c :
  yields false_or_continue (install_prepare L W fuel version filename c).
Proof. unfold install_prepare. repeat yields_step. Qed.

Lemma install_upload_flow file c :
  yields false_or_continue (install_upload W file c).
Proof. unfold install_upload. repeat yields_step. Qed.

Lemma install_submit_flow name :
  yields false_or_continue (install_submit L W name).
Proof. unfold install_submit. repeat yields_step. Qed.

Lemma install_verify_boolean name c : yields boolean (install_verify L W name c).
Proof.
  unfold install_verify, boolean. repeat yields_step.
Qed.

Lemma continue_with_boolean {A} (m : M (flow A)) (k : A -> M val) :
  yields false_or_continue m -> (forall a, yields boolean (k a)) ->
  yields boolean (continue_with m k).
Proof.
  intros Hm Hk. unfold continue_with.
  apply (yields_bind_post false_or_continue); [exact Hm|].
  intros [v|a] H; [|apply Hk].
  cbn in H. subst v. apply yields_ret. right. reflexivity.
Qed.

(** X18.  Install and uninstall return [True] or [False], nothing else. *)
Theorem install_and_uninstall_return_booleans fuel version filename kw :
  yields boolean (installAS3 L W fuel version filename kw)
  /\ yields boolean (uninstallAS3 L W kw).
Proof.
  split.
  - unfold installAS3. apply yields_bind. intros c.
    apply continue_with_boolean; [apply install_prepare_flow|]. intros file.
    apply continue_with_boolean; [apply install_upload_flow|]. intros name.
    apply continue_with_boolean; [apply install_submit_flow|]. intros _.
    apply install_verify_boolean.
  - unfold uninstallAS3, boolean. repeat yields_step.
Qed.

(** *** The order of the steps of install *)

Lemma ensure_session_passed st evs c :
  keeps (passed st evs) any_event (ensure_session L W c).
Proof. apply keeps_ensure_session; passed_side. Qed.

Lemma versionToId_passed st evs version :
  keeps (passed st evs) any_event (versionToId L W version).
Proof. apply keeps_versionToId; passed_side. Qed.

Lemma retrieveVersion_passed st evs fuel release :
  keeps (passed st evs) any_event (retrieveVersion L W fuel release).
Proof. apply keeps_retrieveVersion; passed_side. Qed.

Lemma session_call_passed st evs ev answer s v s' :
  passed st evs s ->
  session_call ev answer s = (Ok v, s') ->
  passed st (ev :: evs) s' /\ v = reply (answer (trace s)).
Proof.
  intros H. unfold session_call.
  destruct (self_bigip s); [|discriminate].
  intros [= <- <-]. split; [|reflexivity].
  eapply passed_next; [|exact H]. reflexivity.
Qed.

Lemma install_prepare_passed fuel version filename c st file s1 :
  install_prepare L W fuel version filename c st = (Ok (Continue file), s1) ->
  passed st [ECommand "touch /var/config/rest/iapps/enable"] s1.
Proof.
  unfold install_prepare. unfold bind at 1.
  destruct (ensure_session L W c st) as [[[]| |] s0] eqn:Hs; cbn;
    try discriminate.
  destruct (ensure_session_passed st [] c _ _ _ (passed_start st) Hs)
    as [H0 _].
  unfold bind at 1.
  destruct (session_call _ _ s0) as [[touched| |] s] eqn:Hc; try discriminate.
  destruct (session_call_passed _ _ _ _ _ _ _ H0 Hc) as [H _].
  clear Hs Hc H0. revert H.
  generalize [ECommand "touch /var/config/rest/iapps/enable"]. intros evs H.
  unfold bind, gets, eval, ret, set_error, modify.
  destruct (truthy touched); cbn; [|discriminate].
  destruct (truthy filename); cbn.
  { destruct (str_add _ filename); cbn; try discriminate.
    rewrite debug_run. intros [= _ <-]. apply passed_logged, H. }
  destruct (truthy version); cbn.
  - destruct (versionToId L W version s) as [[vid| |] s2] eqn:Hv;
      try discriminate.
    destruct (versionToId_passed st evs _ _ _ _ H Hv) as [H2 _].
    destruct (truthy vid); cbn.
    + destruct (retrieveVersion L W fuel vid s2) as [[f| |] s3] eqn:Hf;
        try discriminate.
      destruct (retrieveVersion_passed st evs _ _ _ _ _ H2 Hf) as [H3 _].
      destruct (truthy f); cbn.
      * intros [= _ <-]. exact H3.
      * destruct (str_add _ version); cbn; discriminate.
    + destruct (str_add _ version); cbn; discriminate.
  - destruct (retrieveVersion L W fuel VFalse s) as [[f| |] s3] eqn:Hf;
      try discriminate.
    destruct (retrieveVersion_passed st evs _ _ _ _ _ H Hf) as [H3 _].
    destruct (truthy f); cbn; [|discriminate].
    intros [= _ <-]. exact H3.
Qed.

Lemma install_upload_passed st evs file c s name s' :
  passed st evs s ->
  install_upload W file c s = (Ok (Continue name), s') ->
  file = VStr name
  /\ is_Some (files s !! name)
  /\ passed st (EUpload name :: evs) s'.
Proof.
  intros H. unfold install_upload, bind, eval, os_path_exists, gets, ret.
  destruct file as [| | |n| | | |]; cbn; try discriminate.
  destruct (bool_decide (is_Some (files s !! n))) eqn:Hex; cbn.
  2:{ rewrite debug_run. discriminate. }
  apply bool_decide_eq_true_1 in Hex.
  rewrite debug_run.
  destruct (session_call _ _ _) as [[up| |] s2] eqn:Hc; try discriminate.
  destruct (session_call_passed st evs _ _ _ _ _ (passed_logged _ _ _ _ H) Hc)
    as [H2 _].
  unfold session_attr, set_error, modify, emit.
  destruct (truthy up); cbn.
  - destruct (self_debug s2); cbn; intros [= <- <-];
      (split; [reflexivity|]); (split; [exact Hex|]).
    + apply passed_event, H2.
    + exact H2.
  - destruct (self_bigip s2); cbn; [|discriminate]. intros [= <- <-].
    split; [reflexivity|]. split; [exact Hex|].
    eapply passed_same; [|exact H2]. reflexivity.
Qed.

Lemma install_submit_passed st evs name s s' :
  passed st evs s ->
  install_submit L W name s = (Ok (Continue tt), s') ->
  exists data b,
    json_dumps L (install_task name) = Some data
    /\ self_bigip s' = Some b
    /\ py_eq (icr_code b) (VInt 202) = true
    /\ passed st (ECreate tasks_uri (VStr data) :: evs) s'.
Proof.
  intros H. unfold install_submit, bind, eval, ret.
  rewrite debug_run.
  destruct (json_dumps L (install_task name)) as [data|]; [|discriminate].
  destruct (session_call _ _ _) as [[created| |] s2] eqn:Hc; try discriminate.
  destruct (session_call_passed st evs _ _ _ _ _ (passed_logged _ _ _ _ H) Hc)
    as [H2 _].
  unfold session_attr, set_error, modify.
  destruct (self_bigip s2) as [b|] eqn:Hb; cbn; [|discriminate].
  destruct (py_eq (icr_code b) (VInt 202)) eqn:E; cbn;
    [|rewrite Hb; discriminate].
  rewrite debug_run. intros [= <-].
  exists data, b. split; [reflexivity|].
  split; [rewrite logged_bigip; exact Hb|]. split; [exact E|].
  apply passed_logged, H2.
Qed.

Lemma isInstalled_passed st evs version kw s v s' :
  passed st evs s ->
  isInstalled L W version kw s = (Ok v, s') ->
  truthy v = true ->
  passed st (EGet info_uri :: evs) s'.
Proof.
  intros H. unfold isInstalled, bind, gets, eval, ret. cbn.
  destruct (ensure_session L W _ s) as [[[]| |] s1] eqn:Hs; cbn;
    try discriminate.
  2:{ rewrite debug_run. intros [= <- _]. discriminate. }
  destruct (ensure_session_passed st evs _ _ _ _ H Hs) as [H1 _].
  destruct (session_call _ _ s1) as [[response| |] s2] eqn:Hc;
    try discriminate.
  destruct (session_call_passed st evs _ _ _ _ _ H1 Hc) as [H2 _].
  destruct (truthy response); cbn; rewrite debug_run.
  2:{ intros [= <- _]. discriminate. }
  match goal with
  | |- context [match ?o with Val _ => _ | Exn _ => _ end] =>
      destruct o as [m|e]
  end; cbn; [|discriminate].
  destruct m; cbn; [intros [= <- _]; discriminate|].
  destruct (py_in _ _) as [[]|]; cbn; try discriminate;
    intros [= _ <-] _; apply passed_logged, H2.
Qed.

Lemma install_verify_passed st evs name c s s' :
  passed st evs s ->
  install_verify L W name c s = (Ok VTrue, s') ->
  passed st (EGet info_uri :: ESleep 5 :: evs) s'.
Proof.
  intros H. unfold install_verify, bind, emit, modify, ret, set_error.
  rewrite debug_run. cbn. rewrite debug_run.
  destruct (isInstalled L W VFalse (explicit c) _) as [[v| |] s2] eqn:Hq;
    try discriminate.
  destruct (truthy v) eqn:Hv; cbn; [|discriminate].
  rewrite debug_run. intros [= <-]. apply passed_logged.
  eapply isInstalled_passed; [|exact Hq|exact Hv].
  apply passed_logged. eapply passed_next; [reflexivity|].
  apply passed_logged, H.
Qed.

(** X20.  When install returns [True], the call has enabled iApps LX,
    uploaded a file, submitted the INSTALL task for it, waited 5 seconds
    and queried the installed state, in this order. *)
Theorem install_true_sequence fuel version filename kw st st' :
  installAS3 L W fuel version filename kw st = (Ok VTrue, st') ->
  exists name data,
    json_dumps L (install_task name) = Some data
    /\ passed st
         [EGet info_uri; ESleep 5; ECreate tasks_uri (VStr data);
          EUpload name; ECommand "touch /var/config/rest/iapps/enable"]
         st'.
Proof.
  unfold installAS3, continue_with, bind at 1, gets.
  unfold bind at 1.
  destruct (install_prepare L W fuel version filename _ st)
    as [[[v|file]| |] s1] eqn:Hp; try discriminate.
  { unfold ret. intros [= -> _].
    pose proof (install_prepare_flow _ _ _ _ _ _ _ Hp) as Hv.
    discriminate. }
  pose proof (install_prepare_passed _ _ _ _ _ _ _ Hp) as H1.
  unfold bind at 1.
  destruct (install_upload W file _ s1) as [[[v|name]| |] s2] eqn:Hu;
    try discriminate.
  { unfold ret. intros [= -> _].
    pose proof (install_upload_flow _ _ _ _ _ Hu) as Hv. discriminate. }
  destruct (install_upload_passed _ _ _ _ _ _ _ H1 Hu) as [_ [_ H2]].
  unfold bind at 1.
  destruct (install_submit L W name s2) as [[[v|[]]| |] s3] eqn:Hsub;
    try discriminate.
  { unfold ret. intros [= -> _].
    pose proof (install_submit_flow _ _ _ _ Hsub) as Hv. discriminate. }
  destruct (install_submit_passed _ _ _ _ _ H2 Hsub)
    as [data [b [Hd [_ [_ H3]]]]].
  intros Hv. exists name, data. split; [exact Hd|].
  exact (install_verify_passed _ _ _ _ _ _ H3 Hv).
Qed.

(** X21.  A file name the caller gives takes priority: the version and the
    recursion budget do not matter, no request is sent to the catalog and
    no file is written. *)
Theorem explicit_filename_skips_catalog
    fuel fuel' version version' filename kw st :
  truthy filename = true ->
  let run := installAS3 L W fuel version filename kw st in
  run = installAS3 L W fuel' version' filename kw st
  /\ files (snd run) = files st
  /\ only off_catalog st (snd run).
Proof.
  intros H run. split.
  - unfold run, installAS3, install_prepare. rewrite H. reflexivity.
  - pose (I := fun s : state => files s = files st).
    assert (Hc : forall c, keeps I off_catalog (ensure_session L W c))
      by (intros c; apply keeps_ensure_session; keeps_side).
    apply (keeps_run I off_catalog (installAS3 L W fuel version filename kw) st);
      [|reflexivity].
    apply keeps_installAS3_named; keeps_side.
Qed.

End Sequence.

(** ** The resolution of the file, and the latest pointer *)

Section Resolution.
Variable L : pylib.
Variable W : world.

(** X19.  The three ways the resolution of the file fails (lines 193-207):
    no id for the version name, no file for the id (the [None] of
    [retrieveVersion] included), no latest file.  Each returns [False] and
    stores its message, which ends with the text of the [self.error] found
    at that point. *)
Theorem install_resolution_fails fuel version filename kw st st0 b :
  let c := resolve kw st in
  ensure_session L W c st = (Ok true, st0) ->
  self_bigip st0 = Some b ->
  truthy (reply (iCR_command W (trace st0)
                   "touch /var/config/rest/iapps/enable")) = true ->
  truthy filename = false ->
  let s1 := touched_state W b st0 in
  let run := installAS3 L W fuel version filename kw st in
  let failed_with msg s :=
    run = (Ok VFalse, with_error (VStr (msg +:+ py_str L (self_error s))) s) in
  (forall name vid s2,
     version = VStr name -> name <> "" ->
     versionToId L W version s1 = (Ok vid, s2) -> truthy vid = false ->
     failed_with ("Cannot retrieve ID for version " +:+ name +:+ " error: ") s2)
  /\ (forall name vid s2 f s3,
        version = VStr name -> name <> "" ->
        versionToId L W version s1 = (Ok vid, s2) -> truthy vid = true ->
        retrieveVersion L W fuel vid s2 = (Ok f, s3) -> truthy f = false ->
        failed_with ("Cannot retrieve version " +:+ name +:+ " error: ") s3)
  /\ (forall f s3,
        truthy version = false ->
        retrieveVersion L W fuel VFalse s1 = (Ok f, s3) -> truthy f = false ->
        failed_with "Cannot retrieve latest version, error: " s3).
Proof.
  intros c Hs Hb Ht Hf s1 run failed_with.
  assert (Hrun : run =
    continue_with
      (if truthy version then
         let* vid := versionToId L W version in
         if negb (truthy vid) then
           let* shown := eval (str_add "Cannot retrieve ID for version " version) in
           let* err := gets self_error in
           set_error (VStr (shown +:+ " error: " +:+ py_str L err)) ;;;
           ret (Return VFalse)
         else
           let* filename := retrieveVersion L W fuel vid in
           if negb (truthy filename) then
             let* shown := eval (str_add "Cannot retrieve version " version) in
             let* err := gets self_error in
             set_error (VStr (shown +:+ " error: " +:+ py_str L err)) ;;;
             ret (Return VFalse)
           else ret (Continue filename)
       else
         let* filename := retrieveVersion L W fuel VFalse in
         if negb (truthy filename) then
           let* err := gets self_error in
           set_error (VStr ("Cannot retrieve latest version, error: "
                            +:+ py_str L err)) ;;;
           ret (Return VFalse)
         else ret (Continue filename))
      (fun file =>
       continue_with (install_upload W file c) (fun name =>
       continue_with (install_submit L W name) (fun _ =>
       install_verify L W name c))) s1).
  { unfold run, installAS3, continue_with at 1, bind at 1 2, gets. cbn. fold c.
    unfold install_prepare. unfold bind at 1. rewrite Hs. cbn [negb].
    unfold bind at 1. rewrite (session_call_run _ _ _ b Hb).
    fold (touched_state W b st0). fold s1. rewrite Ht, Hf. cbn [negb].
    reflexivity. }
  assert (Htruthy : forall name, name <> "" -> truthy (VStr name) = true).
  { intros name Hn. cbn.
    destruct (String.eqb_spec name ""); [contradiction | reflexivity]. }
  unfold failed_with. rewrite Hrun. clear Hrun. repeat apply conj.
  - intros name vid s2 -> Hn Hv Hvid. rewrite (Htruthy _ Hn).
    unfold continue_with, bind, eval, gets, set_error, modify, ret.
    rewrite Hv, Hvid. cbn. rewrite !append_assoc. reflexivity.
  - intros name vid s2 f s3 -> Hn Hv Hvid Hr Hfalse. rewrite (Htruthy _ Hn).
    unfold continue_with, bind, eval, gets, set_error, modify, ret.
    rewrite Hv, Hvid. cbn. rewrite Hr, Hfalse. cbn.
    rewrite !append_assoc. reflexivity.
  - intros f s3 Hver Hr Hfalse. rewrite Hver.
    unfold continue_with, bind, eval, gets, set_error, modify, ret.
    rewrite Hr, Hfalse. reflexivity.
Qed.


End Resolution.

(** ** The scenarios, run *)

(** C5 at the input that breaks it: the info endpoint answers a mapping
    without [version], [isInstalled] returns the bare [True], and
    uninstall raises a TypeError at ['version' in currentVersion] instead
    of returning [False]; no task was submitted. *)
Theorem uninstall_bare_true_raises :
  fst (isInstalled ex_lib bare_world VFalse no_kw (init ∅)) = Ok VTrue
  /\ fst (uninstallAS3 ex_lib bare_world no_kw (init ∅))
     = Raise (TypeError "argument is not iterable")
  /\ forallb quiet (trace (snd (uninstallAS3 ex_lib bare_world no_kw (init ∅))))
     = true.
Proof. vm_compute. repeat split. Qed.

(** C6 at the input that breaks it: release 222 has no asset whose name
    ends in rpm; the notes are written and the loop ends without a
    [return], so the result is [None], neither a file name nor [False]. *)
Theorem retrieveVersion_without_package_returns_None :
  fst (retrieveVersion ex_lib ex_world 1 (VInt 222) (init ∅)) = Ok VNone
  /\ files (snd (retrieveVersion ex_lib ex_world 1 (VInt 222) (init ∅)))
     = {[ "release-notes-v3.17.0.txt" := "draft" ]}.
Proof. vm_compute. split; reflexivity. Qed.

(** The end-to-end scenario of the specification: the latest id is 111,
    release 111 is v3.16.0 with the notes "notes" and one package. *)
Example retrieveVersion_end_to_end :
  fst (retrieveVersion ex_lib ex_world 2 VFalse (init ∅))
    = Ok (VStr "f5-appsvcs-3.16.0.rpm")
  /\ files (snd (retrieveVersion ex_lib ex_world 2 VFalse (init ∅)))
     = {[ "release-notes-v3.16.0.txt" := "notes";
          "f5-appsvcs-3.16.0.rpm" := "RPMDATA" ]}.
Proof. vm_compute. split; reflexivity. Qed.

(** Line 279 at work: the device still reports the package after the
    task, and uninstall raises instead of returning [False]. *)
Example uninstall_still_installed_raises :
  fst (uninstallAS3 ex_lib ex_world no_kw (init ∅))
    = Raise (TypeError "object is not callable").
Proof. vm_compute. reflexivity. Qed.

(** C1 as stated fails: no release is named v0.0.0, [versionToId] returns
    [False], and [self.error] is still the empty string of a fresh
    instance. *)
Lemma versionToId_unmatched_stores_no_message :
  ~ error_contract (versionToId ex_lib ex_world (VStr "v0.0.0") (init ∅)).
Proof.
  intros H. destruct H as [_ Hm].
  - vm_compute. reflexivity.
  - vm_compute in Hm. apply Hm. reflexivity.
Qed.

(** C7 as stated fails: the latest pointer is fetched and carries the id
    0; the recursive call finds its argument falsy and fetches the pointer
    again, so one level of recursion does not end the call. *)
Lemma latest_id_zero_recurses_again :
  ~ recursion_claim ex_lib zero_world (init ∅).
Proof.
  intros H. destruct H as [_ Hdeep].
  - exists (VStr (json_text latest0)). split; vm_compute; reflexivity.
  - apply Hdeep. vm_compute. reflexivity.
Qed.

(** ** The theorems at work *)

(** C9 on the healthy device, which reports 3.16.0: asking for 3.15.0 gives
    [False], asking for 3.16.0 or for nothing gives the mapping. *)
Lemma isInstalled_version_check_witness :
  fst (isInstalled ex_lib ex_world (VStr "3.15.0") no_kw (init ∅)) = Ok VFalse
  /\ fst (isInstalled ex_lib ex_world (VStr "3.16.0") no_kw (init ∅))
     = Ok ex_info
  /\ fst (isInstalled ex_lib ex_world VFalse no_kw (init ∅)) = Ok ex_info.
Proof.
  pose (st1 := snd (ensure_session ex_lib ex_world (resolve no_kw (init ∅))
                      (init ∅))).
  assert (Hs : ensure_session ex_lib ex_world (resolve no_kw (init ∅)) (init ∅)
               = (Ok true, st1)) by (vm_compute; reflexivity).
  assert (Hr : reply (iCR_get ex_world (trace st1) info_uri)
               = VDict [("version", VStr "3.16.0"); ("release", VStr "6")])
    by (vm_compute; reflexivity).
  assert (Hv : assoc "version"
                 [("version", VStr "3.16.0"); ("release", VStr "6")]
               = Some (VStr "3.16.0")) by reflexivity.
  split; [|split].
  - exact (isInstalled_version_check ex_lib ex_world (VStr "3.15.0") no_kw
             (init ∅) st1 _ _ Hs Hr Hv).
  - exact (isInstalled_version_check ex_lib ex_world (VStr "3.16.0") no_kw
             (init ∅) st1 _ _ Hs Hr Hv).
  - exact (isInstalled_version_check ex_lib ex_world VFalse no_kw
             (init ∅) st1 _ _ Hs Hr Hv).
Defined.

(** C10 on the device that reports no version: asking for 3.16.0 gives
    [True]. *)
Lemma isInstalled_without_version_field_witness :
  fst (isInstalled ex_lib bare_world (VStr "3.16.0") no_kw (init ∅)) = Ok VTrue.
Proof.
  apply (isInstalled_without_version_field ex_lib bare_world (VStr "3.16.0")
           no_kw (init ∅)
           (snd (ensure_session ex_lib bare_world (resolve no_kw (init ∅))
                   (init ∅))));
    vm_compute; reflexivity.
Defined.

(** C8 on the catalog of two releases: v3.17.0 is the second one, id 222;
    v3.1 is a prefix of both names and the name of none. *)
Lemma versionToId_first_exact_match_witness :
  fst (versionToId ex_lib ex_world (VStr "v3.17.0") (init ∅)) = Ok (VStr "222")
  /\ fst (versionToId ex_lib ex_world (VStr "v3.1") (init ∅)) = Ok VFalse
  /\ fst (versionToId ex_lib offline_world (VStr "v3.17.0") (init ∅))
     = Ok VFalse.
Proof.
  split; [|split].
  - apply (versionToId_first_exact_match ex_lib ex_world "v3.17.0" (init ∅)
             (VStr (json_text (VList [release111; release222])))
             (snd (github ex_lib ex_world "releases" github_defaults (init ∅)))
             [release111; release222]);
      [vm_compute; reflexivity | intros _; vm_compute; reflexivity
      | reflexivity].
  - apply (versionToId_first_exact_match ex_lib ex_world "v3.1" (init ∅)
             (VStr (json_text (VList [release111; release222])))
             (snd (github ex_lib ex_world "releases" github_defaults (init ∅)))
             [release111; release222]);
      [vm_compute; reflexivity | intros _; vm_compute; reflexivity
      | reflexivity].
  - apply (versionToId_first_exact_match ex_lib offline_world "v3.17.0"
             (init ∅) VFalse
             (snd (github ex_lib offline_world "releases" github_defaults
                     (init ∅))) []);
      [vm_compute; reflexivity | discriminate | reflexivity].
Defined.

(** C7, amended, on the scenario of the specification: the latest id is
    111, and [retrieveVersion()] is [retrieveVersion(release=111)] run
    after the fetch of the pointer. *)
Lemma retrieveVersion_latest_once_witness :
  let st1 :=
    snd (github ex_lib ex_world "releases/latest" github_defaults (init ∅)) in
  retrieveVersion ex_lib ex_world 2 VFalse (init ∅)
    = retrieveVersion ex_lib ex_world 1 (VInt 111) st1
  /\ fst (retrieveVersion ex_lib ex_world 1 (VInt 111) st1) <> OutOfFuel
  /\ fst (retrieveVersion ex_lib ex_world 1 VFalse (init ∅)) = OutOfFuel.
Proof.
  intros st1.
  apply (retrieveVersion_latest_once ex_lib ex_world 0 0 (init ∅)
           (VStr (json_text latest111)) st1 latest111 (VInt 111));
    vm_compute; reflexivity.
Defined.

(** C3 on the healthy device: the file named does not exist. *)
Lemma install_missing_file_no_upload_witness :
  exists st2,
    installAS3 ex_lib ex_world 1 VFalse (VStr "missing.rpm") no_kw (init ∅)
      = (Ok VFalse, st2)
    /\ extends_quietly (init ∅) st2.
Proof.
  apply (install_missing_file_no_upload ex_lib ex_world 1 VFalse
           (VStr "missing.rpm") no_kw (init ∅) "missing.rpm"
           (snd (install_prepare ex_lib ex_world 1 VFalse (VStr "missing.rpm")
                   (resolve no_kw (init ∅)) (init ∅))));
    vm_compute; reflexivity.
Defined.

(** C2 on the device that answers the task with 403: install returns
    [False] with the task-submission message; and on the healthy device,
    which answers 202: install goes on to the verification and returns
    [True]. *)
Lemma install_requires_202_witness :
  fst (installAS3 ex_lib refusing_world 1 VFalse (VStr "pkg.rpm") no_kw with_pkg)
    = Ok VFalse
  /\ self_error
       (snd (installAS3 ex_lib refusing_world 1 VFalse (VStr "pkg.rpm") no_kw
               with_pkg))
     = VStr "request to perform install task for pkg.rpm failed: Forbidden"
  /\ fst (installAS3 ex_lib ex_world 1 VFalse (VStr "pkg.rpm") no_kw with_pkg)
     = Ok VTrue.
Proof.
  pose (c := resolve no_kw with_pkg).
  assert (Hrefused :
    let run :=
      installAS3 ex_lib refusing_world 1 VFalse (VStr "pkg.rpm") no_kw with_pkg
    in
    fst run = Ok VFalse
    /\ self_error (snd run)
       = VStr "request to perform install task for pkg.rpm failed: Forbidden").
  { pose (st1 := snd (install_prepare ex_lib refusing_world 1 VFalse
                        (VStr "pkg.rpm") c with_pkg)).
    pose (st2 := snd (install_upload refusing_world (VStr "pkg.rpm") c st1)).
    destruct (install_requires_202 ex_lib refusing_world 1 VFalse
                (VStr "pkg.rpm") no_kw with_pkg (VStr "pkg.rpm") st1 "pkg.rpm"
                st2 (json_text (install_task "pkg.rpm")))
      as [b [Hb Hrun]]; [vm_compute; reflexivity..|].
    cbn zeta in Hrun. cbn zeta. rewrite Hrun.
    split; vm_compute; reflexivity. }
  destruct Hrefused as [H1 H2]. split; [exact H1|]. split; [exact H2|].
  pose (st1 := snd (install_prepare ex_lib ex_world 1 VFalse (VStr "pkg.rpm") c
                      with_pkg)).
  pose (st2 := snd (install_upload ex_world (VStr "pkg.rpm") c st1)).
  destruct (install_requires_202 ex_lib ex_world 1 VFalse (VStr "pkg.rpm")
              no_kw with_pkg (VStr "pkg.rpm") st1 "pkg.rpm" st2
              (json_text (install_task "pkg.rpm")))
    as [b [Hb Hrun]]; [vm_compute; reflexivity..|].
  vm_compute in Hb. injection Hb as <-.
  cbn zeta in Hrun. rewrite Hrun. vm_compute. reflexivity.
Defined.

(** C4 on the device whose upload fails while the task is accepted and the
    package is reported afterwards: the upload message is recorded, the
    task is submitted, and install returns [True], with the upload message
    still in [self.error]. *)
Lemma install_upload_failure_continues_witness :
  (exists st2,
     self_error st2
       = VStr "Upload of file pkg.rpm to host 127.0.0.1 failed. upload error"
     /\ installAS3 ex_lib upload_fails_world 1 VFalse (VStr "pkg.rpm") no_kw
          with_pkg
        = continue_with (install_submit ex_lib upload_fails_world "pkg.rpm")
            (fun _ => install_verify ex_lib upload_fails_world "pkg.rpm"
                        (resolve no_kw with_pkg)) st2)
  /\ In (ECreate tasks_uri (VStr (json_text (install_task "pkg.rpm"))))
       (trace (snd (installAS3 ex_lib upload_fails_world 1 VFalse
                      (VStr "pkg.rpm") no_kw with_pkg)))
  /\ installAS3 ex_lib upload_fails_world 1 VFalse (VStr "pkg.rpm") no_kw
       with_pkg
     = (Ok VTrue,
        snd (installAS3 ex_lib upload_fails_world 1 VFalse (VStr "pkg.rpm")
               no_kw with_pkg))
  /\ self_error
       (snd (installAS3 ex_lib upload_fails_world 1 VFalse (VStr "pkg.rpm")
               no_kw with_pkg))
     = VStr "Upload of file pkg.rpm to host 127.0.0.1 failed. upload error".
Proof.
  pose (c := resolve no_kw with_pkg).
  pose (st1 := snd (install_prepare ex_lib upload_fails_world 1 VFalse
                      (VStr "pkg.rpm") c with_pkg)).
  destruct (install_upload_failure_continues ex_lib upload_fails_world 1 VFalse
              (VStr "pkg.rpm") no_kw with_pkg "pkg.rpm" st1
              (json_text (install_task "pkg.rpm")))
    as [st2 [He [_ [Hrun Hin]]]].
  - vm_compute. reflexivity.
  - exists "RPMDATA". vm_compute. reflexivity.
  - vm_compute. reflexivity.
  - vm_compute. reflexivity.
  - split; [|split; [|split]].
    + exists st2. split; [exact He | exact Hrun].
    + exact Hin.
    + vm_compute. reflexivity.
    + vm_compute. reflexivity.
Defined.

(** C1, amended, on the scenarios: the unreachable catalog, the catalog
    without the requested name, the device that refuses the connection,
    the command, the task, and the device that reports no release. *)
Lemma failure_reporting_witness :
  (* the catalog is unreachable *)
  fst (github ex_lib offline_world "releases" github_defaults (init ∅))
    = Ok VFalse
  /\ self_error
       (snd (github ex_lib offline_world "releases" github_defaults (init ∅)))
     = VExc (RequestException "Connection refused")
  /\ versionToId ex_lib offline_world (VStr "v3.16.0") (init ∅)
     = (Ok VFalse,
        snd (github ex_lib offline_world "releases" github_defaults (init ∅)))
  /\ retrieveVersion ex_lib offline_world 1 (VInt 111) (init ∅)
     = (Ok VFalse,
        snd (github ex_lib offline_world "releases/111" github_defaults
               (init ∅)))
  (* no message of their own *)
  /\ self_error (snd (versionToId ex_lib ex_world (VStr "v0.0.0") (init ∅)))
     = self_error
         (snd (github ex_lib ex_world "releases" github_defaults (init ∅)))
  /\ self_error (snd (isInstalled ex_lib ex_world (VStr "3.15.0") no_kw (init ∅)))
     = self_error
         (snd (ensure_session ex_lib ex_world (resolve no_kw (init ∅)) (init ∅)))
  (* the connection, the command, the verification *)
  /\ self_error (snd (bigipConnect ex_lib locked_world no_kw (init ∅)))
     = VStr "Authentication failed"
  /\ (exists st',
        installAS3 ex_lib readonly_world 1 VFalse (VStr "pkg.rpm") no_kw with_pkg
          = (Ok VFalse, st')
        /\ self_error st'
           = VStr "Cannot perform touch on /var/config/rest/iapps/enable")
  /\ fst (install_verify ex_lib offline_world "pkg.rpm"
            (resolve no_kw (init ∅)) (init ∅)) = Ok VFalse
  (* uninstall *)
  /\ self_error (snd (uninstallAS3 ex_lib offline_world no_kw (init ∅)))
     = VStr "Error retrieving the current version from 127.0.0.1"
  /\ self_error (snd (uninstallAS3 ex_lib no_release_world no_kw (init ∅)))
     = VStr "Cannot find version or release in current version"
  /\ (exists st',
        uninstallAS3 ex_lib refusing_world no_kw (init ∅) = (Ok VFalse, st')
        /\ self_error st'
           = VStr "Error uninstalling package f5-appsvcs-3.16.0-6.noarch").
Proof.
  destruct (failure_reporting ex_lib offline_world)
    as [F1 [G1 [F2 [F3 [_ [_ [_ [_ [F8 [F9 _]]]]]]]]]].
  destruct (failure_reporting ex_lib ex_world) as [_ [_ [_ [_ [F4 [F5 _]]]]]].
  destruct (failure_reporting ex_lib locked_world)
    as [_ [_ [_ [_ [_ [_ [F6 _]]]]]]].
  destruct (failure_reporting ex_lib readonly_world)
    as [_ [_ [_ [_ [_ [_ [_ [F7 _]]]]]]]].
  destruct (failure_reporting ex_lib no_release_world)
    as [_ [_ [_ [_ [_ [_ [_ [_ [_ [_ [F10 _]]]]]]]]]]].
  destruct (failure_reporting ex_lib refusing_world)
    as [_ [_ [_ [_ [_ [_ [_ [_ [_ [_ [_ F11]]]]]]]]]]].
  repeat apply conj.
  - destruct (F1 "releases" github_defaults (init ∅) _ _
                (surjective_pairing _)) as [[Hr _]|[_ He]];
      [exact Hr | vm_compute in He; discriminate].
  - rewrite (G1 "releases" github_defaults (init ∅)
               (RequestException "Connection refused"));
      reflexivity.
  - apply (F2 (VStr "v3.16.0") (init ∅) VFalse); vm_compute; reflexivity.
  - apply (F3 0%nat (VInt 111) (init ∅) VFalse); vm_compute; reflexivity.
  - apply (F4 _ _ _ _ (surjective_pairing _)).
  - apply F5. vm_compute. reflexivity.
  - destruct (F6 no_kw (init ∅) VFalse
                (snd (bigipConnect ex_lib locked_world no_kw (init ∅))))
      as [H|H]; [vm_compute; reflexivity | reflexivity | | ].
    + vm_compute in H. discriminate.
    + rewrite H. vm_compute. reflexivity.
  - apply (F7 1%nat VFalse (VStr "pkg.rpm") no_kw with_pkg
             (snd (ensure_session ex_lib readonly_world
                     (resolve no_kw with_pkg) with_pkg)) fresh_session);
      vm_compute; reflexivity.
  - rewrite (F8 "pkg.rpm" (resolve no_kw (init ∅)) (init ∅) VFalse
               (snd (isInstalled ex_lib offline_world VFalse
                       (explicit (resolve no_kw (init ∅)))
                       (logged "Checking whether the package is installed"
                          (with_trace
                             (ESleep 5
                              :: trace (logged "Waiting for 5 secs" (init ∅)))
                             (logged "Waiting for 5 secs" (init ∅)))))));
      [reflexivity | vm_compute; reflexivity | reflexivity].
  - rewrite (F9 no_kw (init ∅)
               (snd (ensure_session ex_lib offline_world
                       (resolve no_kw (init ∅)) (init ∅)))
               VFalse
               (snd (isInstalled ex_lib offline_world VFalse
                       (explicit (resolve no_kw (init ∅)))
                       (snd (ensure_session ex_lib offline_world
                               (resolve no_kw (init ∅)) (init ∅))))));
      [reflexivity | vm_compute; reflexivity | vm_compute; reflexivity
      | reflexivity].
  - rewrite (F10 no_kw (init ∅)
               (snd (ensure_session ex_lib no_release_world
                       (resolve no_kw (init ∅)) (init ∅)))
               [("version", VStr "3.16.0")]
               (snd (isInstalled ex_lib no_release_world VFalse
                       (explicit (resolve no_kw (init ∅)))
                       (snd (ensure_session ex_lib no_release_world
                               (resolve no_kw (init ∅)) (init ∅))))));
      [reflexivity | vm_compute; reflexivity | vm_compute; reflexivity
      | discriminate | right; reflexivity].
  - apply (F11 no_kw (init ∅)
             (snd (ensure_session ex_lib refusing_world
                     (resolve no_kw (init ∅)) (init ∅)))
             [("version", VStr "3.16.0"); ("release", VStr "6")]
             (snd (isInstalled ex_lib refusing_world VFalse
                     (explicit (resolve no_kw (init ∅)))
                     (snd (ensure_session ex_lib refusing_world
                             (resolve no_kw (init ∅)) (init ∅)))))
             "3.16.0" "6" fresh_session);
      vm_compute; reflexivity.
Defined.


(** ** More of the module, at work *)

(** X1 on the healthy device, with the debug flag of a fresh instance. *)
Lemma nothing_printed_without_debug_witness :
  only no_print with_pkg
    (snd (installAS3 ex_lib ex_world 1 VFalse (VStr "pkg.rpm") no_kw with_pkg))
  /\ only no_print with_pkg (snd (uninstallAS3 ex_lib ex_world no_kw with_pkg)).
Proof.
  destruct (nothing_printed_without_debug ex_lib ex_world 1 VFalse
              (VStr "pkg.rpm") VFalse "releases" github_defaults no_kw
              with_pkg eq_refl)
    as [_ [_ [_ [_ [_ [Hi Hu]]]]]].
  split; [exact Hi | exact Hu].
Defined.

(** X2 after a successful [bigipConnect]: install opens no session. *)
Lemma session_is_reused_witness :
  let st := snd (bigipConnect ex_lib ex_world no_kw with_pkg) in
  let st' :=
    snd (installAS3 ex_lib ex_world 1 VFalse (VStr "pkg.rpm") no_kw st) in
  connected st' = true /\ only no_connect st st'.
Proof.
  intros st st'.
  destruct (session_is_reused ex_lib ex_world 1 VFalse (VStr "pkg.rpm") no_kw
              st) as [_ [Hi _]];
    [vm_compute; reflexivity | exact Hi].
Defined.

(** X7 on a device that answers a falsy session and the token [None]:
    the connection succeeds and [self.bigip] is falsy. *)
Lemma bigipConnect_token_decides_witness :
  fst (bigipConnect ex_lib half_open_world with_token (init ∅)) = Ok VTrue
  /\ connected (snd (bigipConnect ex_lib half_open_world with_token (init ∅)))
     = false.
Proof.
  destruct (bigipConnect_token_decides ex_lib half_open_world with_token
              (init ∅) eq_refl) as [_ H].
  destruct H as [Hr _]; [vm_compute; reflexivity|].
  split; [exact Hr | vm_compute; reflexivity].
Defined.

(** X8 on the catalog of the scenarios: [versionToId] sends the one
    request for the list; a post of a generator sends none. *)
Lemma catalog_requests_witness :
  requests_in
    (trace (snd (versionToId ex_lib ex_world (VStr "v3.17.0") (init ∅))))
    = [get_request "releases" github_defaults]
  /\ fst (github ex_lib ex_world "releases" bad_post (init ∅)) = Ok VFalse
  /\ requests_in (trace (snd (github ex_lib ex_world "releases" bad_post (init ∅))))
     = [].
Proof.
  destruct (catalog_requests ex_lib ex_world "releases" bad_post
              (VStr "v3.17.0") (init ∅)) as [Hg [Hp Hv]].
  split; [exact Hv|]. split.
  - rewrite Hp; reflexivity.
  - exact Hg.
Defined.

(** X9 on a list whose second entry is a string: the first entry is found,
    and a version that is not the first entry raises. *)
Lemma versionToId_stops_at_first_match_witness :
  fst (versionToId odd_lib odd_world (VStr "v3.16.0") (init ∅))
    = Ok (VStr "111")
  /\ exists e,
       fst (versionToId odd_lib odd_world (VStr "v9.9.9") (init ∅)) = Raise e.
Proof.
  pose (st1 := snd (github odd_lib odd_world "releases" github_defaults (init ∅))).
  split.
  - destruct (versionToId_stops_at_first_match odd_lib odd_world "v3.16.0"
                (init ∅) (json_text odd_list) st1 [] release111
                [VStr "garbage"]) as [H _];
      [vm_compute; reflexivity | vm_compute; discriminate
      | vm_compute; reflexivity | reflexivity | reflexivity |].
    apply (H (VInt 111)); reflexivity.
  - destruct (versionToId_stops_at_first_match odd_lib odd_world "v9.9.9"
                (init ∅) (json_text odd_list) st1 [release111]
                (VStr "garbage") []) as [_ H];
      [vm_compute; reflexivity | vm_compute; discriminate
      | vm_compute; reflexivity | reflexivity | reflexivity |].
    apply H. reflexivity.
Defined.

(** X11 on release 111: the package is in the working directory. *)
Lemma downloaded_file_exists_witness :
  is_Some
    (files (snd (retrieveVersion ex_lib ex_world 1 (VInt 111) (init ∅)))
       !! "f5-appsvcs-3.16.0.rpm").
Proof.
  destruct (downloaded_file_exists ex_lib ex_world 1 (VInt 111) VFalse VFalse
              (resolve no_kw (init ∅)) (init ∅)) as [H _].
  destruct (H (VStr "f5-appsvcs-3.16.0.rpm")
              (snd (retrieveVersion ex_lib ex_world 1 (VInt 111) (init ∅))))
    as [E|[E|[n [E [_ Hn]]]]];
    [vm_compute; reflexivity | discriminate | discriminate |].
  injection E as <-. exact Hn.
Defined.

(** X12 on release 333, whose body is null. *)
Lemma retrieveVersion_body_not_text_witness :
  fst (retrieveVersion odd_lib odd_world 1 (VInt 333) (init ∅))
    = Raise (AttributeError "object has no attribute encode")
  /\ files (snd (retrieveVersion odd_lib odd_world 1 (VInt 333) (init ∅))) = ∅.
Proof.
  destruct (retrieveVersion_body_not_text odd_lib odd_world 0 (VInt 333)
              (init ∅) (json_text release333)
              (snd (github odd_lib odd_world "releases/333" github_defaults
                      (init ∅)))
              [("id", VInt 333); ("name", VStr "v3.18.0"); ("body", VNone);
               ("assets", VList [])]
              "v3.18.0" (VInt 333) VNone
              (AttributeError "object has no attribute encode"))
    as [Hrun Hf];
    [reflexivity | vm_compute; reflexivity | vm_compute; discriminate
    | vm_compute; reflexivity | reflexivity | reflexivity | reflexivity
    | reflexivity |].
  split; [rewrite Hrun; reflexivity | exact Hf].
Defined.

(** X13 behind a proxy that answers every request with a page. *)
Lemma catalog_answer_not_json_witness :
  fst (versionToId ex_lib proxy_world (VStr "v3.16.0") (init ∅))
    = Raise (ValueError "Expecting value")
  /\ fst (retrieveVersion ex_lib proxy_world 1 (VInt 111) (init ∅))
     = Raise (ValueError "Expecting value")
  /\ fst (installAS3 ex_lib proxy_world 1 (VStr "v3.16.0") VFalse no_kw (init ∅))
     = Raise (ValueError "Expecting value").
Proof.
  destruct (catalog_answer_not_json ex_lib proxy_world "<html>busy</html>")
    as [Hv [Hr Hi]]; [discriminate | reflexivity |].
  split; [|split].
  - rewrite (Hv (VStr "v3.16.0") (init ∅)
               (snd (github ex_lib proxy_world "releases" github_defaults
                       (init ∅))));
      [reflexivity | vm_compute; reflexivity].
  - rewrite (Hr 0%nat (VInt 111) (init ∅)
               (snd (github ex_lib proxy_world "releases/111" github_defaults
                       (init ∅))));
      [reflexivity | reflexivity | vm_compute; reflexivity].
  - pose (st0 := snd (ensure_session ex_lib proxy_world
                        (resolve no_kw (init ∅)) (init ∅))).
    rewrite (Hi 1%nat (VStr "v3.16.0") no_kw (init ∅) st0 fresh_session
               (snd (github ex_lib proxy_world "releases" github_defaults
                       (touched_state proxy_world fresh_session st0))));
      [reflexivity | vm_compute; reflexivity..].
Defined.

(** X15 on a device that answers the empty mapping, and on the healthy
    device. *)
Lemma isInstalled_result_witness :
  fst (isInstalled ex_lib empty_world VFalse no_kw (init ∅)) = Ok VFalse
  /\ installed_state ex_world ex_info.
Proof.
  split.
  - destruct (isInstalled_result ex_lib empty_world VFalse no_kw (init ∅))
      as [_ H].
    apply (H (snd (ensure_session ex_lib empty_world (resolve no_kw (init ∅))
                     (init ∅)))); vm_compute; reflexivity.
  - destruct (isInstalled_result ex_lib ex_world VFalse no_kw (init ∅))
      as [H _].
    apply (H ex_info (snd (isInstalled ex_lib ex_world VFalse no_kw (init ∅)))).
    vm_compute. reflexivity.
Defined.

(** X16 on a device that drops the package when the task is submitted, and
    on the healthy device, which goes on reporting it. *)
Lemma uninstall_after_task_witness :
  fst (uninstallAS3 ex_lib removing_world no_kw (init ∅)) = Ok VTrue
  /\ fst (uninstallAS3 ex_lib ex_world no_kw (init ∅))
     = Raise (TypeError "object is not callable").
Proof.
  pose (c := resolve no_kw (init ∅)).
  pose (d := [("version", VStr "3.16.0"); ("release", VStr "6")]).
  split.
  - pose (st0 := snd (ensure_session ex_lib removing_world c (init ∅))).
    pose (st1 := snd (isInstalled ex_lib removing_world VFalse (explicit c) st0)).
    pose (waited :=
            with_bigip
              (Some (answered
                       (iCR_create removing_world (trace st1) tasks_uri
                          (uninstall_task "3.16.0" "6")) fresh_session))
              (with_trace
                 (ESleep 5
                  :: ECreate tasks_uri (uninstall_task "3.16.0" "6")
                  :: trace st1) st1)).
    rewrite (uninstall_after_task ex_lib removing_world no_kw (init ∅) st0 d st1
               "3.16.0" "6" fresh_session
               (fst (isInstalled ex_lib removing_world VFalse (explicit c) waited))
               (snd (isInstalled ex_lib removing_world VFalse (explicit c) waited)));
      [vm_compute; reflexivity | vm_compute; reflexivity..].
  - pose (st0 := snd (ensure_session ex_lib ex_world c (init ∅))).
    pose (st1 := snd (isInstalled ex_lib ex_world VFalse (explicit c) st0)).
    pose (waited :=
            with_bigip
              (Some (answered
                       (iCR_create ex_world (trace st1) tasks_uri
                          (uninstall_task "3.16.0" "6")) fresh_session))
              (with_trace
                 (ESleep 5
                  :: ECreate tasks_uri (uninstall_task "3.16.0" "6")
                  :: trace st1) st1)).
    rewrite (uninstall_after_task ex_lib ex_world no_kw (init ∅) st0 d st1
               "3.16.0" "6" fresh_session
               (fst (isInstalled ex_lib ex_world VFalse (explicit c) waited))
               (snd (isInstalled ex_lib ex_world VFalse (explicit c) waited)));
      [vm_compute; reflexivity | vm_compute; reflexivity..].
Defined.

(** X17 on the device that refuses the connection. *)
Lemma connection_failure_ends_the_call_witness :
  fst (installAS3 ex_lib locked_world 1 VFalse (VStr "pkg.rpm") no_kw with_pkg)
    = Ok VFalse
  /\ fst (uninstallAS3 ex_lib locked_world no_kw with_pkg) = Ok VFalse
  /\ fst (isInstalled ex_lib locked_world VFalse no_kw with_pkg) = Ok VFalse.
Proof.
  destruct (connection_failure_ends_the_call ex_lib locked_world 1 VFalse
              (VStr "pkg.rpm") no_kw with_pkg
              (snd (ensure_session ex_lib locked_world (resolve no_kw with_pkg)
                      with_pkg)))
    as [Hi [Hu [Hq _]]]; [vm_compute; reflexivity|].
  rewrite Hi, Hu, Hq. repeat split.
Defined.

(** X18 on the healthy device: install returns [True]. *)
Lemma install_and_uninstall_return_booleans_witness :
  boolean VTrue.
Proof.
  apply (proj1 (install_and_uninstall_return_booleans ex_lib ex_world 1 VFalse
                  (VStr "pkg.rpm") no_kw)
           with_pkg VTrue
           (snd (installAS3 ex_lib ex_world 1 VFalse (VStr "pkg.rpm") no_kw
                   with_pkg))).
  vm_compute. reflexivity.
Defined.

(** X20 on the healthy device. *)
Lemma install_true_sequence_witness :
  exists name data,
    json_dumps ex_lib (install_task name) = Some data
    /\ passed with_pkg
         [EGet info_uri; ESleep 5; ECreate tasks_uri (VStr data);
          EUpload name; ECommand "touch /var/config/rest/iapps/enable"]
         (snd (installAS3 ex_lib ex_world 1 VFalse (VStr "pkg.rpm") no_kw
                 with_pkg)).
Proof.
  apply (install_true_sequence ex_lib ex_world 1 VFalse (VStr "pkg.rpm") no_kw
           with_pkg).
  vm_compute. reflexivity.
Defined.

(** X21 with a version that no release has: the file name is used. *)
Lemma explicit_filename_skips_catalog_witness :
  installAS3 ex_lib ex_world 1 (VStr "v9.9.9") (VStr "pkg.rpm") no_kw with_pkg
    = installAS3 ex_lib ex_world 0 VFalse (VStr "pkg.rpm") no_kw with_pkg
  /\ only off_catalog with_pkg
       (snd (installAS3 ex_lib ex_world 1 (VStr "v9.9.9") (VStr "pkg.rpm")
               no_kw with_pkg)).
Proof.
  destruct (explicit_filename_skips_catalog ex_lib ex_world 1 0 (VStr "v9.9.9")
              VFalse (VStr "pkg.rpm") no_kw with_pkg eq_refl)
    as [H1 [_ H3]].
  split; [exact H1 | exact H3].
Defined.

(** X19 on the catalog of the scenarios: no release is named v0.0.0, and
    v3.17.0 (release 222) carries no package. *)
Lemma install_resolution_fails_witness :
  installAS3 ex_lib ex_world 1 (VStr "v0.0.0") VFalse no_kw (init ∅)
    = (Ok VFalse,
       snd (installAS3 ex_lib ex_world 1 (VStr "v0.0.0") VFalse no_kw (init ∅)))
  /\ self_error
       (snd (installAS3 ex_lib ex_world 1 (VStr "v0.0.0") VFalse no_kw (init ∅)))
     = VStr "Cannot retrieve ID for version v0.0.0 error: "
  /\ self_error
       (snd (installAS3 ex_lib ex_world 1 (VStr "v3.17.0") VFalse no_kw (init ∅)))
     = VStr "Cannot retrieve version v3.17.0 error: ".
Proof.
  pose (st0 := snd (ensure_session ex_lib ex_world (resolve no_kw (init ∅))
                      (init ∅))).
  pose (s1 := touched_state ex_world fresh_session st0).
  destruct (install_resolution_fails ex_lib ex_world 1 (VStr "v0.0.0") VFalse
              no_kw (init ∅) st0 fresh_session) as [H1 _];
    [vm_compute; reflexivity..|].
  destruct (install_resolution_fails ex_lib ex_world 1 (VStr "v3.17.0") VFalse
              no_kw (init ∅) st0 fresh_session) as [_ [H2 _]];
    [vm_compute; reflexivity..|].
  cbn zeta in H1, H2.
  pose (s2 := snd (versionToId ex_lib ex_world (VStr "v0.0.0") s1)).
  specialize (H1 "v0.0.0" VFalse s2 eq_refl).
  rewrite H1; [| discriminate | vm_compute; reflexivity | reflexivity].
  pose (s2' := snd (versionToId ex_lib ex_world (VStr "v3.17.0") s1)).
  pose (s3 := snd (retrieveVersion ex_lib ex_world 1 (VStr "222") s2')).
  specialize (H2 "v3.17.0" (VStr "222") s2' VNone s3 eq_refl).
  rewrite H2;
    [| discriminate | vm_compute; reflexivity | reflexivity
     | vm_compute; reflexivity | reflexivity].
  repeat split.
Defined.

